(** * Frame distribution server

    A shallow embedding of the two [StreamingServer] classes of the
    repository ([V1.X.X/Ableton/MaxShowmotion.py] and
    [V1.X.X/Ableton/MaxShowDepth.py]) together with their
    [StreamingHandler] HTTP handlers, and the properties of the design
    document that concern them.

    Python objects become records, attributes that may be [None] become
    options, an exception that leaves a function is an explicit [Raised]
    result, and everything a call does to the outside world (prints, file
    writes, frames pushed to the virtual camera, bytes sent on a socket) is
    recorded as a list of events.  What OpenCV, the operating system and
    the peers answer is an explicit argument of each function. *)

From Stdlib Require Import String.
From Stdlib Require Import ZArith List Lia Bool.
From Stdlib Require Import Floats.SpecFloat.
From Stdlib Require Import Strings.Byte.
From Stdlib Require Import Reals Lra.
Import ListNotations.
Open Scope string_scope.
Open Scope list_scope.
Open Scope Z_scope.

(** ** Bytes and [struct.pack] *)

Definition bytes := list byte.

Definition byte_of_Z (z : Z) : byte :=
  match Byte.of_N (Z.to_N (Z.land z 255)) with
  | Some b => b
  | None => "000"%byte
  end.

Definition Z_of_byte (b : byte) : Z := Z.of_N (Byte.to_N b).

Definition int32_min : Z := - 2 ^ 31.
Definition int32_max : Z := 2 ^ 31 - 1.

(** [struct.pack('<i', n)]: four bytes, least significant first, two's
    complement; [None] is [struct.error] (argument out of range). *)
Definition struct_pack_i (n : Z) : option bytes :=
  if (int32_min <=? n) && (n <=? int32_max) then
    Some [ byte_of_Z n; byte_of_Z (Z.shiftr n 8);
           byte_of_Z (Z.shiftr n 16); byte_of_Z (Z.shiftr n 24) ]
  else None.

(** [struct.pack('<ii', a, b)]. *)
Definition struct_pack_ii (a b : Z) : option bytes :=
  match struct_pack_i a, struct_pack_i b with
  | Some x, Some y => Some (x ++ y)
  | _, _ => None
  end.

(** ** The receiving side of the wire format

    The design document fixes the layout of a MatrixPacket; this is the
    reader it describes, written from that layout and not from the code:
    little-endian signed 32-bit fields, then exactly
    [width * height * plane_count] bytes. *)

Record MatrixPacket := {
  name_length : Z;
  name : bytes;
  dim_count : Z;
  width : Z;
  height : Z;
  type_code : Z;
  plane_count : Z;
  pixel_data : bytes
}.

(** The four bytes of a little-endian 32-bit field, by division. *)
Definition spec_le_int32 (n : Z) : bytes :=
  [ byte_of_Z (n mod 256); byte_of_Z (n / 256 mod 256);
    byte_of_Z (n / 65536 mod 256); byte_of_Z (n / 16777216 mod 256) ].

Definition spec_int32_of_le (b0 b1 b2 b3 : byte) : Z :=
  let u := Z_of_byte b0 + 2 ^ 8 * Z_of_byte b1
           + 2 ^ 16 * Z_of_byte b2 + 2 ^ 24 * Z_of_byte b3 in
  if u <? 2 ^ 31 then u else u - 2 ^ 32.

Definition spec_read_int32 (bs : bytes) : option (Z * bytes) :=
  match bs with
  | b0 :: b1 :: b2 :: b3 :: rest => Some (spec_int32_of_le b0 b1 b2 b3, rest)
  | _ => None
  end.

Definition spec_read_bytes (n : Z) (bs : bytes) : option (bytes * bytes) :=
  if (0 <=? n) && (n <=? Z.of_nat (length bs)) then
    Some (firstn (Z.to_nat n) bs, skipn (Z.to_nat n) bs)
  else None.

Definition spec_decode_packet (bs : bytes) : option MatrixPacket :=
  match spec_read_int32 bs with
  | None => None
  | Some (nl, r1) =>
    match spec_read_bytes nl r1 with
    | None => None
    | Some (nm, r2) =>
      match spec_read_int32 r2 with
      | None => None
      | Some (dc, r3) =>
        match spec_read_int32 r3 with
        | None => None
        | Some (w, r4) =>
          match spec_read_int32 r4 with
          | None => None
          | Some (h, r5) =>
            match spec_read_int32 r5 with
            | None => None
            | Some (tc, r6) =>
              match spec_read_int32 r6 with
              | None => None
              | Some (pc, r7) =>
                if Z.of_nat (length r7) =? w * h * pc then
                  Some {| name_length := nl; name := nm; dim_count := dc;
                          width := w; height := h; type_code := tc;
                          plane_count := pc; pixel_data := r7 |}
                else None
              end
            end
          end
        end
      end
    end
  end.

(** ** Python floats

    A Python [float] is an IEEE-754 binary64 number; the operations below
    are the ones of the reference implementation [SpecFloat] at precision
    53 and maximal exponent 1024, rounding to nearest even. *)

Definition py_float := spec_float.

(** [float(n)] for an integer [n], exact below [2^53] in magnitude. *)
Definition float_of_int (n : Z) : py_float := binary_normalize 53 1024 n 0 false.

(** [a / b] on two integers (true division): [None] is
    [ZeroDivisionError].  Python rounds the exact quotient once; for
    operands below [2^53] in magnitude this is the binary64 division of
    the two converted operands. *)
Definition py_truediv (a b : Z) : option py_float :=
  if b =? 0 then None
  else Some (SFdiv 53 1024 (float_of_int a) (float_of_int b)).

(** [n * x] for an integer [n] and a float [x]. *)
Definition py_mul_int_float (n : Z) (x : py_float) : py_float :=
  SFmul 53 1024 (float_of_int n) x.

(** [min(a, b)] on two floats: the builtin keeps its first argument unless
    the second compares strictly smaller. *)
Definition py_min (a b : py_float) : py_float :=
  if SFltb b a then b else a.

(** [int(x)]: truncation toward zero; [None] is the [OverflowError] /
    [ValueError] raised on an infinity or a NaN. *)
Definition py_int (x : py_float) : option Z :=
  match x with
  | S754_zero _ => Some 0
  | S754_finite s m e =>
      let a := match e with
               | Z0 => Zpos m
               | Zpos _ => Z.shiftl (Zpos m) e
               | Zneg p => Z.shiftr (Zpos m) (Zpos p)
               end in
      Some (if s then - a else a)
  | S754_infinity _ | S754_nan => None
  end.

(** The real number a finite float stands for. *)
Definition float_value (x : py_float) : R :=
  match x with
  | S754_finite s m e =>
      (if s then - IZR (Zpos m) else IZR (Zpos m)) * powerRZ 2 e
  | _ => 0%R
  end.

(** ** Frames and the OpenCV calls

    A frame is a numpy array of shape [(height, width, 3)] and dtype
    [uint8], stored row-major: its two leading dimensions and its flat
    buffer. *)

Record Frame := {
  f_height : Z;
  f_width : Z;
  f_data : bytes
}.

(** A raster image proper: not empty, dimensions that fit the C [int] of
    [cv::Mat], and a buffer of three bytes per pixel. *)
Definition valid_frame (f : Frame) : Prop :=
  0 < f_width f <= int32_max /\
  0 < f_height f <= int32_max /\
  Z.of_nat (length (f_data f)) = f_width f * f_height f * 3.

Definition frame_empty (f : Frame) : bool :=
  (f_width f <=? 0) || (f_height f <=? 0).

(** What the outside world answers during one call of [update_frame]:
    - [env_imencode]: the JPEG encoder at quality 85 ([None]: it raises);
    - [env_imwrite]: [cv.imwrite] on a path ([None]: it raises,
      [Some false]: it reports failure by its return value);
    - [env_cam_send]: whether [virtual_cam.send] goes through;
    - [env_interp]: the interpolation of [cv.resize], giving the byte at
      each flat index of the destination buffer. *)
Record Env := {
  env_imencode : Frame -> option bytes;
  env_imwrite : string -> Frame -> option bool;
  env_cam_send : Frame -> bool;
  env_interp : Frame -> Z -> Z -> nat -> byte
}.

(** [cv.imencode('.jpg', frame, [IMWRITE_JPEG_QUALITY, 85])] followed by
    [buffer.tobytes()]; OpenCV asserts that the image is not empty. *)
Definition cv_imencode (env : Env) (frame : Frame) : option bytes :=
  if frame_empty frame then None else env_imencode env frame.

(** [cv.imwrite(path, frame)]; OpenCV asserts that the image is not empty. *)
Definition cv_imwrite (env : Env) (path : string) (frame : Frame) : option bool :=
  if frame_empty frame then None else env_imwrite env path frame.

(** Channel swap of a flat three-channel buffer. *)
Fixpoint swap_channels (l : bytes) : bytes :=
  match l with
  | b :: g :: r :: rest => r :: g :: b :: swap_channels rest
  | rest => rest
  end.

(** [cv.cvtColor(frame, COLOR_BGR2RGB)]; raises on an empty image. *)
Definition cv_cvtColor_BGR2RGB (frame : Frame) : option Frame :=
  if frame_empty frame then None
  else Some {| f_height := f_height frame; f_width := f_width frame;
               f_data := swap_channels (f_data frame) |}.

(** [cv.resize(src, (new_width, new_height))]: the destination has the
    requested size; OpenCV raises when the source or the requested size is
    empty. *)
Definition cv_resize (env : Env) (src : Frame) (new_width new_height : Z) : option Frame :=
  if frame_empty src || (new_width <=? 0) || (new_height <=? 0) then None
  else Some {| f_height := new_height; f_width := new_width;
               f_data := map (env_interp env src new_width new_height)
                             (seq 0 (Z.to_nat (new_height * new_width * 3))) |}.

(** [rgb_frame.tobytes()]. *)
Definition tobytes (f : Frame) : bytes := f_data f.

(** ** Exceptions, results and observable events *)

Inductive exn := cv2_error | OSError | struct_error | ImportError | RuntimeError.

(** The diagnostics the two servers print, one constructor per [print]
    statement of the sources, with the values it interpolates (the text
    of a caught exception is kept only where a single call can raise). *)
Inductive Diag :=
| VideoStreamAvailable (port : Z)
| DepthStreamAvailable (port : Z)
| SingleFrameAvailable (port : Z)
| LocalFileUpdatedAt (path : string)
| MaxPatchRead (path : string)
| ObsBrowserSource (port : Z)
| ObsImageSource (path : string)
| VirtualCameraCreated (device : string)
| MaxPatchJitGrab (device : string)
| ObsVideoCaptureDevice (device : string)
| PyvirtualcamNotInstalled
| NoteObsVirtualCamera
| FailedCreateVirtualCamera
| TcpServerListening (tcp_port : Z)
| TcpSocketCreationFailed (e : exn)
| JitNetRecvConnected (addr : Z)
| TcpAcceptError (e : exn)
| LocalFileSaved (path : string)
| FailedSaveLocalFile (e : exn)
| FailedSendVirtualCamera
| FirstFramePrepared (width height size : Z)
| PreparedFrames (count width height size : Z)
| FramePreparationError.

Inductive Event :=
| EPrint (d : Diag)
| ETraceback
| EFileWritten (path : string) (frame : Frame)
| ECamSend (frame : Frame)
| ECamSleep
| ETcpSend (client : Z) (data : bytes)
| ESleep.

(** The result of a call: it returns or an exception leaves it; both carry
    the object as the call left it and what the call did. *)
Inductive Result (A : Type) :=
| Returned (self : A) (out : list Event)
| Raised (e : exn) (self : A) (out : list Event).
Arguments Returned {A} self out.
Arguments Raised {A} e self out.

Definition result_self {A} (r : Result A) : A :=
  match r with Returned s _ | Raised _ s _ => s end.

Definition result_out {A} (r : Result A) : list Event :=
  match r with Returned _ o | Raised _ _ o => o end.

Definition raised {A} (r : Result A) : bool :=
  match r with Returned _ _ => false | Raised _ _ _ => true end.

(** A small error monad for the blocks that sit inside one [try]. *)
Definition bind {A B} (x : option A) (k : A -> option B) : option B :=
  match x with Some a => k a | None => None end.
Notation "x <- e ;; k" := (bind e (fun x => k))
  (at level 61, e at next level, right associativity).
Notation "' pat <- e ;; k" := (bind e (fun x => match x with pat => k end))
  (at level 61, pat pattern, e at next level, right associativity).

(** ** The objects a server holds *)

(** The [HTTPServer] instance: the attribute [frame_bytes] that
    [update_frame] plants on it (absent until then), whether its
    [serve_forever] loop runs, and whether its listening socket is open
    ([shutdown()] ends the loop; only [server_close()] closes the socket). *)
Record HTTPServer := {
  frame_bytes : option bytes;
  serving : bool;
  http_socket_open : bool
}.

Record Socket := { sock_peer : Z; sock_open : bool }.

Record Camera := { cam_device : string; cam_open : bool }.

Inductive ThreadTarget := serve_forever | tcp_accept_loop.

Record StreamingServer := {
  port : Z;
  tcp_port : Z;
  server : option HTTPServer;
  thread : option ThreadTarget;
  tcp_socket : option Socket;
  tcp_client : option Socket;
  tcp_thread : option ThreadTarget;
  max_width : Z;
  max_height : Z;
  frame_count : Z;
  latest_frame_data : option bytes;
  use_virtual_cam : bool;
  virtual_cam : option Camera;
  local_file_path : string
}.

Definition set_server (self : StreamingServer) (v : option HTTPServer) (t : option ThreadTarget) :=
  {| port := port self; tcp_port := tcp_port self; server := v; thread := t;
     tcp_socket := tcp_socket self; tcp_client := tcp_client self;
     tcp_thread := tcp_thread self; max_width := max_width self;
     max_height := max_height self; frame_count := frame_count self;
     latest_frame_data := latest_frame_data self;
     use_virtual_cam := use_virtual_cam self; virtual_cam := virtual_cam self;
     local_file_path := local_file_path self |}.

Definition set_tcp_socket (self : StreamingServer) (v : option Socket) (t : option ThreadTarget) :=
  {| port := port self; tcp_port := tcp_port self; server := server self;
     thread := thread self; tcp_socket := v; tcp_client := tcp_client self;
     tcp_thread := t; max_width := max_width self;
     max_height := max_height self; frame_count := frame_count self;
     latest_frame_data := latest_frame_data self;
     use_virtual_cam := use_virtual_cam self; virtual_cam := virtual_cam self;
     local_file_path := local_file_path self |}.

Definition set_tcp_client (self : StreamingServer) (v : option Socket) :=
  {| port := port self; tcp_port := tcp_port self; server := server self;
     thread := thread self; tcp_socket := tcp_socket self; tcp_client := v;
     tcp_thread := tcp_thread self; max_width := max_width self;
     max_height := max_height self; frame_count := frame_count self;
     latest_frame_data := latest_frame_data self;
     use_virtual_cam := use_virtual_cam self; virtual_cam := virtual_cam self;
     local_file_path := local_file_path self |}.

Definition set_virtual_cam (self : StreamingServer) (u : bool) (v : option Camera) :=
  {| port := port self; tcp_port := tcp_port self; server := server self;
     thread := thread self; tcp_socket := tcp_socket self;
     tcp_client := tcp_client self; tcp_thread := tcp_thread self;
     max_width := max_width self; max_height := max_height self;
     frame_count := frame_count self;
     latest_frame_data := latest_frame_data self;
     use_virtual_cam := u; virtual_cam := v;
     local_file_path := local_file_path self |}.

Definition set_packet (self : StreamingServer) (packet : bytes) (count : Z) :=
  {| port := port self; tcp_port := tcp_port self; server := server self;
     thread := thread self; tcp_socket := tcp_socket self;
     tcp_client := tcp_client self; tcp_thread := tcp_thread self;
     max_width := max_width self; max_height := max_height self;
     frame_count := count; latest_frame_data := Some packet;
     use_virtual_cam := use_virtual_cam self; virtual_cam := virtual_cam self;
     local_file_path := local_file_path self |}.

Definition set_local_file_path (self : StreamingServer) (path : string) :=
  {| port := port self; tcp_port := tcp_port self; server := server self;
     thread := thread self; tcp_socket := tcp_socket self;
     tcp_client := tcp_client self; tcp_thread := tcp_thread self;
     max_width := max_width self; max_height := max_height self;
     frame_count := frame_count self;
     latest_frame_data := latest_frame_data self;
     use_virtual_cam := use_virtual_cam self; virtual_cam := virtual_cam self;
     local_file_path := path |}.

(** [self.server.frame_bytes = frame_data]. *)
Definition set_frame_bytes (h : HTTPServer) (frame_data : bytes) : HTTPServer :=
  {| frame_bytes := Some frame_data; serving := serving h;
     http_socket_open := http_socket_open h |}.

(** Truth value of a [bytes] attribute that may still be [None]. *)
Definition truthy (b : option bytes) : option bytes :=
  match b with
  | Some (x :: l) => Some (x :: l)
  | _ => None
  end.

(** What the outside world answers during [start()]. *)
Inductive VcamAnswer :=
| VcamImportError
| VcamFailed
| VcamCreated (device : string).

Record StartEnv := {
  http_bind_ok : bool;
  vcam_answer : VcamAnswer;
  tcp_bind_ok : bool
}.

(** What the outside world answers during one turn of the accept loop:
    the outcome of [accept()] and whether [sendall] goes through. *)
Inductive AcceptAnswer :=
| Accepted (addr : Z)
| AcceptTimeout
| AcceptFailed.

Record LoopEnv := {
  accept_answer : AcceptAnswer;
  send_ok : bool
}.

(** Where the accept-loop thread stands: at the head of the outer
    [while self.tcp_socket] (about to call [accept()]), at the head of the
    inner [while self.tcp_client], or past the loop. *)
Inductive LoopState := Listening | Sending | Closed.

(** Whether each [close()] of [stop()] goes through. *)
Record StopEnv := {
  client_close_ok : bool;
  socket_close_ok : bool;
  cam_close_ok : bool
}.

(** What an HTTP handler does on its connection. *)
Inductive HeaderVal := HStr (s : string) | HInt (n : Z).

Inductive HttpOut :=
| SendResponse (code : Z)
| SendHeader (key : string) (val : HeaderVal)
| EndHeaders
| Write (data : bytes).

Definition crlf : bytes := [x0d; x0a].

(** ** [MaxShowmotion.py] *)

Module Motion.

(** *** [StreamingHandler.do_GET]

    The [/stream] branch never returns by itself: each turn of its
    [while True] looks at the server object as it is at that moment and
    writes one part, until a write fails.  [turns] lists, for the turns
    observed, the server object seen and whether the writes go through;
    the function gives what has been written by then.  A turn here is
    one look at [frame_bytes] whose writes all go through or all fail;
    [do_GET_stream], further down, follows the handler write by write,
    with its two reads of [frame_bytes]. *)

Definition stream_part (fb : bytes) : list HttpOut :=
  [ Write (list_byte_of_string "--frame" ++ crlf);
    SendHeader "Content-Type" (HStr "image/jpeg");
    SendHeader "Content-Length" (HInt (Z.of_nat (length fb)));
    EndHeaders;
    Write fb;
    Write crlf ].

Fixpoint stream_loop (turns : list (HTTPServer * bool)) : list HttpOut :=
  match turns with
  | [] => []
  | (srv, ok) :: rest =>
      match frame_bytes srv with
      | Some fb => if ok then stream_part fb ++ stream_loop rest else []
      | None => stream_loop rest
      end
  end.

Definition do_GET (srv : HTTPServer) (path : string)
    (turns : list (HTTPServer * bool)) : list HttpOut :=
  if String.eqb path "/stream" then
    [ SendResponse 200;
      SendHeader "Content-Type" (HStr "multipart/x-mixed-replace; boundary=frame");
      EndHeaders ] ++ stream_loop turns
  else if String.eqb path "/frame.jpg" then
    match frame_bytes srv with
    | Some fb =>
        [ SendResponse 200;
          SendHeader "Content-Type" (HStr "image/jpeg");
          SendHeader "Content-Length" (HInt (Z.of_nat (length fb)));
          SendHeader "Cache-Control" (HStr "no-cache");
          EndHeaders;
          Write fb ]
    | None => [ SendResponse 404; EndHeaders ]
    end
  else [ SendResponse 404; EndHeaders ].

(** *** [StreamingServer.__init__]

    [expanduser] stands for [os.path.expanduser]. *)

Definition default_port : Z := 8080.
Definition default_tcp_port : Z := 8081.

Definition init (expanduser : string -> string)
    (port tcp_port max_width max_height : Z)
    (local_file_path : option string) (use_virtual_cam : bool) : StreamingServer :=
  {| port := port;
     tcp_port := tcp_port;
     server := None;
     thread := None;
     tcp_socket := None;
     tcp_client := None;
     tcp_thread := None;
     max_width := max_width;
     max_height := max_height;
     frame_count := 0;
     latest_frame_data := None;
     use_virtual_cam := use_virtual_cam;
     virtual_cam := None;
     local_file_path :=
       match local_file_path with
       | None => expanduser "~/max_video_frame.jpg"
       | Some p => p
       end |}.

(** *** [StreamingServer.start] *)

Definition start (env : StartEnv) (self : StreamingServer) : Result StreamingServer :=
  if negb (http_bind_ok env) then
    (* HTTPServer(('localhost', self.port), StreamingHandler) raises *)
    Raised OSError self []
  else
    let self1 :=
      set_server self
        (Some {| frame_bytes := None; serving := true; http_socket_open := true |})
        (Some serve_forever) in
    let out1 :=
      [ EPrint (VideoStreamAvailable (port self1));
        EPrint (SingleFrameAvailable (port self1));
        EPrint (LocalFileUpdatedAt (local_file_path self1));
        EPrint (MaxPatchRead (local_file_path self1)) ] in
    let '(self2, out2) :=
      if use_virtual_cam self1 then
        match vcam_answer env with
        | VcamCreated device =>
            (set_virtual_cam self1 true
               (Some {| cam_device := device; cam_open := true |}),
             [ EPrint (VirtualCameraCreated device);
               EPrint (MaxPatchJitGrab device) ])
        | VcamImportError =>
            (set_virtual_cam self1 false (virtual_cam self1),
             [ EPrint PyvirtualcamNotInstalled; EPrint NoteObsVirtualCamera ])
        | VcamFailed =>
            (set_virtual_cam self1 false (virtual_cam self1),
             [ EPrint FailedCreateVirtualCamera;
               EPrint NoteObsVirtualCamera ])
        end
      else (self1, []) in
    let '(self3, out3) :=
      if tcp_bind_ok env then
        (set_tcp_socket self2
           (Some {| sock_peer := tcp_port self2; sock_open := true |})
           (Some tcp_accept_loop),
         [ EPrint (TcpServerListening (tcp_port self2)) ])
      else
        (set_tcp_socket self2 None (tcp_thread self2),
         [ EPrint (TcpSocketCreationFailed OSError) ]) in
    Returned self3 (out1 ++ out2 ++ out3).

(** *** [StreamingServer._tcp_accept_loop]

    One turn of the thread, from where it stands: at [Listening] the test
    of the outer loop and one [accept()] (which raises on a socket that
    [stop()] has closed); at [Sending] the test of the inner loop and one
    pass through its body.  A turn at [Listening] takes [accept()] and
    the assignment of [self.tcp_client] together; [accept_loop_step],
    further down, has the point in between. *)

Definition tcp_accept_loop_step (env : LoopEnv) (self : StreamingServer)
    (st : LoopState) : StreamingServer * LoopState * list Event :=
  match st with
  | Listening =>
      match tcp_socket self with
      | None => (self, Closed, [])
      | Some sock =>
          match (if sock_open sock then accept_answer env else AcceptFailed) with
          | Accepted addr =>
              (set_tcp_client self (Some {| sock_peer := addr; sock_open := true |}),
               Sending,
               [ EPrint (JitNetRecvConnected addr) ])
          | AcceptTimeout => (self, Listening, [])
          | AcceptFailed => (self, Closed, [ EPrint (TcpAcceptError OSError) ])
          end
      end
  | Sending =>
      match tcp_client self with
      | None => (self, Listening, [])
      | Some client =>
          match truthy (latest_frame_data self) with
          | Some data =>
              if sock_open client && send_ok env then
                (self, Sending, [ ETcpSend (sock_peer client) data; ESleep ])
              else
                (* sendall raises: break *)
                (self, Listening, [])
          | None => (self, Sending, [ ESleep ])
          end
      end
  | Closed => (self, Closed, [])
  end.

(** *** [StreamingServer.update_frame] *)

(** [if self.server: self.server.frame_bytes = frame_data]. *)
Definition publish_jpeg (self : StreamingServer) (frame_data : bytes) : StreamingServer :=
  match server self with
  | Some h => set_server self (Some (set_frame_bytes h frame_data)) (thread self)
  | None => self
  end.

(** The [try] around [cv.imwrite]. *)
Definition file_step (env : Env) (self : StreamingServer) (frame : Frame) : list Event :=
  match cv_imwrite env (local_file_path self) frame with
  | Some success =>
      (if success then [ EFileWritten (local_file_path self) frame ] else [])
      ++ (if success && (frame_count self =? 0)
          then [ EPrint (LocalFileSaved (local_file_path self)) ] else [])
  | None =>
      if frame_count self =? 0 then [ EPrint (FailedSaveLocalFile cv2_error) ] else []
  end.

(** The body of the [try] of the virtual-camera block: [None] when one of
    its calls raises, else the frame that was sent. *)
Definition vcam_body (env : Env) (self : StreamingServer) (frame : Frame) : option Frame :=
  rgb_frame <- cv_cvtColor_BGR2RGB frame ;;
  let height := f_height rgb_frame in
  let width := f_width rgb_frame in
  rgb_frame <- (if negb (width =? max_width self) || negb (height =? max_height self)
                then cv_resize env rgb_frame (max_width self) (max_height self)
                else Some rgb_frame) ;;
  if env_cam_send env rgb_frame then Some rgb_frame else None.

Definition vcam_step (env : Env) (self : StreamingServer) (frame : Frame) : list Event :=
  if use_virtual_cam self
     && (match virtual_cam self with Some _ => true | None => false end) then
    match vcam_body env self frame with
    | Some sent => [ ECamSend sent; ECamSleep ]
    | None =>
        if frame_count self =? 0 then [ EPrint FailedSendVirtualCamera ] else []
    end
  else [].

(** The new size computed when the frame exceeds the bound. *)
Definition scaled_size (max_width max_height width height : Z) : option (Z * Z) :=
  a <- py_truediv max_width width ;;
  b <- py_truediv max_height height ;;
  let scale := py_min a b in
  new_width <- py_int (py_mul_int_float width scale) ;;
  new_height <- py_int (py_mul_int_float height scale) ;;
  Some (new_width, new_height).

(** The body of the last [try] up to the construction of [packet]:
    [None] when one of its calls raises, else the packet with the width
    and height it announces. *)
Definition build_packet (env : Env) (self : StreamingServer) (frame : Frame)
    : option (bytes * Z * Z) :=
  rgb_frame <- cv_cvtColor_BGR2RGB frame ;;
  let height := f_height rgb_frame in
  let width := f_width rgb_frame in
  rgb_frame <- (if (width >? max_width self) || (height >? max_height self) then
                  '(new_width, new_height) <-
                     scaled_size (max_width self) (max_height self) width height ;;
                  cv_resize env rgb_frame new_width new_height
                else Some rgb_frame) ;;
  let height := f_height rgb_frame in
  let width := f_width rgb_frame in
  let planes := 3 in
  let matrix_data := tobytes rgb_frame in
  let matrix_name : bytes := [] in
  let name_len := Z.of_nat (length matrix_name) in
  let dimcount := 2 in
  dims <- struct_pack_ii width height ;;
  type_code <- struct_pack_i 1 ;;
  planecount <- struct_pack_i planes ;;
  p_name_len <- struct_pack_i name_len ;;
  p_dimcount <- struct_pack_i dimcount ;;
  Some (p_name_len ++ matrix_name ++ p_dimcount ++ dims ++ type_code
          ++ planecount ++ matrix_data,
        width, height).

Definition tcp_step (env : Env) (self : StreamingServer) (frame : Frame)
    : StreamingServer * list Event :=
  match build_packet env self frame with
  | Some (packet, width, height) =>
      let count := frame_count self + 1 in
      let size := Z.of_nat (length packet) in
      (set_packet self packet count,
       (if count =? 1 then [ EPrint (FirstFramePrepared width height size) ] else [])
       ++ (if count mod 30 =? 0
           then [ EPrint (PreparedFrames count width height size) ] else []))
  | None =>
      (self, [ EPrint FramePreparationError; ETraceback ])
  end.

Definition update_frame (env : Env) (self : StreamingServer) (frame : Frame)
    : Result StreamingServer :=
  match cv_imencode env frame with
  | None =>
      (* cv.imencode raises, outside of any try *)
      Raised cv2_error self []
  | Some frame_data =>
      let self1 := publish_jpeg self frame_data in
      let out2 := file_step env self1 frame in
      let out3 := vcam_step env self1 frame in
      let '(self4, out4) := tcp_step env self1 frame in
      Returned self4 (out2 ++ out3 ++ out4)
  end.

(** *** [StreamingServer.stop]

    The state that [stop()] leaves when it returns.  [shutdown()] waits
    for the loop of the HTTP server to end; [stop_call], further down,
    says when it does. *)

Definition shutdown (h : HTTPServer) : HTTPServer :=
  {| frame_bytes := frame_bytes h; serving := false;
     http_socket_open := http_socket_open h |}.

Definition close_socket (s : Socket) : Socket :=
  {| sock_peer := sock_peer s; sock_open := false |}.

Definition close_camera (c : Camera) : Camera :=
  {| cam_device := cam_device c; cam_open := false |}.

Definition stop (env : StopEnv) (self : StreamingServer) : Result StreamingServer :=
  let self1 :=
    match server self with
    | Some h => set_server self (Some (shutdown h)) (thread self)
    | None => self
    end in
  let self2 :=
    match tcp_client self1 with
    | Some c =>
        if client_close_ok env then set_tcp_client self1 (Some (close_socket c))
        else self1
    | None => self1
    end in
  let self3 :=
    match tcp_socket self2 with
    | Some s =>
        if socket_close_ok env
        then set_tcp_socket self2 (Some (close_socket s)) (tcp_thread self2)
        else self2
    | None => self2
    end in
  let self4 :=
    match virtual_cam self3 with
    | Some c =>
        if cam_close_ok env
        then set_virtual_cam self3 (use_virtual_cam self3) (Some (close_camera c))
        else self3
    | None => self3
    end in
  Returned self4 [].

End Motion.

(** ** [MaxShowDepth.py] *)

Module Depth.

(** *** [StreamingHandler.do_GET] (the handler of this file) *)

Definition stream_part (fb : bytes) : list HttpOut :=
  [ Write (list_byte_of_string "--frame" ++ crlf);
    SendHeader "Content-Type" (HStr "image/jpeg");
    SendHeader "Content-Length" (HInt (Z.of_nat (length fb)));
    EndHeaders;
    Write fb;
    Write crlf ].

Fixpoint stream_loop (turns : list (HTTPServer * bool)) : list HttpOut :=
  match turns with
  | [] => []
  | (srv, ok) :: rest =>
      match frame_bytes srv with
      | Some fb => if ok then stream_part fb ++ stream_loop rest else []
      | None => stream_loop rest
      end
  end.

Definition do_GET (srv : HTTPServer) (path : string)
    (turns : list (HTTPServer * bool)) : list HttpOut :=
  if String.eqb path "/stream" then
    [ SendResponse 200;
      SendHeader "Content-Type" (HStr "multipart/x-mixed-replace; boundary=frame");
      EndHeaders ] ++ stream_loop turns
  else if String.eqb path "/frame.jpg" then
    match frame_bytes srv with
    | Some fb =>
        [ SendResponse 200;
          SendHeader "Content-Type" (HStr "image/jpeg");
          SendHeader "Content-Length" (HInt (Z.of_nat (length fb)));
          SendHeader "Cache-Control" (HStr "no-cache");
          EndHeaders;
          Write fb ]
    | None => [ SendResponse 404; EndHeaders ]
    end
  else [ SendResponse 404; EndHeaders ].

(** *** [StreamingServer.__init__]

    [expanduser] stands for [os.path.expanduser]. *)

Definition default_port : Z := 8082.
Definition default_tcp_port : Z := 8083.

Definition init (expanduser : string -> string)
    (port tcp_port max_width max_height : Z)
    (local_file_path : option string) (use_virtual_cam : bool) : StreamingServer :=
  {| port := port;
     tcp_port := tcp_port;
     server := None;
     thread := None;
     tcp_socket := None;
     tcp_client := None;
     tcp_thread := None;
     max_width := max_width;
     max_height := max_height;
     frame_count := 0;
     latest_frame_data := None;
     use_virtual_cam := use_virtual_cam;
     virtual_cam := None;
     local_file_path :=
       match local_file_path with
       | None => expanduser "~/max_depth_frame.jpg"
       | Some p => p
       end |}.

(** *** [StreamingServer.start] *)

Definition start (env : StartEnv) (self : StreamingServer) : Result StreamingServer :=
  if negb (http_bind_ok env) then
    (* HTTPServer(('localhost', self.port), StreamingHandler) raises *)
    Raised OSError self []
  else
    let self1 :=
      set_server self
        (Some {| frame_bytes := None; serving := true; http_socket_open := true |})
        (Some serve_forever) in
    let out1 :=
      [ EPrint (DepthStreamAvailable (port self1));
        EPrint (SingleFrameAvailable (port self1));
        EPrint (LocalFileUpdatedAt (local_file_path self1));
        EPrint (ObsBrowserSource (port self1));
        EPrint (ObsImageSource (local_file_path self1)) ] in
    let '(self2, out2) :=
      if use_virtual_cam self1 then
        match vcam_answer env with
        | VcamCreated device =>
            (set_virtual_cam self1 true
               (Some {| cam_device := device; cam_open := true |}),
             [ EPrint (VirtualCameraCreated device);
               EPrint (ObsVideoCaptureDevice device) ])
        | VcamImportError =>
            (set_virtual_cam self1 false (virtual_cam self1),
             [ EPrint PyvirtualcamNotInstalled; EPrint NoteObsVirtualCamera ])
        | VcamFailed =>
            (set_virtual_cam self1 false (virtual_cam self1),
             [ EPrint FailedCreateVirtualCamera;
               EPrint NoteObsVirtualCamera ])
        end
      else (self1, []) in
    let '(self3, out3) :=
      if tcp_bind_ok env then
        (set_tcp_socket self2
           (Some {| sock_peer := tcp_port self2; sock_open := true |})
           (Some tcp_accept_loop),
         [ EPrint (TcpServerListening (tcp_port self2)) ])
      else
        (set_tcp_socket self2 None (tcp_thread self2),
         [ EPrint (TcpSocketCreationFailed OSError) ]) in
    Returned self3 (out1 ++ out2 ++ out3).

(** *** [StreamingServer._tcp_accept_loop], one turn of the thread *)

Definition tcp_accept_loop_step (env : LoopEnv) (self : StreamingServer)
    (st : LoopState) : StreamingServer * LoopState * list Event :=
  match st with
  | Listening =>
      match tcp_socket self with
      | None => (self, Closed, [])
      | Some sock =>
          match (if sock_open sock then accept_answer env else AcceptFailed) with
          | Accepted addr =>
              (set_tcp_client self (Some {| sock_peer := addr; sock_open := true |}),
               Sending,
               [ EPrint (JitNetRecvConnected addr) ])
          | AcceptTimeout => (self, Listening, [])
          | AcceptFailed => (self, Closed, [ EPrint (TcpAcceptError OSError) ])
          end
      end
  | Sending =>
      match tcp_client self with
      | None => (self, Listening, [])
      | Some client =>
          match truthy (latest_frame_data self) with
          | Some data =>
              if sock_open client && send_ok env then
                (self, Sending, [ ETcpSend (sock_peer client) data; ESleep ])
              else
                (* sendall raises: break *)
                (self, Listening, [])
          | None => (self, Sending, [ ESleep ])
          end
      end
  | Closed => (self, Closed, [])
  end.

(** *** [StreamingServer.update_frame] *)

(** [if self.server: self.server.frame_bytes = frame_data]. *)
Definition publish_jpeg (self : StreamingServer) (frame_data : bytes) : StreamingServer :=
  match server self with
  | Some h => set_server self (Some (set_frame_bytes h frame_data)) (thread self)
  | None => self
  end.

(** The [try] around [cv.imwrite]. *)
Definition file_step (env : Env) (self : StreamingServer) (frame : Frame) : list Event :=
  match cv_imwrite env (local_file_path self) frame with
  | Some success =>
      (if success then [ EFileWritten (local_file_path self) frame ] else [])
      ++ (if success && (frame_count self =? 0)
          then [ EPrint (LocalFileSaved (local_file_path self)) ] else [])
  | None =>
      if frame_count self =? 0 then [ EPrint (FailedSaveLocalFile cv2_error) ] else []
  end.

(** The body of the [try] of the virtual-camera block: [None] when one of
    its calls raises, else the frame that was sent. *)
Definition vcam_body (env : Env) (self : StreamingServer) (frame : Frame) : option Frame :=
  rgb_frame <- cv_cvtColor_BGR2RGB frame ;;
  let height := f_height rgb_frame in
  let width := f_width rgb_frame in
  rgb_frame <- (if negb (width =? max_width self) || negb (height =? max_height self)
                then cv_resize env rgb_frame (max_width self) (max_height self)
                else Some rgb_frame) ;;
  if env_cam_send env rgb_frame then Some rgb_frame else None.

Definition vcam_step (env : Env) (self : StreamingServer) (frame : Frame) : list Event :=
  if use_virtual_cam self
     && (match virtual_cam self with Some _ => true | None => false end) then
    match vcam_body env self frame with
    | Some sent => [ ECamSend sent; ECamSleep ]
    | None =>
        if frame_count self =? 0 then [ EPrint FailedSendVirtualCamera ] else []
    end
  else [].

(** The new size computed when the frame exceeds the bound. *)
Definition scaled_size (max_width max_height width height : Z) : option (Z * Z) :=
  a <- py_truediv max_width width ;;
  b <- py_truediv max_height height ;;
  let scale := py_min a b in
  new_width <- py_int (py_mul_int_float width scale) ;;
  new_height <- py_int (py_mul_int_float height scale) ;;
  Some (new_width, new_height).

(** The body of the last [try] up to the construction of [packet]:
    [None] when one of its calls raises, else the packet with the width
    and height it announces. *)
Definition build_packet (env : Env) (self : StreamingServer) (frame : Frame)
    : option (bytes * Z * Z) :=
  rgb_frame <- cv_cvtColor_BGR2RGB frame ;;
  let height := f_height rgb_frame in
  let width := f_width rgb_frame in
  rgb_frame <- (if (width >? max_width self) || (height >? max_height self) then
                  '(new_width, new_height) <-
                     scaled_size (max_width self) (max_height self) width height ;;
                  cv_resize env rgb_frame new_width new_height
                else Some rgb_frame) ;;
  let height := f_height rgb_frame in
  let width := f_width rgb_frame in
  let planes := 3 in
  let matrix_data := tobytes rgb_frame in
  let matrix_name : bytes := [] in
  let name_len := Z.of_nat (length matrix_name) in
  let dimcount := 2 in
  dims <- struct_pack_ii width height ;;
  type_code <- struct_pack_i 1 ;;
  planecount <- struct_pack_i planes ;;
  p_name_len <- struct_pack_i name_len ;;
  p_dimcount <- struct_pack_i dimcount ;;
  Some (p_name_len ++ matrix_name ++ p_dimcount ++ dims ++ type_code
          ++ planecount ++ matrix_data,
        width, height).

Definition tcp_step (env : Env) (self : StreamingServer) (frame : Frame)
    : StreamingServer * list Event :=
  match build_packet env self frame with
  | Some (packet, width, height) =>
      let count := frame_count self + 1 in
      let size := Z.of_nat (length packet) in
      (set_packet self packet count,
       (if count =? 1 then [ EPrint (FirstFramePrepared width height size) ] else [])
       ++ (if count mod 30 =? 0
           then [ EPrint (PreparedFrames count width height size) ] else []))
  | None =>
      (self, [ EPrint FramePreparationError; ETraceback ])
  end.

Definition update_frame (env : Env) (self : StreamingServer) (frame : Frame)
    : Result StreamingServer :=
  match cv_imencode env frame with
  | None =>
      (* cv.imencode raises, outside of any try *)
      Raised cv2_error self []
  | Some frame_data =>
      let self1 := publish_jpeg self frame_data in
      let out2 := file_step env self1 frame in
      let out3 := vcam_step env self1 frame in
      let '(self4, out4) := tcp_step env self1 frame in
      Returned self4 (out2 ++ out3 ++ out4)
  end.

(** *** [StreamingServer.stop] *)

Definition shutdown (h : HTTPServer) : HTTPServer :=
  {| frame_bytes := frame_bytes h; serving := false;
     http_socket_open := http_socket_open h |}.

Definition close_socket (s : Socket) : Socket :=
  {| sock_peer := sock_peer s; sock_open := false |}.

Definition close_camera (c : Camera) : Camera :=
  {| cam_device := cam_device c; cam_open := false |}.

Definition stop (env : StopEnv) (self : StreamingServer) : Result StreamingServer :=
  let self1 :=
    match server self with
    | Some h => set_server self (Some (shutdown h)) (thread self)
    | None => self
    end in
  let self2 :=
    match tcp_client self1 with
    | Some c =>
        if client_close_ok env then set_tcp_client self1 (Some (close_socket c))
        else self1
    | None => self1
    end in
  let self3 :=
    match tcp_socket self2 with
    | Some s =>
        if socket_close_ok env
        then set_tcp_socket self2 (Some (close_socket s)) (tcp_thread self2)
        else self2
    | None => self2
    end in
  let self4 :=
    match virtual_cam self3 with
    | Some c =>
        if cam_close_ok env
        then set_virtual_cam self3 (use_virtual_cam self3) (Some (close_camera c))
        else self3
    | None => self3
    end in
  Returned self4 [].

End Depth.

(** ** Runs and observations *)

(** The packet announced for a frame of [w] by [h] pixels, as the design
    document lays it out: six little-endian fields, no name, the pixels. *)
Definition spec_packet (w h : Z) (pixels : bytes) : bytes :=
  spec_le_int32 0 ++ spec_le_int32 2 ++ spec_le_int32 w ++ spec_le_int32 h
  ++ spec_le_int32 1 ++ spec_le_int32 3 ++ pixels.

(** The scale of the design document, exactly: the smaller of
    [max_width / width] and [max_height / height], as a fraction. *)
Definition spec_scale (max_width max_height width height : Z) : Z * Z :=
  if max_width * height <=? max_height * width
  then (max_width, width) else (max_height, height).

(** A dimension [c] scaled by a fraction, truncated to an integer. *)
Definition spec_scaled (c : Z) (scale : Z * Z) : Z :=
  c * fst scale / snd scale.

(** Successive turns of the accept-loop thread, nothing else running in
    between. *)
Fixpoint loop_run (envs : list LoopEnv) (self : StreamingServer) (st : LoopState)
    : StreamingServer * LoopState * list Event :=
  match envs with
  | [] => (self, st, [])
  | env :: rest =>
      let '(self1, st1, out1) := Motion.tcp_accept_loop_step env self st in
      let '(self2, st2, out2) := loop_run rest self1 st1 in
      (self2, st2, out1 ++ out2)
  end.

(** The messages a peer has been sent. *)
Fixpoint received (peer : Z) (out : list Event) : list bytes :=
  match out with
  | [] => []
  | ETcpSend c data :: rest =>
      if c =? peer then data :: received peer rest else received peer rest
  | _ :: rest => received peer rest
  end.

(** Successive calls of [update_frame] by the producer; an exception that
    leaves one of them ends the producer's loop. *)
Fixpoint update_run (calls : list (Env * Frame)) (self : StreamingServer)
    : Result StreamingServer :=
  match calls with
  | [] => Returned self []
  | (env, frame) :: rest =>
      match Motion.update_frame env self frame with
      | Returned self1 out1 =>
          match update_run rest self1 with
          | Returned self2 out2 => Returned self2 (out1 ++ out2)
          | Raised e self2 out2 => Raised e self2 (out1 ++ out2)
          end
      | Raised e self1 out1 => Raised e self1 out1
      end
  end.

Definition is_save_failure_report (ev : Event) : bool :=
  match ev with
  | EPrint (FailedSaveLocalFile _) => true
  | _ => false
  end.

(** How many times a failure of the file write has been reported. *)
Definition save_failure_reports (out : list Event) : nat :=
  length (filter is_save_failure_report out).

(** The two representations a server publishes. *)
Definition published_jpeg (self : StreamingServer) : option bytes :=
  match server self with
  | Some h => frame_bytes h
  | None => None
  end.

(** The two implementations behind one interface, and a driver that makes
    the same calls on either of them.  A call that raises leaves the
    object as the exception found it. *)
Record Impl := {
  impl_init : (string -> string) -> Z -> Z -> Z -> Z -> option string -> bool
              -> StreamingServer;
  impl_start : StartEnv -> StreamingServer -> Result StreamingServer;
  impl_loop_step : LoopEnv -> StreamingServer -> LoopState
                   -> StreamingServer * LoopState * list Event;
  impl_update_frame : Env -> StreamingServer -> Frame -> Result StreamingServer;
  impl_stop : StopEnv -> StreamingServer -> Result StreamingServer;
  impl_do_GET : HTTPServer -> string -> list (HTTPServer * bool) -> list HttpOut
}.

Definition motion_impl : Impl :=
  {| impl_init := Motion.init; impl_start := Motion.start;
     impl_loop_step := Motion.tcp_accept_loop_step;
     impl_update_frame := Motion.update_frame; impl_stop := Motion.stop;
     impl_do_GET := Motion.do_GET |}.

Definition depth_impl : Impl :=
  {| impl_init := Depth.init; impl_start := Depth.start;
     impl_loop_step := Depth.tcp_accept_loop_step;
     impl_update_frame := Depth.update_frame; impl_stop := Depth.stop;
     impl_do_GET := Depth.do_GET |}.

Inductive Call :=
| CallStart (env : StartEnv)
| CallLoopTurn (env : LoopEnv)
| CallUpdate (env : Env) (frame : Frame)
| CallStop (env : StopEnv).

Definition call (I : Impl) (c : Call) (sys : StreamingServer * LoopState)
    : StreamingServer * LoopState :=
  let '(self, st) := sys in
  match c with
  | CallStart env =>
      let self1 := result_self (impl_start I env self) in
      (self1, match tcp_thread self1 with Some _ => Listening | None => st end)
  | CallLoopTurn env =>
      let '(self1, st1, _) := impl_loop_step I env self st in (self1, st1)
  | CallUpdate env frame => (result_self (impl_update_frame I env self frame), st)
  | CallStop env => (result_self (impl_stop I env self), st)
  end.

Definition run (I : Impl) (calls : list Call) (sys : StreamingServer * LoopState)
    : StreamingServer * LoopState :=
  fold_left (fun sys c => call I c sys) calls sys.

(** ** Sample inputs

    An environment in which every external call goes through (the encoder
    answers with a bare JPEG start and end marker, the interpolation with
    zeroes), one in which the file write raises, one in which it returns
    [False], small frames, and a server as [start()] leaves it when
    everything binds. *)

Definition env_ok : Env :=
  {| env_imencode := fun _ => Some [xff; xd8; xff; xd9];
     env_imwrite := fun _ _ => Some true;
     env_cam_send := fun _ => true;
     env_interp := fun _ _ _ _ => x00 |}.

Definition env_write_raises : Env :=
  {| env_imencode := fun _ => Some [xff; xd8; xff; xd9];
     env_imwrite := fun _ _ => None;
     env_cam_send := fun _ => true;
     env_interp := fun _ _ _ _ => x00 |}.

Definition env_write_false : Env :=
  {| env_imencode := fun _ => Some [xff; xd8; xff; xd9];
     env_imwrite := fun _ _ => Some false;
     env_cam_send := fun _ => true;
     env_interp := fun _ _ _ _ => x00 |}.

Definition solid_frame (w h : Z) : Frame :=
  {| f_height := h; f_width := w; f_data := repeat x10 (Z.to_nat (w * h * 3)) |}.

Definition empty_frame : Frame :=
  {| f_height := 0; f_width := 0; f_data := [] |}.

Definition start_ok : StartEnv :=
  {| http_bind_ok := true; vcam_answer := VcamCreated "OBS Virtual Camera";
     tcp_bind_ok := true |}.

Definition stop_ok : StopEnv :=
  {| client_close_ok := true; socket_close_ok := true; cam_close_ok := true |}.

Definition fresh_server : StreamingServer :=
  Motion.init (fun p => p) 8080 8081 640 480 (Some "/tmp/max_video_frame.jpg") true.

Definition started_server : StreamingServer :=
  result_self (Motion.start start_ok fresh_server).

Definition tick_ok : LoopEnv :=
  {| accept_answer := AcceptTimeout; send_ok := true |}.

Definition tick_send_fails : LoopEnv :=
  {| accept_answer := AcceptTimeout; send_ok := false |}.

(** A server with a client connected, as the accept loop leaves it after
    [accept()] answered. *)
Definition connected_server : StreamingServer :=
  fst (fst (Motion.tcp_accept_loop_step
              {| accept_answer := Accepted 7; send_ok := true |}
              started_server Listening)).

(** ** Further observations on a run *)

(** Every message handed to [sendall], with the peer it went to. *)
Fixpoint sent_messages (out : list Event) : list (Z * bytes) :=
  match out with
  | [] => []
  | ETcpSend c data :: rest => (c, data) :: sent_messages rest
  | _ :: rest => sent_messages rest
  end.

(** The frames pushed to the virtual camera. *)
Fixpoint camera_frames (out : list Event) : list Frame :=
  match out with
  | [] => []
  | ECamSend frame :: rest => frame :: camera_frames rest
  | _ :: rest => camera_frames rest
  end.

Definition is_first_frame_report (ev : Event) : bool :=
  match ev with
  | EPrint (FirstFramePrepared _ _ _) => true
  | _ => false
  end.

(** How many times "First frame prepared" has been printed. *)
Definition first_frame_reports (out : list Event) : nat :=
  length (filter is_first_frame_report out).

(** Whether the packet of a frame can be built by a server. *)
Definition packet_built (self : StreamingServer) (call : Env * Frame) : bool :=
  match Motion.build_packet (fst call) self (snd call) with
  | Some _ => true
  | None => false
  end.

Definition bytes_eqb (a b : bytes) : bool :=
  if list_eq_dec Byte.byte_eq_dec a b then true else false.

(** The reader of a [multipart/x-mixed-replace] stream, as a browser
    takes it: the response head, then parts made of the boundary line,
    the two part headers, a body of the announced length and a line end.
    It gives the bodies, or [None] on anything else. *)
Fixpoint spec_read_parts (out : list HttpOut) : option (list bytes) :=
  match out with
  | [] => Some []
  | Write boundary :: SendHeader k1 (HStr v1) :: SendHeader k2 (HInt n)
      :: EndHeaders :: Write body :: Write eol :: rest =>
      if bytes_eqb boundary (list_byte_of_string "--frame" ++ crlf)
         && String.eqb k1 "Content-Type" && String.eqb v1 "image/jpeg"
         && String.eqb k2 "Content-Length" && (n =? Z.of_nat (length body))
         && bytes_eqb eol crlf
      then match spec_read_parts rest with
           | Some bodies => Some (body :: bodies)
           | None => None
           end
      else None
  | _ => None
  end.

Definition spec_read_stream (out : list HttpOut) : option (list bytes) :=
  match out with
  | SendResponse 200
      :: SendHeader "Content-Type" (HStr "multipart/x-mixed-replace; boundary=frame")
      :: EndHeaders :: rest => spec_read_parts rest
  | _ => None
  end.

(** Whether a message is a packet as the design document lays it out,
    for a picture of at least one pixel that fits a bound, with as many
    bytes as it announces. *)
Definition packet_ok (max_width max_height : Z) (packet : bytes) : bool :=
  match spec_decode_packet packet with
  | Some p =>
      (name_length p =? 0) && (dim_count p =? 2) && (type_code p =? 1)
      && (plane_count p =? 3)
      && (1 <=? width p) && (width p <=? max_width)
      && (1 <=? height p) && (height p <=? max_height)
      && (Z.of_nat (length (pixel_data p)) =? width p * height p * 3)
  | None => false
  end.

(** The producer and the accept-loop thread taking turns on one server,
    in any order.  An exception that leaves [update_frame] leaves the
    object as it found it; the thread goes on. *)
Inductive Action :=
| Produce (env : Env) (frame : Frame)
| Turn (env : LoopEnv).

Fixpoint session (acts : list Action) (self : StreamingServer) (st : LoopState)
    : StreamingServer * LoopState * list Event :=
  match acts with
  | [] => (self, st, [])
  | Produce env frame :: rest =>
      let r := Motion.update_frame env self frame in
      let '(self2, st2, out2) := session rest (result_self r) st in
      (self2, st2, result_out r ++ out2)
  | Turn env :: rest =>
      let '(self1, st1, out1) := Motion.tcp_accept_loop_step env self st in
      let '(self2, st2, out2) := session rest self1 st1 in
      (self2, st2, out1 ++ out2)
  end.

Definition produces_valid_frame (a : Action) : Prop :=
  match a with
  | Produce _ frame => valid_frame frame
  | Turn _ => True
  end.

(** A socket attribute that is unset or holds a closed socket. *)
Definition closed_or_unset (s : option Socket) : bool :=
  match s with
  | Some sock => negb (sock_open sock)
  | None => true
  end.

(** The invariant behind the packets on the wire: the packet a server
    holds, if any, is well formed for its bound. *)
Definition holds_good_packet (self : StreamingServer) : Prop :=
  match latest_frame_data self with
  | Some packet => packet_ok (max_width self) (max_height self) packet = true
  | None => True
  end.

(** A server on which the accept loop can no longer reach anyone: its
    client socket and its listening socket are closed or unset. *)
Definition unreachable (self : StreamingServer) : Prop :=
  closed_or_unset (tcp_client self) = true
  /\ closed_or_unset (tcp_socket self) = true.

(** ** [OAKDepthStreamer] (MaxShowDepth.py) and the objects it drives

    The streamer owns a depth [StreamingServer] and a viewer, which
    owns the spatial calculator and, through it, the OAK device.  Of the
    calculator the streamer uses [start()] (through [viewer.start()])
    and [close()]; the depth pictures themselves come from the device
    and from OpenCV and are taken as given. *)

(** The attribute [device] of the calculator: [None] as [__init__] sets
    it, a [dai.Device], or removed by the [del self.device] of
    [close()]. *)
Inductive DeviceAttr := DeviceNone | DeviceOpen | DeviceDeleted.

(** What [OAKSpatialCalculator.start] meets: it fails before
    [dai.Device(...)] has answered, it fails in a later call (the device
    is kept, the answer is still [(None, None, None)]), or it gets its
    three queues. *)
Inductive DeviceAnswer := DeviceMissing | DeviceFailsOnceOpen | DeviceReady.

Record OAKDepthViewer := {
  device : DeviceAttr;
  depthQueue : bool
}.

Record OAKDepthStreamer := {
  viewer : OAKDepthViewer;
  streaming_server : StreamingServer;
  running : bool
}.

(** What may leave a method of the streamer. *)
Inductive Raise :=
| RaiseException (e : exn)
| RaiseAttributeError
| RaiseKeyboardInterrupt.

(** The prints of the streamer and of [run_depth_streamer]
    ([ErrorStartingOakDevice] stands for what the calculator itself
    prints when its [start()] fails). *)
Inductive StreamerDiag :=
| ErrorStartingOakDevice
| FailedToStartOakDevice
| OakDepthStreamerStarted
| PressCtrlCToStop
| ClosestObject (x y z : py_float)
| StoppingOakDepthStreamer
| OakDepthStreamerStopped
| OakDepthStreamerError (e : Raise)
| ContinuingWithoutDepthStream.

Inductive StreamerEvent :=
| SPrint (d : StreamerDiag)
| SServer (ev : Event)
| SSleep.

(** One turn of the loop of [run()], as the outside world shapes it:
    the coloured depth picture as it stands before the final resize (with
    the closest object, if the calculator saw one) and the answers to the
    calls of [update_frame]; or an exception raised by the device or by
    OpenCV before that; or Ctrl-C. *)
Inductive DepthTurn :=
| TurnFrame (picture : Frame) (closest : option (py_float * py_float * py_float))
            (env : Env)
| TurnRaises (e : exn)
| TurnInterrupted.

Inductive LoopEnd := LoopGoesOn | LoopExited | LoopRaised (e : Raise).

(** How a call of [run()] stands: it returned, an exception left it, or
    it is still in its loop after the turns observed. *)
Inductive RunEnd := RunReturned | RunRaised (e : Raise) | RunGoesOn.

Module Streamer.

(** [OAKSpatialCalculator.start], as far as the attribute [device] and
    the first queue of the answer go. *)
Definition calculator_start (dev : DeviceAnswer) (v : OAKDepthViewer)
    : OAKDepthViewer * bool * list StreamerEvent :=
  match dev with
  | DeviceMissing => (v, false, [ SPrint ErrorStartingOakDevice ])
  | DeviceFailsOnceOpen =>
      ({| device := DeviceOpen; depthQueue := depthQueue v |}, false,
       [ SPrint ErrorStartingOakDevice ])
  | DeviceReady =>
      ({| device := DeviceOpen; depthQueue := depthQueue v |}, true, [])
  end.

(** [OAKSpatialCalculator.close]: [if self.device: del self.device];
    [None] is the [AttributeError] of reading an attribute that has been
    deleted. *)
Definition calculator_close (v : OAKDepthViewer) : option OAKDepthViewer :=
  match device v with
  | DeviceNone => Some v
  | DeviceOpen => Some {| device := DeviceDeleted; depthQueue := depthQueue v |}
  | DeviceDeleted => None
  end.

(** [OAKDepthViewer.start]. *)
Definition viewer_start (dev : DeviceAnswer) (v : OAKDepthViewer)
    : OAKDepthViewer * bool * list StreamerEvent :=
  let '(v1, queue0, out) := calculator_start dev v in
  if queue0 then
    ({| device := device v1; depthQueue := true |}, true, out)
  else (v1, false, out ++ [ SPrint FailedToStartOakDevice ]).

(** [OAKDepthStreamer.__init__], with the viewer it is given. *)
Definition init (expanduser : string -> string) (port tcp_port : Z)
    (use_virtual_cam : bool) (v : OAKDepthViewer) : OAKDepthStreamer :=
  {| viewer := v;
     streaming_server := Depth.init expanduser port tcp_port 640 480 None use_virtual_cam;
     running := false |}.

(** [OAKDepthStreamer.start]: the value it returns, or the exception
    that leaves it. *)
Definition start (dev : DeviceAnswer) (senv : StartEnv) (self : OAKDepthStreamer)
    : OAKDepthStreamer * (bool + Raise) * list StreamerEvent :=
  let '(v1, ok, out1) := viewer_start dev (viewer self) in
  let self1 := {| viewer := v1; streaming_server := streaming_server self;
                  running := running self |} in
  if negb ok then
    (self1, inl false, out1 ++ [ SPrint FailedToStartOakDevice ])
  else
    match Depth.start senv (streaming_server self1) with
    | Raised e srv out2 =>
        ({| viewer := v1; streaming_server := srv; running := running self1 |},
         inr (RaiseException e), out1 ++ map SServer out2)
    | Returned srv out2 =>
        ({| viewer := v1; streaming_server := srv; running := true |},
         inl true,
         out1 ++ map SServer out2
         ++ [ SPrint OakDepthStreamerStarted; SPrint PressCtrlCToStop ])
    end.

(** [OAKDepthStreamer.stop]. *)
Definition stop (senv : StopEnv) (self : OAKDepthStreamer)
    : OAKDepthStreamer * option Raise * list StreamerEvent :=
  let r := Depth.stop senv (streaming_server self) in
  match calculator_close (viewer self) with
  | Some v1 =>
      ({| viewer := v1; streaming_server := result_self r; running := false |},
       None, map SServer (result_out r) ++ [ SPrint OakDepthStreamerStopped ])
  | None =>
      ({| viewer := viewer self; streaming_server := result_self r; running := false |},
       Some RaiseAttributeError, map SServer (result_out r))
  end.

(** The body of the [while self.running] of [run()], one turn. *)
Definition turn (t : DepthTurn) (self : OAKDepthStreamer)
    : OAKDepthStreamer * option Raise * list StreamerEvent :=
  match t with
  | TurnInterrupted => (self, Some RaiseKeyboardInterrupt, [])
  | TurnRaises e => (self, Some (RaiseException e), [])
  | TurnFrame picture closest env =>
      let out1 :=
        match closest with
        | Some (x, y, z) =>
            if frame_count (streaming_server self) mod 30 =? 0
            then [ SPrint (ClosestObject x y z) ] else []
        | None => []
        end in
      let target_width := 640 in
      let target_height := 480 in
      match (if negb (f_width picture =? target_width)
                || negb (f_height picture =? target_height)
             then cv_resize env picture target_width target_height
             else Some picture) with
      | None => (self, Some (RaiseException cv2_error), out1)
      | Some depthFrameColor =>
          match Depth.update_frame env (streaming_server self) depthFrameColor with
          | Raised e srv out2 =>
              ({| viewer := viewer self; streaming_server := srv;
                  running := running self |},
               Some (RaiseException e), out1 ++ map SServer out2)
          | Returned srv out2 =>
              ({| viewer := viewer self; streaming_server := srv;
                  running := running self |},
               None, out1 ++ map SServer out2 ++ [ SSleep ])
          end
      end
  end.

(** The [while self.running] of [run()] over the turns observed. *)
Fixpoint loop (turns : list DepthTurn) (self : OAKDepthStreamer)
    : OAKDepthStreamer * LoopEnd * list StreamerEvent :=
  if negb (running self) then (self, LoopExited, [])
  else
    match turns with
    | [] => (self, LoopGoesOn, [])
    | t :: rest =>
        match turn t self with
        | (self1, Some e, out1) => (self1, LoopRaised e, out1)
        | (self1, None, out1) =>
            let '(self2, e, out2) := loop rest self1 in
            (self2, e, out1 ++ out2)
        end
    end.

(** [OAKDepthStreamer.run]: [start()] outside of the [try], the loop
    inside, [KeyboardInterrupt] caught, [stop()] in the [finally]. *)
Definition run (dev : DeviceAnswer) (senv : StartEnv) (stopenv : StopEnv)
    (turns : list DepthTurn) (self : OAKDepthStreamer)
    : OAKDepthStreamer * RunEnd * list StreamerEvent :=
  match start dev senv self with
  | (self1, inr e, out1) => (self1, RunRaised e, out1)
  | (self1, inl false, out1) => (self1, RunReturned, out1)
  | (self1, inl true, out1) =>
      match loop turns self1 with
      | (self2, LoopGoesOn, out2) => (self2, RunGoesOn, out1 ++ out2)
      | (self2, LoopExited, out2) =>
          let '(self3, e3, out3) := stop stopenv self2 in
          (self3, match e3 with Some e => RunRaised e | None => RunReturned end,
           out1 ++ out2 ++ out3)
      | (self2, LoopRaised RaiseKeyboardInterrupt, out2) =>
          let '(self3, e3, out3) := stop stopenv self2 in
          (self3, match e3 with Some e => RunRaised e | None => RunReturned end,
           out1 ++ out2 ++ [ SPrint StoppingOakDepthStreamer ] ++ out3)
      | (self2, LoopRaised e, out2) =>
          let '(self3, e3, out3) := stop stopenv self2 in
          (self3, RunRaised (match e3 with Some e' => e' | None => e end),
           out1 ++ out2 ++ out3)
      end
  end.

End Streamer.

(** [run_depth_streamer] of main.py, from the call of [streamer.run()]
    on: any [Exception] is caught and reported; [KeyboardInterrupt] is
    not an [Exception].  The result tells whether something still leaves
    the function. *)
Definition run_depth_streamer (dev : DeviceAnswer) (senv : StartEnv)
    (stopenv : StopEnv) (turns : list DepthTurn) (self : OAKDepthStreamer)
    : OAKDepthStreamer * RunEnd * list StreamerEvent :=
  match Streamer.run dev senv stopenv turns self with
  | (self1, RunRaised RaiseKeyboardInterrupt, out) =>
      (self1, RunRaised RaiseKeyboardInterrupt, out)
  | (self1, RunRaised e, out) =>
      (self1, RunReturned,
       out ++ [ SPrint (OakDepthStreamerError e); SPrint ContinuingWithoutDepthStream ])
  | r => r
  end.

(** The pictures that reach [update_frame] in the turns of a run are
    rasters proper. *)
Definition turn_has_valid_picture (t : DepthTurn) : Prop :=
  match t with
  | TurnFrame picture _ _ => valid_frame picture
  | _ => True
  end.

(** A streamer as [run_depth_streamer] creates it. *)
Definition fresh_streamer : OAKDepthStreamer :=
  Streamer.init (fun p => p) 8082 8083 false
    {| device := DeviceNone; depthQueue := false |}.

(** What holds of the server of a depth streamer all along: its bound
    is 640 by 480, and it holds either no packet, with its counter at 0,
    or a packet of 640 by 480 pixels, with a positive counter. *)
Definition depth_server_ok (srv : StreamingServer) : Prop :=
  max_width srv = 640 /\ max_height srv = 480
  /\ match latest_frame_data srv with
     | None => frame_count srv = 0
     | Some packet =>
         1 <= frame_count srv
         /\ exists pixels : bytes,
              packet = spec_packet 640 480 pixels
              /\ Z.of_nat (length pixels) = 640 * 480 * 3
     end.

(** Whether the server of a streamer reported a packet it could not
    build. *)
Definition reports_preparation_error (ev : StreamerEvent) : bool :=
  match ev with
  | SServer (EPrint FramePreparationError) => true
  | _ => false
  end.

Definition is_turn_sleep (ev : StreamerEvent) : bool :=
  match ev with
  | SSleep => true
  | _ => false
  end.

(** The number of turns of the streamer's loop that ran to their end,
    read off its [time.sleep(0.033)]. *)
Definition turns_completed (out : list StreamerEvent) : nat :=
  length (filter is_turn_sleep out).

(** A streamer that has been through its [stop()]: not running, its
    device released, the loop of its HTTP server ended. *)
Definition streamer_stopped (s : OAKDepthStreamer) : Prop :=
  running s = false
  /\ device (viewer s) = DeviceDeleted
  /\ match server (streaming_server s) with
     | Some h => serving h = false
     | None => False
     end.

(** * Gestures and actions (motiontask.py, main.py, ParticleEffects.py)

    The module-level dictionaries of motiontask.py and main.py become
    association lists in insertion order (the loops of the source walk
    them in that order), threaded through the functions as one state;
    hand coordinates and clock readings are binary64 floats. *)

(** ** Python dictionaries, in insertion order *)

Section Dict.

Context {K V : Type} (eqb : K -> K -> bool).

Fixpoint dict_get (k : K) (d : list (K * V)) : option V :=
  match d with
  | [] => None
  | (k', v) :: rest => if eqb k k' then Some v else dict_get k rest
  end.

Definition dict_mem (k : K) (d : list (K * V)) : bool :=
  match dict_get k d with Some _ => true | None => false end.

(** [d[k] = v]: in place when the key is there, at the end otherwise. *)
Fixpoint dict_set (k : K) (v : V) (d : list (K * V)) : list (K * V) :=
  match d with
  | [] => [ (k, v) ]
  | (k', v') :: rest =>
      if eqb k k' then (k', v) :: rest else (k', v') :: dict_set k v rest
  end.

(** [d.pop(k, None)]. *)
Fixpoint dict_pop (k : K) (d : list (K * V)) : list (K * V) :=
  match d with
  | [] => []
  | (k', v') :: rest =>
      if eqb k k' then rest else (k', v') :: dict_pop k rest
  end.

End Dict.

(** ** Float literals and comparisons *)

(** The float written [n/d] as a decimal literal of the source (1.8 is
    [decimal 18 10]): the literal and the quotient are both the binary64
    nearest to the same rational. *)
Definition decimal (n d : Z) : py_float :=
  SFdiv 53 1024 (float_of_int n) (float_of_int d).

Definition py_sub (a b : py_float) : py_float := SFsub 53 1024 a b.
Definition py_add (a b : py_float) : py_float := SFadd 53 1024 a b.
Definition py_mul (a b : py_float) : py_float := SFmul 53 1024 a b.
Definition py_abs (a : py_float) : py_float := SFabs a.
Definition py_neg (a : py_float) : py_float := SFopp a.
Definition py_lt (a b : py_float) : bool := SFltb a b.
Definition py_gt (a b : py_float) : bool := SFltb b a.

(** A float that is a number: neither an infinity nor a NaN. *)
Definition py_isfinite (a : py_float) : bool :=
  match a with
  | S754_zero _ | S754_finite _ _ _ => true
  | S754_infinity _ | S754_nan => false
  end.

Module Motiontask.

(** The keys of [last_action_time] and [current_motion]: a hand index
    or one of the fixed strings. *)
Inductive Key := KInt (n : Z) | KStr (s : string).

Definition key_eqb (a b : Key) : bool :=
  match a, b with
  | KInt x, KInt y => x =? y
  | KStr x, KStr y => String.eqb x y
  | _, _ => false
  end.

(** The globals of the module. *)
Record State := {
  hand_history : list (Z * list (py_float * py_float));
  hand_labels : list (Z * string);
  hand_gestures : list (Z * string);
  last_action_time : list (Key * py_float);
  current_motion : list (Key * string);
  osc_callback : bool
}.

Definition initial : State :=
  {| hand_history := []; hand_labels := []; hand_gestures := [];
     last_action_time := []; current_motion := []; osc_callback := false |}.

(** The dictionary handed to [process_hand_data] by GetMediaPipe:
    [gesture] is [data['gesture']['gesture']] when a gesture was
    recognised for the hand. *)
Record HandData := {
  hand_id : Z;
  hand_label : string;
  coordinates : list (string * py_float);
  gesture : option string
}.

(** The readings of [time.time()] during one call of
    [process_hand_data]: the one kept as [current_time], and the ones
    taken when the four entries of [current_motion] are checked for
    expiry. *)
Record Clock := {
  now : py_float;
  now_hand : py_float;
  now_left : py_float;
  now_right : py_float;
  now_both : py_float
}.

Inductive Diag :=
| HandSelectRightTrack (hand_id : Z) (hand_label : string)
| HandSelectLeftTrack (hand_id : Z) (hand_label : string)
| LeftThumbUpSelectUpScene
| LeftThumbDownSelectDownScene
| RightVictoryFireClip
| RightPointingUpFireScene
| BothHandsHoldingMasterTrack.

Inductive Event :=
| Print (d : Diag)
| Callback (action : string) (hand : option Z).

(** [deque(maxlen=10).append]. *)
Definition deque_append {A} (h : list A) (p : A) : list A :=
  if (10 <=? length h)%nat then tl h ++ [ p ] else h ++ [ p ].

Definition set_hand_history (st : State) (v : list (Z * list (py_float * py_float))) :=
  {| hand_history := v; hand_labels := hand_labels st;
     hand_gestures := hand_gestures st; last_action_time := last_action_time st;
     current_motion := current_motion st; osc_callback := osc_callback st |}.

Definition set_hand_labels (st : State) (v : list (Z * string)) :=
  {| hand_history := hand_history st; hand_labels := v;
     hand_gestures := hand_gestures st; last_action_time := last_action_time st;
     current_motion := current_motion st; osc_callback := osc_callback st |}.

Definition set_hand_gestures (st : State) (v : list (Z * string)) :=
  {| hand_history := hand_history st; hand_labels := hand_labels st;
     hand_gestures := v; last_action_time := last_action_time st;
     current_motion := current_motion st; osc_callback := osc_callback st |}.

Definition set_last_action_time (st : State) (v : list (Key * py_float)) :=
  {| hand_history := hand_history st; hand_labels := hand_labels st;
     hand_gestures := hand_gestures st; last_action_time := v;
     current_motion := current_motion st; osc_callback := osc_callback st |}.

Definition set_current_motion (st : State) (v : list (Key * string)) :=
  {| hand_history := hand_history st; hand_labels := hand_labels st;
     hand_gestures := hand_gestures st; last_action_time := last_action_time st;
     current_motion := v; osc_callback := osc_callback st |}.

(** [set_osc_callback]. *)
Definition set_osc_callback (st : State) (callback : bool) :=
  {| hand_history := hand_history st; hand_labels := hand_labels st;
     hand_gestures := hand_gestures st; last_action_time := last_action_time st;
     current_motion := current_motion st; osc_callback := callback |}.

(** The classification at the end of [detect_swipe], on the oldest and
    the newest position of the history. *)
Definition classify_swipe (hand_label : string) (start finish : py_float * py_float)
    : option string :=
  let '(start_x, start_y) := start in
  let '(end_x, end_y) := finish in
  let dx := py_sub end_x start_x in
  let dy := py_sub end_y start_y in
  if py_gt (py_abs dx) (py_mul (py_abs dy) (decimal 18 10)) then
    if String.eqb hand_label "Left" && py_lt start_x (decimal 45 100)
       && py_gt end_x (decimal 55 100) && py_gt dx (decimal 25 100)
    then Some "right_track"
    else if String.eqb hand_label "Right" && py_gt start_x (decimal 55 100)
            && py_lt end_x (decimal 45 100) && py_lt dx (py_neg (decimal 25 100))
    then Some "left_track"
    else None
  else if py_gt (py_abs dy) (py_mul (py_abs dx) (decimal 2 1)) then
    if py_lt dy (py_neg (decimal 22 100)) then Some "up"
    else if py_gt dy (decimal 22 100) then Some "down"
    else None
  else None.

(** [detect_swipe]. *)
Definition detect_swipe (st : State) (hand_id : Z) (hand_label : string)
    (palm_x palm_y : py_float) : State * option string :=
  let history :=
    deque_append
      (match dict_get Z.eqb hand_id (hand_history st) with
       | Some h => h
       | None => []
       end)
      (palm_x, palm_y) in
  let st1 :=
    set_hand_labels
      (set_hand_history st (dict_set Z.eqb hand_id history (hand_history st)))
      (dict_set Z.eqb hand_id hand_label (hand_labels st)) in
  (st1,
   if (length history <? 5)%nat then None
   else match history with
        | [] => None
        | start :: _ => classify_swipe hand_label start (last history start)
        end).

(** [check_left_hand_gesture], over the keys of [hand_history]. *)
Fixpoint check_left_hand_gesture_from (keys : list Z) (st : State) : option string :=
  match keys with
  | [] => None
  | hand_id :: rest =>
      match dict_get Z.eqb hand_id (hand_labels st),
            dict_get Z.eqb hand_id (hand_gestures st) with
      | Some hand_label, Some gesture_name =>
          if String.eqb hand_label "Left" then
            if String.eqb gesture_name "Thumb_Up" || String.eqb gesture_name "Thumbs_Up"
            then Some "up_scene"
            else if String.eqb gesture_name "Thumb_Down"
                    || String.eqb gesture_name "Thumbs_Down"
            then Some "down_scene"
            else check_left_hand_gesture_from rest st
          else check_left_hand_gesture_from rest st
      | _, _ => check_left_hand_gesture_from rest st
      end
  end.

Definition check_left_hand_gesture (st : State) : option string :=
  check_left_hand_gesture_from (map fst (hand_history st)) st.

(** [check_right_hand_gesture]. *)
Fixpoint check_right_hand_gesture_from (keys : list Z) (st : State) : option string :=
  match keys with
  | [] => None
  | hand_id :: rest =>
      match dict_get Z.eqb hand_id (hand_labels st),
            dict_get Z.eqb hand_id (hand_gestures st) with
      | Some hand_label, Some gesture_name =>
          if String.eqb hand_label "Right" then
            if String.eqb gesture_name "Victory" then Some "fire_clip"
            else if String.eqb gesture_name "Pointing_Up" then Some "fire_scene"
            else check_right_hand_gesture_from rest st
          else check_right_hand_gesture_from rest st
      | _, _ => check_right_hand_gesture_from rest st
      end
  end.

Definition check_right_hand_gesture (st : State) : option string :=
  check_right_hand_gesture_from (map fst (hand_history st)) st.

(** [check_both_hands_holding]. *)
Definition check_both_hands_holding (st : State) : option string :=
  if (length (hand_gestures st) <? 2)%nat then None
  else
    let holding_count :=
      length (filter (fun kv => String.eqb (snd kv) "Closed_Fist"
                                || String.eqb (snd kv) "Open_Palm")
                     (hand_gestures st)) in
    if (2 <=? holding_count)%nat then Some "master_track" else None.

(** [key not in last_action_time or current_time - last_action_time[key] > delay]. *)
Definition may_act (st : State) (key : Key) (current_time delay : py_float) : bool :=
  match dict_get key_eqb key (last_action_time st) with
  | None => true
  | Some last => py_gt (py_sub current_time last) delay
  end.

(** [if osc_callback: osc_callback(action, hand)]. *)
Definition call_back (st : State) (action : string) (hand : option Z) : list Event :=
  if osc_callback st then [ Callback action hand ] else [].

(** One of the four expiry checks that close [process_hand_data]:
    [time.time() - last_action_time.get(key, 0) > delay]. *)
Definition expire (st : State) (motion_key action_key : Key) (reading delay : py_float)
    : State :=
  if dict_mem key_eqb motion_key (current_motion st) then
    let last := match dict_get key_eqb action_key (last_action_time st) with
                | Some t => t
                | None => float_of_int 0
                end in
    if py_gt (py_sub reading last) delay
    then set_current_motion st (dict_pop key_eqb motion_key (current_motion st))
    else st
  else st.

(** [process_hand_data], block by block. *)
Definition track_block (st : State) (data : HandData) (swipe : option string)
    (current_time : py_float) : State * list Event :=
  match swipe with
  | Some s =>
      if String.eqb s "right_track" || String.eqb s "left_track" then
        if may_act st (KInt (hand_id data)) current_time (decimal 25 10) then
          let st1 :=
            set_hand_history
              (set_last_action_time st
                 (dict_set key_eqb (KInt (hand_id data)) current_time
                    (last_action_time st)))
              (dict_set Z.eqb (hand_id data) [] (hand_history st)) in
          if String.eqb s "right_track" then
            (set_current_motion st1
               (dict_set key_eqb (KInt (hand_id data)) "Select right track"
                  (current_motion st1)),
             Print (HandSelectRightTrack (hand_id data) (hand_label data))
             :: call_back st1 "right_track" (Some (hand_id data)))
          else
            (set_current_motion st1
               (dict_set key_eqb (KInt (hand_id data)) "Select left track"
                  (current_motion st1)),
             Print (HandSelectLeftTrack (hand_id data) (hand_label data))
             :: call_back st1 "left_track" (Some (hand_id data)))
        else (st, [])
      else (st, [])
  | None => (st, [])
  end.

Definition left_block (st : State) (current_time : py_float) : State * list Event :=
  match check_left_hand_gesture st with
  | Some left_gesture =>
      if may_act st (KStr "left_gesture") current_time (decimal 15 10) then
        let st1 :=
          set_last_action_time st
            (dict_set key_eqb (KStr "left_gesture") current_time
               (last_action_time st)) in
        if String.eqb left_gesture "up_scene" then
          (set_current_motion st1
             (dict_set key_eqb (KStr "left") "Select up scene" (current_motion st1)),
           Print LeftThumbUpSelectUpScene :: call_back st1 "up_scene" None)
        else if String.eqb left_gesture "down_scene" then
          (set_current_motion st1
             (dict_set key_eqb (KStr "left") "Select down scene" (current_motion st1)),
           Print LeftThumbDownSelectDownScene :: call_back st1 "down_scene" None)
        else (st1, [])
      else (st, [])
  | None => (st, [])
  end.

Definition right_block (st : State) (current_time : py_float) : State * list Event :=
  match check_right_hand_gesture st with
  | Some right_gesture =>
      if may_act st (KStr "right_gesture") current_time (decimal 15 10) then
        let st1 :=
          set_last_action_time st
            (dict_set key_eqb (KStr "right_gesture") current_time
               (last_action_time st)) in
        if String.eqb right_gesture "fire_clip" then
          (set_current_motion st1
             (dict_set key_eqb (KStr "right") "Fire/Stop Clip Slot" (current_motion st1)),
           Print RightVictoryFireClip :: call_back st1 "fire_clip" None)
        else if String.eqb right_gesture "fire_scene" then
          (set_current_motion st1
             (dict_set key_eqb (KStr "right") "Fire/Stop Scene" (current_motion st1)),
           Print RightPointingUpFireScene :: call_back st1 "fire_scene" None)
        else (st1, [])
      else (st, [])
  | None => (st, [])
  end.

Definition both_block (st : State) (current_time : py_float) : State * list Event :=
  match check_both_hands_holding st with
  | Some _ =>
      if may_act st (KStr "both_holding") current_time (decimal 2 1) then
        let st1 :=
          set_current_motion
            (set_last_action_time st
               (dict_set key_eqb (KStr "both_holding") current_time
                  (last_action_time st)))
            (dict_set key_eqb (KStr "both") "Choose MasterTrack" (current_motion st)) in
        (st1, Print BothHandsHoldingMasterTrack :: call_back st1 "master_track" None)
      else (st, [])
  | None => (st, [])
  end.

Definition process_hand_data (clock : Clock) (st : State) (data : HandData)
    : State * list Event :=
  let palm_x := match dict_get String.eqb "palm_x" (coordinates data) with
                | Some x => x
                | None => decimal 5 10
                end in
  let palm_y := match dict_get String.eqb "palm_y" (coordinates data) with
                | Some y => y
                | None => decimal 5 10
                end in
  let st0 :=
    match gesture data with
    | Some gesture_name =>
        set_hand_gestures st
          (dict_set Z.eqb (hand_id data) gesture_name (hand_gestures st))
    | None => st
    end in
  let '(st1, swipe) := detect_swipe st0 (hand_id data) (hand_label data) palm_x palm_y in
  let current_time := now clock in
  let '(st2, out2) := track_block st1 data swipe current_time in
  let '(st3, out3) := left_block st2 current_time in
  let '(st4, out4) := right_block st3 current_time in
  let '(st5, out5) := both_block st4 current_time in
  let st6 := expire st5 (KInt (hand_id data)) (KInt (hand_id data))
               (now_hand clock) (decimal 25 10) in
  let st7 := expire st6 (KStr "left") (KStr "left_gesture")
               (now_left clock) (decimal 15 10) in
  let st8 := expire st7 (KStr "right") (KStr "right_gesture")
               (now_right clock) (decimal 15 10) in
  let st9 := expire st8 (KStr "both") (KStr "both_holding")
               (now_both clock) (decimal 2 1) in
  (st9, out2 ++ out3 ++ out4 ++ out5).

End Motiontask.

Module ParticleEffects.

(** A hand as the callers describe it: a dictionary that may lack any
    of its keys. *)
Record HandDict := {
  d_hand_id : option Z;
  d_openness : option py_float;
  d_pinch : option py_float;
  d_palm_x : option py_float;
  d_palm_y : option py_float;
  d_palm_z : option py_float
}.

(** An entry of ['hands'] in the message. *)
Record Hand := {
  id : Z;
  openness : py_float;
  pinch : py_float;
  palm_x : py_float;
  palm_y : py_float;
  palm_z : py_float
}.

(** The message of type ['hand_data']; the key ['hands'] is absent from
    the message built for an empty list. *)
Record Message := {
  m_openness : py_float;
  m_pinch : py_float;
  hand_count : Z;
  hands : option (list Hand);
  timestamp : py_float
}.

(** [ParticleWebSocketHandler], as far as [update_hand_data] goes:
    [loop_running] tells whether the attribute [loop] exists, is set and
    is not closed. *)
Record Handler := {
  clients : list Z;
  latest_hand_data : option Message;
  loop_running : bool
}.

Definition get {A} (v : option A) (default : A) : A :=
  match v with Some a => a | None => default end.

(** [total = 0; for h in l: total += h.get(key, default)]. *)
Definition total (field : HandDict -> option py_float) (default : py_float)
    (l : list HandDict) : py_float :=
  fold_left (fun acc h => py_add acc (get (field h) default)) l (float_of_int 0).

Definition hand_of (h : HandDict) : Hand :=
  {| id := get (d_hand_id h) 0;
     openness := get (d_openness h) (decimal 5 10);
     pinch := get (d_pinch h) (float_of_int 0);
     palm_x := get (d_palm_x h) (decimal 5 10);
     palm_y := get (d_palm_y h) (decimal 5 10);
     palm_z := get (d_palm_z h) (float_of_int 0) |}.

(** The message [update_hand_data] builds; [reading] is [time.time()]. *)
Definition message (reading : py_float) (hand_data_list : list HandDict) : Message :=
  match hand_data_list with
  | [] =>
      {| m_openness := decimal 5 10; m_pinch := float_of_int 0; hand_count := 0;
         hands := None; timestamp := reading |}
  | _ =>
      let n := Z.of_nat (length hand_data_list) in
      {| m_openness :=
           SFdiv 53 1024 (total d_openness (decimal 5 10) hand_data_list)
             (float_of_int n);
         m_pinch :=
           SFdiv 53 1024 (total d_pinch (float_of_int 0) hand_data_list)
             (float_of_int n);
         hand_count := n;
         hands := Some (map hand_of hand_data_list);
         timestamp := reading |}
  end.

(** [ParticleWebSocketHandler.update_hand_data]: the new handler and
    the clients for which a send was scheduled; [schedules] tells for
    which clients [run_coroutine_threadsafe] goes through, the others
    are dropped from [clients]. *)
Definition update_hand_data (reading : py_float) (schedules : Z -> bool)
    (self : Handler) (hand_data_list : list HandDict)
    : Handler * list (Z * Message) :=
  let msg := message reading hand_data_list in
  match clients self with
  | _ :: _ =>
      if loop_running self then
        ({| clients := filter schedules (clients self);
            latest_hand_data := Some msg;
            loop_running := loop_running self |},
         map (fun c => (c, msg)) (filter schedules (clients self)))
      else
        ({| clients := clients self; latest_hand_data := Some msg;
            loop_running := loop_running self |}, [])
  | [] =>
      ({| clients := clients self; latest_hand_data := Some msg;
          loop_running := loop_running self |}, [])
  end.

End ParticleEffects.

Module Main.

(** An OSC message of [client.send_message(address, value)]. *)
Record Osc := { address : string; value : Z }.

(** [send_action]: what goes to port 7400. *)
Definition send_action (action : string) (hand_id : option Z) : list Osc :=
  if String.eqb action "right_track" then [ {| address := "/track/right"; value := 0 |} ]
  else if String.eqb action "left_track" then [ {| address := "/track/left"; value := 1 |} ]
  else if String.eqb action "up_scene" then [ {| address := "/scene/up"; value := 2 |} ]
  else if String.eqb action "down_scene" then [ {| address := "/scene/down"; value := 3 |} ]
  else if String.eqb action "fire_clip" then [ {| address := "/clip/fire"; value := 4 |} ]
  else if String.eqb action "fire_scene" then [ {| address := "/scene/fire"; value := 5 |} ]
  else if String.eqb action "master_track" then
    [ {| address := "/track/master"; value := 6 |} ]
  else [].

(** The dictionary [hand_info] of [collect_hand_data_for_particles]:
    all its six keys are set. *)
Record HandInfo := {
  hand_id : Z;
  openness : py_float;
  pinch : py_float;
  palm_x : py_float;
  palm_y : py_float;
  palm_z : py_float
}.

Definition as_dict (h : HandInfo) : ParticleEffects.HandDict :=
  {| ParticleEffects.d_hand_id := Some (hand_id h);
     ParticleEffects.d_openness := Some (openness h);
     ParticleEffects.d_pinch := Some (pinch h);
     ParticleEffects.d_palm_x := Some (palm_x h);
     ParticleEffects.d_palm_y := Some (palm_y h);
     ParticleEffects.d_palm_z := Some (palm_z h) |}.

(** The globals of main.py that the particle path uses, with the
    handler of the particle server. *)
Record State := {
  particle_hand_data_list : list HandInfo;
  hand_data_timestamps : list (Z * py_float);
  particle_handler : ParticleEffects.Handler
}.

(** The [for ... enumerate ... break] followed by [if not found:
    append]. *)
Fixpoint replace_or_append (hand_info : HandInfo) (l : list HandInfo) : list HandInfo :=
  match l with
  | [] => [ hand_info ]
  | existing :: rest =>
      if hand_id existing =? hand_id hand_info then hand_info :: rest
      else existing :: replace_or_append hand_info rest
  end.

(** [current_time - hand_data_timestamps.get(h['hand_id'], 0) < timeout]. *)
Definition fresh (timestamps : list (Z * py_float)) (current_time : py_float)
    (h : HandInfo) : bool :=
  py_lt (py_sub current_time
           (match dict_get Z.eqb (hand_id h) timestamps with
            | Some t => t
            | None => float_of_int 0
            end))
        (decimal 1 1).

Definition coordinate (data : Motiontask.HandData) (key : string) (default : py_float)
    : py_float :=
  match dict_get String.eqb key (Motiontask.coordinates data) with
  | Some x => x
  | None => default
  end.

(** [collect_hand_data_for_particles]: [current_time] is its reading of
    the clock, [reading] the one of [update_hand_data]. *)
Definition collect_hand_data_for_particles (current_time reading : py_float)
    (schedules : Z -> bool) (st : State) (data : Motiontask.HandData)
    : State * list (Z * ParticleEffects.Message) :=
  let hand_info :=
    {| hand_id := Motiontask.hand_id data;
       openness := coordinate data "openness" (decimal 5 10);
       pinch := coordinate data "pinch" (float_of_int 0);
       palm_x := coordinate data "palm_x" (decimal 5 10);
       palm_y := coordinate data "palm_y" (decimal 5 10);
       palm_z := coordinate data "palm_z" (float_of_int 0) |} in
  let l1 := replace_or_append hand_info (particle_hand_data_list st) in
  let timestamps :=
    dict_set Z.eqb (Motiontask.hand_id data) current_time (hand_data_timestamps st) in
  let l2 := filter (fresh timestamps current_time) l1 in
  let '(handler, sent) :=
    ParticleEffects.update_hand_data reading schedules (particle_handler st)
      (map as_dict l2) in
  ({| particle_hand_data_list := l2; hand_data_timestamps := timestamps;
      particle_handler := handler |}, sent).

End Main.

(** ** Runs of the gesture functions and what is observed of them *)

(** Successive calls of [process_hand_data], as GetMediaPipe makes
    them, each with its readings of the clock. *)
Fixpoint process_all (calls : list (Motiontask.Clock * Motiontask.HandData))
    (st : Motiontask.State) : Motiontask.State * list Motiontask.Event :=
  match calls with
  | [] => (st, [])
  | (clock, data) :: rest =>
      let '(st1, out1) := Motiontask.process_hand_data clock st data in
      let '(st2, out2) := process_all rest st1 in
      (st2, out1 ++ out2)
  end.

(** The positions kept for a hand. *)
Definition history_of (st : Motiontask.State) (h : Z) : list (py_float * py_float) :=
  match dict_get Z.eqb h (Motiontask.hand_history st) with
  | Some l => l
  | None => []
  end.

(** How many of the calls are about a hand. *)
Definition samples_of (h : Z) (calls : list (Motiontask.Clock * Motiontask.HandData))
    : nat :=
  length (filter (fun c => Motiontask.hand_id (snd c) =? h) calls).

(** A track selection for a hand, as [process_hand_data] prints it. *)
Definition is_track_selection (h : Z) (ev : Motiontask.Event) : bool :=
  match ev with
  | Motiontask.Print (Motiontask.HandSelectRightTrack h' _)
  | Motiontask.Print (Motiontask.HandSelectLeftTrack h' _) => h' =? h
  | _ => false
  end.

(** A scene selection of the left hand. *)
Definition is_scene_selection (ev : Motiontask.Event) : bool :=
  match ev with
  | Motiontask.Print Motiontask.LeftThumbUpSelectUpScene
  | Motiontask.Print Motiontask.LeftThumbDownSelectDownScene => true
  | _ => false
  end.

(** Whether [send_action], installed as the callback, turns a call of
    the callback into exactly one OSC message. *)
Definition handled_by_send_action (ev : Motiontask.Event) : bool :=
  match ev with
  | Motiontask.Callback action hand =>
      match Main.send_action action hand with
      | [ _ ] => true
      | _ => false
      end
  | Motiontask.Print _ => true
  end.

(** The state of main.py before any hand was seen, around a handler. *)
Definition main_initial (handler : ParticleEffects.Handler) : Main.State :=
  {| Main.particle_hand_data_list := []; Main.hand_data_timestamps := [];
     Main.particle_handler := handler |}.

(** Successive calls of [collect_hand_data_for_particles], each with
    its two clock readings and the fate of the sends. *)
Fixpoint collect_all
    (calls : list (py_float * py_float * (Z -> bool) * Motiontask.HandData))
    (st : Main.State) : Main.State * list (Z * ParticleEffects.Message) :=
  match calls with
  | [] => (st, [])
  | (current_time, reading, schedules, data) :: rest =>
      let '(st1, out1) :=
        Main.collect_hand_data_for_particles current_time reading schedules st data in
      let '(st2, out2) := collect_all rest st1 in
      (st2, out1 ++ out2)
  end.

(** Sample inputs: a left hand that moves from the left to the right of
    the picture at constant height, and the clock of a call. *)
Definition sweep_sample (tenths : Z) : Motiontask.HandData :=
  {| Motiontask.hand_id := 0; Motiontask.hand_label := "Left";
     Motiontask.coordinates := [ ("palm_x", decimal tenths 10); ("palm_y", decimal 5 10) ];
     Motiontask.gesture := None |}.

Definition clock_at (seconds : Z) : Motiontask.Clock :=
  {| Motiontask.now := float_of_int seconds;
     Motiontask.now_hand := float_of_int seconds;
     Motiontask.now_left := float_of_int seconds;
     Motiontask.now_right := float_of_int seconds;
     Motiontask.now_both := float_of_int seconds |}.

Definition thumb_sample (gesture_name : string) : Motiontask.HandData :=
  {| Motiontask.hand_id := 0; Motiontask.hand_label := "Left";
     Motiontask.coordinates := [ ("palm_x", decimal 5 10); ("palm_y", decimal 5 10) ];
     Motiontask.gesture := Some gesture_name |}.

(** The time of the last scene selection, as [last_action_time] keeps
    it. *)
Definition left_gesture_time (st : Motiontask.State) : option py_float :=
  dict_get Motiontask.key_eqb (Motiontask.KStr "left_gesture")
    (Motiontask.last_action_time st).

(** * The motion producer (GetMediaPipe.py)

    [main()] of GetMediaPipe.py, as far as its streaming server goes.
    What the camera, MediaPipe and OpenCV do in a turn of its loop is
    given: [CameraFrame] is a turn that reaches [update_frame], with the
    annotated picture, the hands described in it, and the exception, if
    any, that a later call of the turn raises; [CameraEnds] is
    [camera.read()] answering [ret = False]; [CameraRaises] is a turn in
    which a call raises before [update_frame], after the callback was
    given the hands listed.  [data_callback] acts on a state of its
    own. *)

Inductive CameraTurn :=
| CameraFrame (display_frame : Frame) (hand_data : list Motiontask.HandData)
              (env : Env) (later : option exn)
| CameraEnds
| CameraRaises (hand_data : list Motiontask.HandData) (e : exn).

Module MediaPipe.

Section Main.

Context {S : Type} (data_callback : option (S -> Motiontask.HandData -> S)).

(** [if data_callback: for ... in hand_data: data_callback({...})]. *)
Definition call_back (hand_data : list Motiontask.HandData) (cb : S) : S :=
  match data_callback with
  | Some f => fold_left f hand_data cb
  | None => cb
  end.

(** The [while True] of [main()] over the turns observed. *)
Fixpoint loop (turns : list CameraTurn) (stream_server : StreamingServer) (cb : S)
    : StreamingServer * S * LoopEnd * list Event :=
  match turns with
  | [] => (stream_server, cb, LoopGoesOn, [])
  | CameraEnds :: _ => (stream_server, cb, LoopExited, [])
  | CameraRaises hand_data e :: _ =>
      (stream_server, call_back hand_data cb, LoopRaised (RaiseException e), [])
  | CameraFrame display_frame hand_data env later :: rest =>
      let cb1 := call_back hand_data cb in
      match Motion.update_frame env stream_server display_frame with
      | Raised e srv out1 => (srv, cb1, LoopRaised (RaiseException e), out1)
      | Returned srv out1 =>
          match later with
          | Some e => (srv, cb1, LoopRaised (RaiseException e), out1)
          | None =>
              let '(srv2, cb2, e, out2) := loop rest srv cb1 in
              (srv2, cb2, e, out1 ++ ESleep :: out2)
          end
      end
  end.

(** [main()]: [precheck()] and the server outside of any [try], the
    loop, then [stream_server.stop()] once the loop is left by its
    [break].  The server is [None] when [precheck()] raised before it
    was created. *)
Definition main (precheck_ok : bool) (expanduser : string -> string)
    (senv : StartEnv) (stopenv : StopEnv) (turns : list CameraTurn) (cb : S)
    : option StreamingServer * S * RunEnd * list Event :=
  if negb precheck_ok then (None, cb, RunRaised (RaiseException RuntimeError), [])
  else
    let stream_server :=
      Motion.init expanduser 8080 Motion.default_tcp_port 640 480 None true in
    match Motion.start senv stream_server with
    | Raised e srv out1 => (Some srv, cb, RunRaised (RaiseException e), out1)
    | Returned srv out1 =>
        match loop turns srv cb with
        | (srv2, cb2, LoopGoesOn, out2) => (Some srv2, cb2, RunGoesOn, out1 ++ out2)
        | (srv2, cb2, LoopRaised e, out2) => (Some srv2, cb2, RunRaised e, out1 ++ out2)
        | (srv2, cb2, LoopExited, out2) =>
            let r := Motion.stop stopenv srv2 in
            (Some (result_self r), cb2, RunReturned, out1 ++ out2 ++ result_out r)
        end
    end.

End Main.

End MediaPipe.

(** Whether a server still runs as [start()] left it: its HTTP loop
    serving and its listening socket, if it has one, open. *)
Definition still_serving (srv : StreamingServer) : bool :=
  match server srv with
  | Some h => serving h
  | None => false
  end
  && match tcp_socket srv with
     | Some s => sock_open s
     | None => true
     end.

(** * The threads at a finer grain

    The definitions above take one step per turn of a loop and let
    every call come back.  Where two threads meet, the order of single
    statements matters, and a call may wait for another thread; the
    definitions below follow the same code statement by statement at
    these places. *)

(** ** [_tcp_accept_loop], with the point between [accept()] and the
    assignment of [self.tcp_client] *)

(** Where the thread stands: about to call [accept()]; handed a client
    by [accept()], [self.tcp_client] not yet assigned; at the head of
    the inner loop; past the loop. *)
Inductive LoopPoint :=
| AtAccept
| HasAccepted (addr : Z)
| AtSend
| AfterLoop.

Definition accept_loop_step (env : LoopEnv) (self : StreamingServer) (pt : LoopPoint)
    : StreamingServer * LoopPoint * list Event :=
  match pt with
  | AtAccept =>
      match tcp_socket self with
      | None => (self, AfterLoop, [])
      | Some sock =>
          match (if sock_open sock then accept_answer env else AcceptFailed) with
          | Accepted addr => (self, HasAccepted addr, [])
          | AcceptTimeout => (self, AtAccept, [])
          | AcceptFailed => (self, AfterLoop, [ EPrint (TcpAcceptError OSError) ])
          end
      end
  | HasAccepted addr =>
      (set_tcp_client self (Some {| sock_peer := addr; sock_open := true |}),
       AtSend,
       [ EPrint (JitNetRecvConnected addr) ])
  | AtSend =>
      match tcp_client self with
      | None => (self, AtAccept, [])
      | Some client =>
          match truthy (latest_frame_data self) with
          | Some data =>
              if sock_open client && send_ok env then
                (self, AtSend, [ ETcpSend (sock_peer client) data; ESleep ])
              else (self, AtAccept, [])
          | None => (self, AtSend, [ ESleep ])
          end
      end
  | AfterLoop => (self, AfterLoop, [])
  end.

Fixpoint accept_loop_run (envs : list LoopEnv) (self : StreamingServer) (pt : LoopPoint)
    : StreamingServer * LoopPoint * list Event :=
  match envs with
  | [] => (self, pt, [])
  | env :: rest =>
      let '(self1, pt1, out1) := accept_loop_step env self pt in
      let '(self2, pt2, out2) := accept_loop_run rest self1 pt1 in
      (self2, pt2, out1 ++ out2)
  end.

(** The point at which a turn of the coarser loop starts or ends. *)
Definition point_of (st : LoopState) : LoopPoint :=
  match st with
  | Listening => AtAccept
  | Sending => AtSend
  | Closed => AfterLoop
  end.

(** An action of a session that leaves the server without a new
    packet: a turn of the thread, or an [update_frame] whose encoder
    raises or whose packet cannot be built. *)
Definition builds_nothing (self : StreamingServer) (a : Action) : bool :=
  match a with
  | Produce env frame =>
      match cv_imencode env frame with
      | None => true
      | Some _ => negb (packet_built self (env, frame))
      end
  | Turn _ => true
  end.

(** ** [stop()] while a handler is streaming

    [HTTPServer] serves its requests one after the other in the thread
    of [serve_forever]; a handler in the [while True] of [/stream] keeps
    that thread until one of its writes fails, and [shutdown()] waits
    for [serve_forever] to come to its end.  [streaming] says that such
    a handler is running on a connection that stays up: then
    [shutdown()] does not come back, and the rest of [stop()] is not
    reached. *)

Inductive Outcome (A S : Type) :=
| Finished (r : A)
| StuckInShutdown (self : S).
Arguments Finished {A S} r.
Arguments StuckInShutdown {A S} self.

Definition shutdown_returns (streaming : bool) (self : StreamingServer) : bool :=
  match server self with
  | Some h => negb (serving h && streaming)
  | None => true
  end.

(** [StreamingServer.stop] as a call. *)
Definition stop_call (streaming : bool) (env : StopEnv) (self : StreamingServer)
    : Outcome (Result StreamingServer) StreamingServer :=
  if shutdown_returns streaming self then Finished (Motion.stop env self)
  else StuckInShutdown self.

(** [OAKDepthStreamer.stop] as a call: [self.running = False] comes
    before [self.streaming_server.stop()]. *)
Definition streamer_stop_call (streaming : bool) (env : StopEnv) (self : OAKDepthStreamer)
    : Outcome (OAKDepthStreamer * option Raise * list StreamerEvent) OAKDepthStreamer :=
  if shutdown_returns streaming (streaming_server self) then
    Finished (Streamer.stop env self)
  else
    StuckInShutdown {| viewer := viewer self;
                       streaming_server := streaming_server self;
                       running := false |}.

(** How a call of [run()] stands, when its [stop()] may not come
    back. *)
Inductive RunCallEnd :=
| RunEnds (e : RunEnd)
| RunStuckInShutdown.

(** The [finally] of [run()]: [done] gives the end of [run()] from what
    [stop()] raised, if anything. *)
Definition run_finally (streaming : bool) (env : StopEnv) (self : OAKDepthStreamer)
    (done : option Raise -> RunEnd) (out : list StreamerEvent)
    : OAKDepthStreamer * RunCallEnd * list StreamerEvent :=
  match streamer_stop_call streaming env self with
  | Finished (self3, e3, out3) => (self3, RunEnds (done e3), out ++ out3)
  | StuckInShutdown self3 => (self3, RunStuckInShutdown, out)
  end.

(** [OAKDepthStreamer.run] as a call. *)
Definition streamer_run_call (streaming : bool) (dev : DeviceAnswer) (senv : StartEnv)
    (stopenv : StopEnv) (turns : list DepthTurn) (self : OAKDepthStreamer)
    : OAKDepthStreamer * RunCallEnd * list StreamerEvent :=
  match Streamer.start dev senv self with
  | (self1, inr e, out1) => (self1, RunEnds (RunRaised e), out1)
  | (self1, inl false, out1) => (self1, RunEnds RunReturned, out1)
  | (self1, inl true, out1) =>
      match Streamer.loop turns self1 with
      | (self2, LoopGoesOn, out2) => (self2, RunEnds RunGoesOn, out1 ++ out2)
      | (self2, LoopExited, out2) =>
          run_finally streaming stopenv self2
            (fun e3 => match e3 with Some e => RunRaised e | None => RunReturned end)
            (out1 ++ out2)
      | (self2, LoopRaised RaiseKeyboardInterrupt, out2) =>
          run_finally streaming stopenv self2
            (fun e3 => match e3 with Some e => RunRaised e | None => RunReturned end)
            (out1 ++ out2 ++ [ SPrint StoppingOakDepthStreamer ])
      | (self2, LoopRaised e, out2) =>
          run_finally streaming stopenv self2
            (fun e3 => RunRaised (match e3 with Some e' => e' | None => e end))
            (out1 ++ out2)
      end
  end.

(** ** The [/stream] handler, write by write

    One turn of its [while True]: either the server has no
    [frame_bytes] yet ([NoFrameYet]), or a part is written ([Part]).
    For a part the handler reads [self.server.frame_bytes] twice, for
    the [Content-Length] header and for the body, and [end_headers()]
    writes to the socket in between, so that the producer thread may
    have replaced the JPEG: [at_header] and [at_body] are the two values
    read.  [fails] names the write that raises, if one does; the calls
    made before it stay made, and the handler leaves its loop. *)

Inductive PartWrite := WriteBoundary | WriteHeaders | WriteBody | WriteLineEnd.

Inductive StreamTurn :=
| NoFrameYet
| Part (at_header at_body : bytes) (fails : option PartWrite).

Definition part_calls (at_header at_body : bytes) : list HttpOut :=
  [ Write (list_byte_of_string "--frame" ++ crlf);
    SendHeader "Content-Type" (HStr "image/jpeg");
    SendHeader "Content-Length" (HInt (Z.of_nat (length at_header)));
    EndHeaders;
    Write at_body;
    Write crlf ].

(** How many calls of a part go through before the given write raises
    ([end_headers()] is the write of the two headers). *)
Definition calls_before (w : PartWrite) : nat :=
  match w with
  | WriteBoundary => 0
  | WriteHeaders => 3
  | WriteBody => 4
  | WriteLineEnd => 5
  end.

Fixpoint stream_written (turns : list StreamTurn) : list HttpOut :=
  match turns with
  | [] => []
  | NoFrameYet :: rest => stream_written rest
  | Part at_header at_body None :: rest =>
      part_calls at_header at_body ++ stream_written rest
  | Part at_header at_body (Some w) :: _ =>
      firstn (calls_before w) (part_calls at_header at_body)
  end.

Definition stream_head : list HttpOut :=
  [ SendResponse 200;
    SendHeader "Content-Type" (HStr "multipart/x-mixed-replace; boundary=frame");
    EndHeaders ].

(** The branch [/stream] of [do_GET]; the first [end_headers()] stands
    outside of the [try], so that its failure ([head_fails]) leaves the
    handler with an exception. *)
Definition do_GET_stream (head_fails : bool) (turns : list StreamTurn)
    : list HttpOut * option exn :=
  if head_fails then (firstn 2 stream_head, Some OSError)
  else (stream_head ++ stream_written turns, None).

(** The parts written to their end, each with the JPEG read for its
    header and the JPEG read for its body. *)
Fixpoint parts_completed (turns : list StreamTurn) : list (bytes * bytes) :=
  match turns with
  | [] => []
  | NoFrameYet :: rest => parts_completed rest
  | Part at_header at_body None :: rest =>
      (at_header, at_body) :: parts_completed rest
  | Part _ _ (Some _) :: _ => []
  end.

(** A part whose header announces the length of its body. *)
Definition part_whole (p : bytes * bytes) : bool :=
  (length (fst p) =? length (snd p))%nat.

(** The turn of the finer handler that a turn of the coarser one stands
    for: one read of [frame_bytes], and a failure at the first write. *)
Definition stream_turn_of (t : HTTPServer * bool) : StreamTurn :=
  match frame_bytes (fst t) with
  | Some fb => Part fb fb (if snd t then None else Some WriteBoundary)
  | None => NoFrameYet
  end.

(** * Properties *)

(** ** Bytes and the wire format *)

Lemma Z_of_byte_of_Z (z : Z) : Z_of_byte (byte_of_Z z) = z mod 256.
Proof.
  unfold Z_of_byte, byte_of_Z.
  change 255 with (Z.ones 8). rewrite Z.land_ones by lia.
  change (2 ^ 8) with 256.
  assert (H : 0 <= z mod 256 < 256) by (apply Z.mod_pos_bound; lia).
  destruct (Byte.of_N (Z.to_N (z mod 256))) as [b|] eqn:E.
  - apply Byte.to_of_N in E. rewrite E. rewrite Z2N.id; lia.
  - exfalso.
    pose proof (Byte.to_of_N_option_map (Z.to_N (z mod 256))) as P.
    rewrite E in P. simpl in P.
    destruct (N.leb_spec (Z.to_N (z mod 256)) 255); [discriminate|lia].
Qed.

Lemma byte_of_Z_mod (z : Z) : byte_of_Z (z mod 256) = byte_of_Z z.
Proof.
  unfold byte_of_Z. change 255 with (Z.ones 8). rewrite !Z.land_ones by lia.
  change (2 ^ 8) with 256. rewrite Z.mod_mod by lia. reflexivity.
Qed.

Lemma struct_pack_i_le (n : Z) :
  int32_min <= n <= int32_max -> struct_pack_i n = Some (spec_le_int32 n).
Proof.
  intros H. unfold struct_pack_i.
  replace ((int32_min <=? n) && (n <=? int32_max)) with true
    by (symmetry; apply andb_true_intro; split; apply Z.leb_le; lia).
  unfold spec_le_int32. rewrite !byte_of_Z_mod.
  rewrite !Z.shiftr_div_pow2 by lia. reflexivity.
Qed.

Lemma spec_read_le_int32 (n : Z) (rest : bytes) :
  int32_min <= n <= int32_max ->
  spec_read_int32 (spec_le_int32 n ++ rest) = Some (n, rest).
Proof.
  intros H. unfold int32_min, int32_max in H.
  unfold spec_le_int32. simpl. unfold spec_int32_of_le.
  rewrite !Z_of_byte_of_Z. rewrite !Z.mod_mod by lia.
  f_equal. f_equal.
  change (2^8) with 256. change (2^16) with 65536. change (2^24) with 16777216.
  change (2^31) with 2147483648 in *. change (2^32) with 4294967296.
  destruct (Z.ltb_spec
              (n mod 256 + 256 * (n / 256 mod 256) + 65536 * (n / 65536 mod 256)
               + 16777216 * (n / 16777216 mod 256)) 2147483648);
    Z.div_mod_to_equations; lia.
Qed.

Lemma spec_read_bytes_0 (l : bytes) : spec_read_bytes 0 l = Some ([], l).
Proof.
  unfold spec_read_bytes.
  destruct (Z.leb_spec 0 (Z.of_nat (length l))); [reflexivity | lia].
Qed.

Lemma length_swap_channels (l : bytes) : length (swap_channels l) = length l.
Proof.
  assert (H : forall n (l : bytes), (length l <= n)%nat ->
                length (swap_channels l) = length l).
  { induction n as [|n IH]; intros [|b [|g [|r rest]]] Hl; simpl in *;
      try reflexivity; try lia.
    rewrite IH by lia. reflexivity. }
  apply (H (length l)). lia.
Qed.

Lemma length_spec_packet (w h : Z) (pixels : bytes) :
  Z.of_nat (length (spec_packet w h pixels)) = 24 + Z.of_nat (length pixels).
Proof.
  unfold spec_packet. rewrite !length_app. simpl length. lia.
Qed.

Lemma decode_spec_packet (w h : Z) (pixels : bytes) :
  0 <= w <= int32_max -> 0 <= h <= int32_max ->
  Z.of_nat (length pixels) = w * h * 3 ->
  spec_decode_packet (spec_packet w h pixels) =
    Some {| name_length := 0; name := []; dim_count := 2; width := w;
            height := h; type_code := 1; plane_count := 3;
            pixel_data := pixels |}.
Proof.
  intros Hw Hh Hl.
  assert (I : int32_min <= 0) by (unfold int32_min; lia).
  assert (J : 3 <= int32_max) by (unfold int32_max; lia).
  unfold spec_packet, spec_decode_packet.
  rewrite spec_read_le_int32 by lia.
  rewrite spec_read_bytes_0.
  rewrite !spec_read_le_int32 by lia.
  rewrite Hl, Z.eqb_refl. reflexivity.
Qed.

(** The tail of [build_packet], once the frame to send is known. *)
Lemma pack_fields (w h : Z) (pixels : bytes) :
  0 <= w <= int32_max -> 0 <= h <= int32_max ->
  (dims <- struct_pack_ii w h ;;
   type_code <- struct_pack_i 1 ;;
   planecount <- struct_pack_i 3 ;;
   p_name_len <- struct_pack_i (Z.of_nat (length (@nil byte))) ;;
   p_dimcount <- struct_pack_i 2 ;;
   Some (p_name_len ++ [] ++ p_dimcount ++ dims ++ type_code ++ planecount
           ++ pixels, w, h))
  = Some (spec_packet w h pixels, w, h).
Proof.
  intros Hw Hh. unfold struct_pack_ii.
  assert (I : int32_min <= 0) by (unfold int32_min; lia).
  rewrite (struct_pack_i_le w), (struct_pack_i_le h) by lia.
  reflexivity.
Qed.

Lemma cvtColor_valid (frame : Frame) :
  0 < f_width frame -> 0 < f_height frame ->
  cv_cvtColor_BGR2RGB frame =
    Some {| f_height := f_height frame; f_width := f_width frame;
            f_data := swap_channels (f_data frame) |}.
Proof.
  intros Hw Hh. unfold cv_cvtColor_BGR2RGB, frame_empty.
  destruct (Z.leb_spec (f_width frame) 0); [lia|].
  destruct (Z.leb_spec (f_height frame) 0); [lia|]. reflexivity.
Qed.

(** ** Frames within the bound *)

Lemma publish_jpeg_config (self : StreamingServer) (frame_data : bytes) :
  max_width (Motion.publish_jpeg self frame_data) = max_width self
  /\ max_height (Motion.publish_jpeg self frame_data) = max_height self
  /\ frame_count (Motion.publish_jpeg self frame_data) = frame_count self
  /\ latest_frame_data (Motion.publish_jpeg self frame_data) = latest_frame_data self
  /\ local_file_path (Motion.publish_jpeg self frame_data) = local_file_path self.
Proof.
  unfold Motion.publish_jpeg. destruct (server self); repeat split.
Qed.

(** When the encoder answers, [update_frame] returns, and its result is
    the one of the last block run on the object with the JPEG published. *)
Lemma update_frame_returns (env : Env) (self : StreamingServer) (frame : Frame)
    (frame_data : bytes) :
  cv_imencode env frame = Some frame_data ->
  Motion.update_frame env self frame =
    Returned (fst (Motion.tcp_step env (Motion.publish_jpeg self frame_data) frame))
      (Motion.file_step env (Motion.publish_jpeg self frame_data) frame
       ++ Motion.vcam_step env (Motion.publish_jpeg self frame_data) frame
       ++ snd (Motion.tcp_step env (Motion.publish_jpeg self frame_data) frame)).
Proof.
  intros E. unfold Motion.update_frame. rewrite E.
  destruct (Motion.tcp_step env (Motion.publish_jpeg self frame_data) frame).
  reflexivity.
Qed.

Lemma tcp_step_built (env : Env) (self : StreamingServer) (frame : Frame)
    (packet : bytes) (w h : Z) :
  Motion.build_packet env self frame = Some (packet, w, h) ->
  latest_frame_data (fst (Motion.tcp_step env self frame)) = Some packet
  /\ frame_count (fst (Motion.tcp_step env self frame)) = frame_count self + 1
  /\ server (fst (Motion.tcp_step env self frame)) = server self.
Proof.
  intros E. unfold Motion.tcp_step. rewrite E. repeat split.
Qed.

Lemma tcp_step_failed (env : Env) (self : StreamingServer) (frame : Frame) :
  Motion.build_packet env self frame = None ->
  Motion.tcp_step env self frame = (self, [ EPrint FramePreparationError; ETraceback ]).
Proof.
  intros E. unfold Motion.tcp_step. rewrite E. reflexivity.
Qed.

Lemma build_packet_config (env : Env) (self self' : StreamingServer) (frame : Frame) :
  max_width self' = max_width self -> max_height self' = max_height self ->
  Motion.build_packet env self' frame = Motion.build_packet env self frame.
Proof.
  intros Hw Hh. unfold Motion.build_packet. rewrite Hw, Hh. reflexivity.
Qed.

Lemma build_packet_within_bound (env : Env) (self : StreamingServer) (frame : Frame) :
  valid_frame frame ->
  f_width frame <= max_width self ->
  f_height frame <= max_height self ->
  Motion.build_packet env self frame =
    Some (spec_packet (f_width frame) (f_height frame)
            (swap_channels (f_data frame)),
          f_width frame, f_height frame).
Proof.
  intros (Hw & Hh & Hl) Bw Bh. unfold Motion.build_packet.
  rewrite cvtColor_valid by lia. cbn [bind f_width f_height].
  rewrite !Z.gtb_ltb.
  destruct (Z.ltb_spec (max_width self) (f_width frame)); [lia|].
  destruct (Z.ltb_spec (max_height self) (f_height frame)); [lia|].
  cbn [orb bind f_width f_height f_data tobytes].
  apply pack_fields; lia.
Qed.

(** C1. A frame whose width and height are within the bound is published
    by the TCP block of [update_frame] as the 24-byte header
    [0, 2, width, height, 1, 3] in little-endian 32-bit fields followed by
    the [width * height * 3] bytes of the frame in RGB order; the design
    document's reader decodes it to exactly these fields, with the width
    and height of the frame itself. *)
Theorem C1_packet_within_bound :
  forall (env : Env) (self : StreamingServer) (frame : Frame),
    valid_frame frame ->
    f_width frame <= max_width self ->
    f_height frame <= max_height self ->
    let w := f_width frame in
    let h := f_height frame in
    let pixels := swap_channels (f_data frame) in
    let header := spec_le_int32 0 ++ spec_le_int32 2 ++ spec_le_int32 w
                  ++ spec_le_int32 h ++ spec_le_int32 1 ++ spec_le_int32 3 in
    latest_frame_data (fst (Motion.tcp_step env self frame)) = Some (header ++ pixels)
    /\ (forall frame_data, cv_imencode env frame = Some frame_data ->
        exists self' out,
          Motion.update_frame env self frame = Returned self' out
          /\ latest_frame_data self' = Some (header ++ pixels))
    /\ length header = 24%nat
    /\ Z.of_nat (length pixels) = w * h * 3
    /\ spec_decode_packet (header ++ pixels) =
         Some {| name_length := 0; name := []; dim_count := 2; width := w;
                 height := h; type_code := 1; plane_count := 3;
                 pixel_data := pixels |}.
Proof.
  intros env self frame V Bw Bh w h pixels header.
  assert (P : header ++ pixels = spec_packet w h pixels).
  { unfold header, spec_packet. rewrite <- !app_assoc. reflexivity. }
  assert (L : Z.of_nat (length pixels) = w * h * 3).
  { unfold pixels. rewrite length_swap_channels. apply V. }
  rewrite P. split; [|split; [|split; [|split]]].
  - apply (tcp_step_built env self frame _ w h).
    apply build_packet_within_bound; assumption.
  - intros frame_data E. eexists. eexists. split.
    + apply update_frame_returns. exact E.
    + destruct (publish_jpeg_config self frame_data) as (C1 & C2 & _).
      apply (tcp_step_built env _ frame _ w h).
      rewrite (build_packet_config env self) by assumption.
      apply build_packet_within_bound; assumption.
  - reflexivity.
  - exact L.
  - destruct V as (Hw & Hh & _). apply decode_spec_packet; fold w h; lia.
Qed.

Lemma valid_solid_frame (w h : Z) :
  0 < w <= int32_max -> 0 < h <= int32_max -> valid_frame (solid_frame w h).
Proof.
  intros Hw Hh. unfold valid_frame, solid_frame. cbn [f_width f_height f_data].
  repeat split; try lia. rewrite repeat_length. rewrite Z2Nat.id; nia.
Defined.

Lemma C1_witness :
  valid_frame (solid_frame 2 1)
  /\ f_width (solid_frame 2 1) <= max_width started_server
  /\ f_height (solid_frame 2 1) <= max_height started_server
  /\ latest_frame_data (fst (Motion.tcp_step env_ok started_server (solid_frame 2 1)))
     = Some (spec_le_int32 0 ++ spec_le_int32 2 ++ spec_le_int32 2
             ++ spec_le_int32 1 ++ spec_le_int32 1 ++ spec_le_int32 3
             ++ swap_channels (f_data (solid_frame 2 1))).
Proof.
  assert (V : valid_frame (solid_frame 2 1)).
  { apply valid_solid_frame; vm_compute; split; congruence. }
  assert (Bw : f_width (solid_frame 2 1) <= max_width started_server)
    by (vm_compute; congruence).
  assert (Bh : f_height (solid_frame 2 1) <= max_height started_server)
    by (vm_compute; congruence).
  split; [exact V|]. split; [exact Bw|]. split; [exact Bh|].
  pose proof (proj1 (C1_packet_within_bound env_ok started_server (solid_frame 2 1)
                       V Bw Bh)) as W.
  cbv zeta in W. rewrite <- !app_assoc in W. exact W.
Defined.

(** ** Binary64 arithmetic *)

Lemma digits2_pos_bounds (p : positive) :
  2 ^ (Zpos (digits2_pos p) - 1) <= Zpos p < 2 ^ Zpos (digits2_pos p).
Proof.
  induction p as [p IH|p IH|]; cbn [digits2_pos].
  - rewrite Pos2Z.inj_succ.
    replace (Z.succ (Zpos (digits2_pos p)) - 1) with (Z.succ (Zpos (digits2_pos p) - 1)) by lia.
    rewrite !Z.pow_succ_r by lia. lia.
  - rewrite Pos2Z.inj_succ.
    replace (Z.succ (Zpos (digits2_pos p)) - 1) with (Z.succ (Zpos (digits2_pos p) - 1)) by lia.
    rewrite !Z.pow_succ_r by lia. lia.
  - cbn. lia.
Qed.

Lemma digits2_pos_unique (p : positive) (d : Z) :
  2 ^ (d - 1) <= Zpos p < 2 ^ d -> 1 <= d -> Zpos (digits2_pos p) = d.
Proof.
  intros [L U] Hd. pose proof (digits2_pos_bounds p) as [L' U'].
  destruct (Z.lt_trichotomy (Zpos (digits2_pos p)) d) as [C|[C|C]]; [|exact C|].
  - assert (2 ^ Zpos (digits2_pos p) <= 2 ^ (d - 1)) by (apply Z.pow_le_mono_r; lia).
    lia.
  - assert (2 ^ d <= 2 ^ (Zpos (digits2_pos p) - 1)) by (apply Z.pow_le_mono_r; lia).
    lia.
Qed.

Lemma shr_1_m (mrs : shr_record) :
  0 <= shr_m mrs -> shr_m (shr_1 mrs) = shr_m mrs / 2.
Proof.
  destruct mrs as [m r s]. cbn [shr_m shr_1]. intros H.
  destruct m as [|[p|p|]|p]; cbn [shr_m]; try lia.
  - reflexivity.
  - rewrite Pos2Z.inj_xI. apply Z.div_unique with (r := 1); lia.
  - rewrite Pos2Z.inj_xO. apply Z.div_unique with (r := 0); lia.
  - reflexivity.
Qed.

Lemma pow2_xI (p : positive) : 2 ^ Zpos p~1 = 2 * (2 ^ Zpos p * 2 ^ Zpos p).
Proof.
  rewrite (Pos2Z.inj_xI p). replace (2 * Zpos p + 1) with (1 + (Zpos p + Zpos p)) by lia.
  rewrite !Z.pow_add_r by lia. reflexivity.
Qed.

Lemma pow2_xO (p : positive) : 2 ^ Zpos p~0 = 2 ^ Zpos p * 2 ^ Zpos p.
Proof.
  rewrite (Pos2Z.inj_xO p). replace (2 * Zpos p) with (Zpos p + Zpos p) by lia.
  rewrite !Z.pow_add_r by lia. reflexivity.
Qed.

Lemma iter_shr_1_m (p : positive) :
  forall mrs : shr_record,
    0 <= shr_m mrs ->
    shr_m (SpecFloat.iter_pos shr_1 p mrs) = shr_m mrs / 2 ^ Zpos p.
Proof.
  assert (N : forall mrs, 0 <= shr_m mrs -> 0 <= shr_m (shr_1 mrs)).
  { intros mrs H. rewrite shr_1_m by exact H. apply Z.div_pos; lia. }
  induction p as [p IH|p IH|]; intros mrs H; cbn [SpecFloat.iter_pos].
  - assert (H1 : 0 <= shr_m (shr_1 mrs)) by (apply N; exact H).
    assert (H2 : 0 <= shr_m (SpecFloat.iter_pos shr_1 p (shr_1 mrs))).
    { rewrite IH by exact H1. apply Z.div_pos; lia. }
    rewrite IH by exact H2. rewrite IH by exact H1. rewrite shr_1_m by exact H.
    rewrite !Z.div_div by lia. rewrite pow2_xI. f_equal.
  - assert (H2 : 0 <= shr_m (SpecFloat.iter_pos shr_1 p mrs)).
    { rewrite IH by exact H. apply Z.div_pos; lia. }
    rewrite IH by exact H2. rewrite IH by exact H.
    rewrite !Z.div_div by lia. rewrite pow2_xO. reflexivity.
  - rewrite shr_1_m by exact H. reflexivity.
Qed.

Lemma round_nearest_even_cases (m : Z) (l : location) :
  round_nearest_even m l = m \/ round_nearest_even m l = m + 1.
Proof.
  destruct l as [|[| |]]; cbn [round_nearest_even]; auto.
  destruct (Z.even m); auto.
Qed.

Lemma fexp_normal (x : Z) : -1021 <= x -> fexp 53 1024 x = x - 53.
Proof. intros H. unfold fexp, emin. lia. Qed.

Lemma shr_m_of_loc (m : Z) (l : location) : shr_m (shr_record_of_loc m l) = m.
Proof. destruct l as [|[| |]]; reflexivity. Qed.

Lemma shr_spec (m e n : Z) (l : location) :
  0 <= m -> 0 <= n ->
  exists mrs,
    shr (shr_record_of_loc m l) e n = (mrs, e + n)
    /\ shr_m mrs = m / 2 ^ n
    /\ (n = 0 -> mrs = shr_record_of_loc m l).
Proof.
  intros Hm Hn. destruct n as [|p|p]; [| |lia].
  - exists (shr_record_of_loc m l). cbn [shr]. rewrite Z.add_0_r.
    rewrite shr_m_of_loc, Z.pow_0_r, Z.div_1_r. auto.
  - exists (SpecFloat.iter_pos shr_1 p (shr_record_of_loc m l)). cbn [shr].
    split; [reflexivity|]. split; [|discriminate].
    rewrite iter_shr_1_m by (rewrite shr_m_of_loc; exact Hm).
    rewrite shr_m_of_loc. reflexivity.
Qed.

Lemma shr_fexp_normal (m e n : Z) (l : location) :
  0 <= n ->
  2 ^ (52 + n) <= m < 2 ^ (53 + n) ->
  -1000 <= e + n ->
  exists mrs,
    shr_fexp 53 1024 m e l = (mrs, e + n)
    /\ shr_m mrs = m / 2 ^ n
    /\ (n = 0 -> mrs = shr_record_of_loc m l).
Proof.
  intros Hn [L U] He.
  assert (P : 0 < 2 ^ (52 + n)) by (apply Z.pow_pos_nonneg; lia).
  destruct m as [|p|p]; try lia.
  unfold shr_fexp. cbn [Zdigits2].
  rewrite (digits2_pos_unique p (53 + n)); [|split; [|exact U]|lia].
  2:{ replace (53 + n - 1) with (52 + n) by lia. exact L. }
  rewrite fexp_normal by lia.
  replace (53 + n + e - 53 - e) with n by lia.
  apply shr_spec; lia.
Qed.

Lemma binary_round_aux_normal (mx ex n : Z) (lx : location) :
  0 <= n ->
  2 ^ (52 + n) <= mx < 2 ^ (53 + n) ->
  -1000 <= ex + n <= 900 ->
  exists (m : positive) (e k : Z),
    binary_round_aux 53 1024 false mx ex lx = S754_finite false m e
    /\ 2 ^ 52 <= Zpos m < 2 ^ 53
    /\ (k = 0 \/ k = 1)
    /\ ex + n <= e <= ex + n + 1
    /\ Zpos m * 2 ^ (e - (ex + n)) = mx / 2 ^ n + k
    /\ (n = 0 -> lx = loc_Exact -> Zpos m = mx /\ e = ex).
Proof.
  intros Hn Hm He.
  assert (P : 0 < 2 ^ n) by (apply Z.pow_pos_nonneg; lia).
  assert (M1 : 2 ^ 52 <= mx / 2 ^ n < 2 ^ 53).
  { rewrite !Z.pow_add_r in Hm by lia. split.
    - apply Z.div_le_lower_bound; lia.
    - apply Z.div_lt_upper_bound; lia. }
  unfold binary_round_aux.
  destruct (shr_fexp_normal mx ex n lx Hn Hm ltac:(lia)) as (mrs1 & E1 & S1 & X1).
  rewrite E1.
  set (m2 := round_nearest_even (shr_m mrs1) (loc_of_shr_record mrs1)).
  assert (C : m2 = mx / 2 ^ n \/ m2 = mx / 2 ^ n + 1).
  { unfold m2. rewrite <- S1. apply round_nearest_even_cases. }
  assert (X2 : n = 0 -> lx = loc_Exact -> m2 = mx).
  { intros N0 LE. unfold m2. rewrite (X1 N0), LE. reflexivity. }
  destruct (Z.lt_ge_cases m2 (2 ^ 53)) as [Lt|Ge].
  - (* no carry *)
    destruct (shr_fexp_normal m2 (ex + n) 0 loc_Exact ltac:(lia)) as (mrs2 & E2 & S2 & _);
      [change (52 + 0) with 52; change (53 + 0) with 53; lia | lia |].
    rewrite E2. rewrite S2, Z.pow_0_r, Z.div_1_r.
    destruct m2 as [|m|m] eqn:Em2; try lia.
    replace (ex + n + 0 <=? 1024 - 53) with true by (symmetry; apply Z.leb_le; lia).
    exists m, (ex + n + 0), (Zpos m - mx / 2 ^ n).
    split; [reflexivity|]. split; [lia|]. split; [lia|]. split; [lia|]. split.
    + replace (ex + n + 0 - (ex + n)) with 0 by lia. rewrite Z.pow_0_r. lia.
    + intros N0 LE. specialize (X2 N0 LE). split; [exact X2 | lia].
  - (* the rounding carried into a 54th bit *)
    assert (Em2 : m2 = 2 ^ 53) by lia.
    destruct (shr_fexp_normal m2 (ex + n) 1 loc_Exact ltac:(lia)) as (mrs2 & E2 & S2 & _);
      [rewrite Em2; change (52 + 1) with 53; change (53 + 1) with 54; lia | lia |].
    rewrite E2. rewrite S2, Em2.
    change (2 ^ 53 / 2 ^ 1) with (Zpos (Z.to_pos (2 ^ 52))). cbv iota.
    replace (ex + n + 1 <=? 1024 - 53) with true by (symmetry; apply Z.leb_le; lia).
    exists (Z.to_pos (2 ^ 52)), (ex + n + 1), 1.
    split; [reflexivity|]. split; [cbn; lia|]. split; [lia|]. split; [lia|]. split.
    + replace (ex + n + 1 - (ex + n)) with 1 by lia.
      change (Zpos (Z.to_pos (2 ^ 52)) * 2 ^ 1) with (2 ^ 53). lia.
    + intros N0 LE. specialize (X2 N0 LE). subst n.
      rewrite Z.pow_0_r, Z.div_1_r in M1. lia.
Qed.

Lemma pos_iter_xO (p k : positive) : Zpos (Pos.iter xO p k) = Zpos p * 2 ^ Zpos k.
Proof.
  induction k as [|k IH] using Pos.peano_ind.
  - cbn. lia.
  - rewrite Pos.iter_succ, Pos2Z.inj_xO, IH, Pos2Z.inj_succ, Z.pow_succ_r by lia.
    lia.
Qed.

Section RealBounds.

Local Open Scope R_scope.

Lemma pow2_pos (e : Z) : 0 < powerRZ 2 e.
Proof. apply powerRZ_lt. lra. Qed.

Lemma pow2_add (a b : Z) : powerRZ 2 (a + b) = powerRZ 2 a * powerRZ 2 b.
Proof. apply powerRZ_add. lra. Qed.

Lemma IZR_pow2 (n : Z) : (0 <= n)%Z -> IZR (2 ^ n) = powerRZ 2 n.
Proof.
  intros H. destruct n as [|p|p]; [reflexivity| |lia].
  exact (Zpower_pos_powerRZ 2 p).
Qed.

Lemma pow2_le (a b : Z) : (a <= b)%Z -> powerRZ 2 a <= powerRZ 2 b.
Proof.
  intros H. replace b with (a + (b - a))%Z by lia. rewrite pow2_add.
  rewrite <- (IZR_pow2 (b - a)) by lia.
  assert (1 <= IZR (2 ^ (b - a))).
  { apply IZR_le. assert (0 < 2 ^ (b - a))%Z by (apply Z.pow_pos_nonneg; lia). lia. }
  pose proof (pow2_pos a). nra.
Qed.

Lemma pow2_m52 : powerRZ 2 (-52) * IZR (2 ^ 52) = 1.
Proof.
  rewrite IZR_pow2 by lia. rewrite <- pow2_add. reflexivity.
Qed.

Lemma floor_div_real (a b : Z) :
  (0 < b)%Z -> IZR (a / b) <= IZR a / IZR b < IZR (a / b) + 1.
Proof.
  intros Hb.
  pose proof (Z.div_mod a b ltac:(lia)) as E.
  pose proof (Z.mod_pos_bound a b Hb) as [L U].
  assert (Bp : 0 < IZR b) by (apply IZR_lt; exact Hb).
  assert (Er : IZR a = IZR b * IZR (a / b) + IZR (a mod b)).
  { rewrite <- mult_IZR, <- plus_IZR. f_equal. exact E. }
  assert (Lr : 0 <= IZR (a mod b)) by (apply IZR_le; exact L).
  assert (Ur : IZR (a mod b) < IZR b) by (apply IZR_lt; exact U).
  assert (D : IZR a / IZR b = IZR (a / b) + IZR (a mod b) / IZR b).
  { rewrite Er. field. lra. }
  rewrite D.
  assert (0 <= IZR (a mod b) / IZR b < 1).
  { split.
    - apply Rmult_le_pos; [exact Lr|]. left. apply Rinv_0_lt_compat. exact Bp.
    - apply (Rmult_lt_reg_r (IZR b)); [exact Bp|].
      unfold Rdiv. rewrite Rmult_assoc, Rinv_l by lra. lra. }
  lra.
Qed.

(** Rounding a positive value to 53 bits moves it by at most one part in
    [2^52]: [Y * 2^(ex+n)] is the exact value, known to lie between the
    truncated mantissa and its successor. *)
Lemma round_sandwich (mx ex n : Z) (lx : location) (Y : R) :
  (0 <= n)%Z ->
  (2 ^ (52 + n) <= mx < 2 ^ (53 + n))%Z ->
  (-1000 <= ex + n <= 900)%Z ->
  IZR (mx / 2 ^ n) <= Y < IZR (mx / 2 ^ n) + 1 ->
  exists (m : positive) (e : Z),
    binary_round_aux 53 1024 false mx ex lx = S754_finite false m e
    /\ (2 ^ 52 <= Zpos m < 2 ^ 53)%Z
    /\ (ex + n <= e <= ex + n + 1)%Z
    /\ Y * powerRZ 2 (ex + n) * (1 - powerRZ 2 (-52))
       <= IZR (Zpos m) * powerRZ 2 e
       <= Y * powerRZ 2 (ex + n) * (1 + powerRZ 2 (-52)).
Proof.
  intros Hn Hm He HY.
  destruct (binary_round_aux_normal mx ex n lx Hn Hm He)
    as (m & e & k & E & Mn & K & Ee & V & _).
  exists m, e. split; [exact E|]. split; [exact Mn|]. split; [exact Ee|].
  assert (P : (0 < 2 ^ n)%Z) by (apply Z.pow_pos_nonneg; lia).
  assert (M1 : (2 ^ 52 <= mx / 2 ^ n)%Z).
  { rewrite !Z.pow_add_r in Hm by lia. apply Z.div_le_lower_bound; lia. }
  assert (Val : IZR (Zpos m) * powerRZ 2 e
                = IZR (mx / 2 ^ n + k) * powerRZ 2 (ex + n)).
  { rewrite <- V, mult_IZR, IZR_pow2 by lia.
    rewrite Rmult_assoc, <- pow2_add. f_equal. f_equal. lia. }
  rewrite Val. rewrite plus_IZR.
  pose proof (pow2_pos (ex + n)) as T.
  pose proof pow2_m52 as D.
  assert (M1r : IZR (2 ^ 52) <= IZR (mx / 2 ^ n)) by (apply IZR_le; exact M1).
  assert (Dp : 0 < powerRZ 2 (-52)) by apply pow2_pos.
  assert (P52 : 0 < IZR (2 ^ 52)) by (apply IZR_lt; lia).
  assert (Kr : 0 <= IZR k <= 1).
  { destruct K as [-> | ->]; lra. }
  assert (YD : 1 <= Y * powerRZ 2 (-52)).
  { rewrite <- D. rewrite (Rmult_comm (powerRZ 2 (-52))).
    apply Rmult_le_compat_r; lra. }
  set (y := IZR (mx / 2 ^ n)) in *.
  set (d := powerRZ 2 (-52)) in *.
  set (t := powerRZ 2 (ex + n)) in *.
  split.
  - replace (Y * t * (1 - d)) with ((Y - Y * d) * t) by ring.
    apply Rmult_le_compat_r; lra.
  - replace (Y * t * (1 + d)) with ((Y + Y * d) * t) by ring.
    apply Rmult_le_compat_r; lra.
Qed.

End RealBounds.

Section Operations.

Local Open Scope R_scope.

(** [float(c)] is exact for a positive integer below [2^53]. *)
Lemma float_of_int_exact (c : Z) :
  (1 <= c < 2 ^ 53)%Z ->
  exists (m : positive) (e : Z),
    float_of_int c = S754_finite false m e
    /\ (2 ^ 52 <= Zpos m < 2 ^ 53)%Z
    /\ (-52 <= e <= 0)%Z
    /\ float_value (float_of_int c) = IZR c.
Proof.
  intros [L U]. destruct c as [|p|p]; try lia.
  unfold float_of_int, binary_normalize, binary_round.
  pose proof (digits2_pos_bounds p) as [DL DU].
  set (d := Zpos (digits2_pos p)) in *.
  assert (Dd : (1 <= d <= 53)%Z).
  { split; [unfold d; lia|].
    destruct (Z.le_gt_cases d 53) as [C|C]; [exact C|].
    assert (2 ^ 53 <= 2 ^ (d - 1))%Z by (apply Z.pow_le_mono_r; lia). lia. }
  rewrite fexp_normal by lia.
  unfold shl_align.
  destruct (d + 0 - 53 - 0)%Z as [|k|k] eqn:Ek; try lia.
  - (* already 53 bits *)
    assert (d = 53%Z) by lia.
    destruct (binary_round_aux_normal (Zpos p) 0 0 loc_Exact ltac:(lia))
      as (m & e & k & E & Mn & _ & _ & _ & X); [ | lia | ].
    { replace (d - 1)%Z with 52%Z in DL by lia. replace d with 53%Z in DU by lia.
      change (52 + 0)%Z with 52%Z. change (53 + 0)%Z with 53%Z. lia. }
    destruct (X eq_refl eq_refl) as [Xm Xe].
    exists m, e. rewrite E. split; [reflexivity|]. split; [exact Mn|].
    split; [lia|]. cbn [float_value]. rewrite Xm, Xe. cbn [powerRZ]. ring.
  - (* shifted left to 53 bits *)
    assert (K : Zpos k = (53 - d)%Z) by lia.
    assert (Mz : Zpos (Pos.iter xO p k) = (Zpos p * 2 ^ (53 - d))%Z)
      by (rewrite pos_iter_xO, K; reflexivity).
    assert (P : (0 < 2 ^ (53 - d))%Z) by (apply Z.pow_pos_nonneg; lia).
    assert (B : (2 ^ 52 <= Zpos (Pos.iter xO p k) < 2 ^ 53)%Z).
    { rewrite Mz.
      replace (2 ^ 52)%Z with (2 ^ (d - 1) * 2 ^ (53 - d))%Z
        by (rewrite <- Z.pow_add_r by lia; f_equal; lia).
      replace (2 ^ 53)%Z with (2 ^ d * 2 ^ (53 - d))%Z
        by (rewrite <- Z.pow_add_r by lia; f_equal; lia).
      split; [apply Z.mul_le_mono_nonneg_r; lia|apply Z.mul_lt_mono_pos_r; lia]. }
    destruct (binary_round_aux_normal (Zpos (Pos.iter xO p k)) (d + 0 - 53) 0
                loc_Exact ltac:(lia))
      as (m & e & k' & E & Mn & _ & _ & _ & X); [ | lia | ].
    { change (52 + 0)%Z with 52%Z. change (53 + 0)%Z with 53%Z. exact B. }
    destruct (X eq_refl eq_refl) as [Xm Xe].
    exists m, e. rewrite E. split; [reflexivity|]. split; [exact Mn|].
    split; [lia|]. cbn [float_value]. rewrite Xm, Xe, Mz, mult_IZR.
    rewrite IZR_pow2 by lia. rewrite Rmult_assoc, <- pow2_add.
    replace (53 - d + (d + 0 - 53))%Z with 0%Z by lia. cbn [powerRZ]. ring.
Qed.

Lemma div_eucl_div_mod (a b : Z) : Z.div_eucl a b = ((a / b)%Z, (a mod b)%Z).
Proof. unfold Z.div, Z.modulo. destruct (Z.div_eucl a b). reflexivity. Qed.

(** The quotient of two positive normal floats is the exact quotient up
    to one part in [2^52]. *)
Lemma SFdiv_bounds (ma mb : positive) (ea eb : Z) :
  (2 ^ 52 <= Zpos ma < 2 ^ 53)%Z ->
  (2 ^ 52 <= Zpos mb < 2 ^ 53)%Z ->
  (-300 <= ea <= 300)%Z -> (-300 <= eb <= 300)%Z ->
  exists (m : positive) (e : Z),
    SFdiv 53 1024 (S754_finite false ma ea) (S754_finite false mb eb)
    = S754_finite false m e
    /\ (2 ^ 52 <= Zpos m < 2 ^ 53)%Z
    /\ (ea - eb - 53 <= e <= ea - eb - 51)%Z
    /\ let X := (IZR (Zpos ma) * powerRZ 2 ea) / (IZR (Zpos mb) * powerRZ 2 eb) in
       X * (1 - powerRZ 2 (-52)) <= IZR (Zpos m) * powerRZ 2 e
       <= X * (1 + powerRZ 2 (-52)).
Proof.
  intros Ha Hb Hea Heb.
  cbn [SFdiv xorb]. unfold SFdiv_core_binary. cbn [Zdigits2].
  rewrite (digits2_pos_unique ma 53), (digits2_pos_unique mb 53)
    by (try lia; change (53 - 1)%Z with 52%Z; lia).
  rewrite fexp_normal by lia.
  replace (Z.min (53 + ea - (53 + eb) - 53) (ea - eb))%Z with (ea - eb - 53)%Z by lia.
  replace (ea - eb - (ea - eb - 53))%Z with 53%Z by lia.
  rewrite Z.shiftl_mul_pow2 by lia.
  rewrite div_eucl_div_mod.
  set (q := (Zpos ma * 2 ^ 53 / Zpos mb)%Z).
  assert (Q : (2 ^ 52 <= q < 2 ^ 54)%Z).
  { unfold q. split.
    - apply Z.div_le_lower_bound; lia.
    - apply Z.div_lt_upper_bound; lia. }
  set (n := if (q <? 2 ^ 53)%Z then 0%Z else 1%Z).
  assert (N : (n = 0 /\ 2 ^ 52 <= q < 2 ^ 53 \/ n = 1 /\ 2 ^ 53 <= q < 2 ^ 54)%Z).
  { unfold n. destruct (Z.ltb_spec q (2 ^ 53)); [left|right]; lia. }
  assert (Bq : (2 ^ (52 + n) <= q < 2 ^ (53 + n))%Z).
  { destruct N as [[-> ?]|[-> ?]]; [change (52 + 0)%Z with 52%Z; change (53 + 0)%Z with 53%Z
                                  | change (52 + 1)%Z with 53%Z; change (53 + 1)%Z with 54%Z];
      lia. }
  assert (P : (0 < 2 ^ n)%Z) by (apply Z.pow_pos_nonneg; lia).
  set (Y := IZR (Zpos ma * 2 ^ 53) / IZR (Zpos mb * 2 ^ n)).
  assert (HY : IZR (q / 2 ^ n) <= Y < IZR (q / 2 ^ n) + 1).
  { unfold q. rewrite Z.div_div by lia. apply floor_div_real. lia. }
  destruct (round_sandwich q (ea - eb - 53) n
              (new_location (Zpos mb) ((Zpos ma * 2 ^ 53) mod Zpos mb)) Y
              ltac:(lia) Bq ltac:(lia) HY)
    as (m & e & E & Mn & Ee & V).
  exists m, e. split; [exact E|]. split; [exact Mn|]. split; [lia|].
  cbv zeta.
  assert (XY : IZR (Zpos ma) * powerRZ 2 ea / (IZR (Zpos mb) * powerRZ 2 eb)
               = Y * powerRZ 2 (ea - eb - 53 + n)).
  { unfold Y. rewrite !mult_IZR, !IZR_pow2 by lia.
    pose proof (pow2_pos ea). pose proof (pow2_pos eb).
    pose proof (pow2_pos n). pose proof (pow2_pos 53).
    assert (Bp : 0 < IZR (Zpos mb)) by (apply IZR_lt; lia).
    assert (S : powerRZ 2 (ea - eb - 53 + n) * (powerRZ 2 eb * powerRZ 2 53)
                = powerRZ 2 ea * powerRZ 2 n).
    { rewrite <- !pow2_add. f_equal. lia. }
    apply (Rmult_eq_reg_r (IZR (Zpos mb) * powerRZ 2 eb * powerRZ 2 53 * powerRZ 2 n)).
    2:{ apply Rgt_not_eq.
        apply Rmult_lt_0_compat;
          [apply Rmult_lt_0_compat; [apply Rmult_lt_0_compat|]|]; assumption. }
    transitivity (IZR (Zpos ma) * powerRZ 2 53 * (powerRZ 2 ea * powerRZ 2 n)).
    - field. split; lra.
    - rewrite <- S. field. split; lra. }
  rewrite XY. exact V.
Qed.

(** The product of two positive normal floats is the exact product up
    to one part in [2^52]. *)
Lemma SFmul_bounds (ma mb : positive) (ea eb : Z) :
  (2 ^ 52 <= Zpos ma < 2 ^ 53)%Z ->
  (2 ^ 52 <= Zpos mb < 2 ^ 53)%Z ->
  (-300 <= ea <= 300)%Z -> (-300 <= eb <= 300)%Z ->
  exists (m : positive) (e : Z),
    SFmul 53 1024 (S754_finite false ma ea) (S754_finite false mb eb)
    = S754_finite false m e
    /\ (2 ^ 52 <= Zpos m < 2 ^ 53)%Z
    /\ (ea + eb + 52 <= e <= ea + eb + 54)%Z
    /\ let X := (IZR (Zpos ma) * powerRZ 2 ea) * (IZR (Zpos mb) * powerRZ 2 eb) in
       X * (1 - powerRZ 2 (-52)) <= IZR (Zpos m) * powerRZ 2 e
       <= X * (1 + powerRZ 2 (-52)).
Proof.
  intros Ha Hb Hea Heb.
  cbn [SFmul xorb].
  set (q := Zpos (ma * mb)).
  assert (Q : (2 ^ 104 <= q < 2 ^ 106)%Z).
  { unfold q. rewrite Pos2Z.inj_mul.
    change (2 ^ 104)%Z with (2 ^ 52 * 2 ^ 52)%Z.
    change (2 ^ 106)%Z with (2 ^ 53 * 2 ^ 53)%Z. nia. }
  set (n := if (q <? 2 ^ 105)%Z then 52%Z else 53%Z).
  assert (Bq : (2 ^ (52 + n) <= q < 2 ^ (53 + n))%Z).
  { unfold n. destruct (Z.ltb_spec q (2 ^ 105));
      [change (52 + 52)%Z with 104%Z; change (53 + 52)%Z with 105%Z
      |change (52 + 53)%Z with 105%Z; change (53 + 53)%Z with 106%Z]; lia. }
  assert (Nn : (52 <= n <= 53)%Z) by (unfold n; destruct (q <? 2 ^ 105)%Z; lia).
  assert (P : (0 < 2 ^ n)%Z) by (apply Z.pow_pos_nonneg; lia).
  set (Y := IZR q / IZR (2 ^ n)).
  assert (HY : IZR (q / 2 ^ n) <= Y < IZR (q / 2 ^ n) + 1)
    by (apply floor_div_real; exact P).
  destruct (round_sandwich q (ea + eb) n loc_Exact Y ltac:(lia) Bq ltac:(lia) HY)
    as (m & e & E & Mn & Ee & V).
  exists m, e. split; [exact E|]. split; [exact Mn|]. split; [lia|].
  cbv zeta.
  assert (XY : IZR (Zpos ma) * powerRZ 2 ea * (IZR (Zpos mb) * powerRZ 2 eb)
               = Y * powerRZ 2 (ea + eb + n)).
  { unfold Y, q. rewrite Pos2Z.inj_mul, mult_IZR, IZR_pow2 by lia.
    rewrite !pow2_add. pose proof (pow2_pos n). field. lra. }
  rewrite XY. exact V.
Qed.

End Operations.

Section Scaling.

Local Open Scope R_scope.

(** [min] of two positive normal floats is one of them and is below both. *)
Lemma py_min_bounds (ma mb : positive) (ea eb : Z) :
  (2 ^ 52 <= Zpos ma < 2 ^ 53)%Z ->
  (2 ^ 52 <= Zpos mb < 2 ^ 53)%Z ->
  let a := S754_finite false ma ea in
  let b := S754_finite false mb eb in
  (py_min a b = a \/ py_min a b = b)
  /\ float_value (py_min a b) <= float_value a
  /\ float_value (py_min a b) <= float_value b.
Proof.
  intros Ha Hb a b.
  assert (Ar : IZR (2 ^ 52) <= IZR (Zpos ma) < IZR (2 ^ 53))
    by (split; [apply IZR_le|apply IZR_lt]; lia).
  assert (Br : IZR (2 ^ 52) <= IZR (Zpos mb) < IZR (2 ^ 53))
    by (split; [apply IZR_le|apply IZR_lt]; lia).
  change (2 ^ 52)%Z with 4503599627370496%Z in Ar, Br.
  change (2 ^ 53)%Z with 9007199254740992%Z in Ar, Br.
  assert (Lt : forall (m1 m2 : positive) (e1 e2 : Z),
             4503599627370496 <= IZR (Zpos m1) < 9007199254740992 ->
             4503599627370496 <= IZR (Zpos m2) < 9007199254740992 ->
             (e1 < e2)%Z ->
             IZR (Zpos m1) * powerRZ 2 e1 <= IZR (Zpos m2) * powerRZ 2 e2).
  { intros m1 m2 e1 e2 B1 B2 He.
    pose proof (pow2_le (e1 + 1) e2 ltac:(lia)) as M.
    rewrite pow2_add in M. change (powerRZ 2 1) with (2 * 1) in M.
    pose proof (pow2_pos e1). pose proof (pow2_pos e2). nra. }
  unfold py_min, SFltb. unfold a, b. cbn [SFcompare float_value].
  destruct (Z.compare_spec eb ea) as [E|E|E].
  - subst eb.
    replace (Pos.compare_cont Eq mb ma) with (Pos.compare mb ma) by reflexivity.
    pose proof (pow2_pos ea).
    destruct (Pos.compare_spec mb ma) as [C|C|C]; cbn [float_value].
    + subst mb. split; [left; reflexivity|]. lra.
    + assert (IZR (Zpos mb) <= IZR (Zpos ma)) by (apply IZR_le; lia).
      split; [right; reflexivity|]. nra.
    + assert (IZR (Zpos ma) <= IZR (Zpos mb)) by (apply IZR_le; lia).
      split; [left; reflexivity|]. nra.
  - cbn [float_value]. split; [right; reflexivity|].
    split; [apply Lt; assumption | lra].
  - cbn [float_value]. split; [left; reflexivity|].
    split; [lra | apply Lt; assumption].
Qed.

(** [int(x)] of a positive float is the integer part of its value. *)
Lemma py_int_floor (m : positive) (e : Z) :
  exists n : Z,
    py_int (S754_finite false m e) = Some n
    /\ IZR n <= IZR (Zpos m) * powerRZ 2 e < IZR n + 1.
Proof.
  cbn [py_int]. destruct e as [|p|p].
  - exists (Zpos m). split; [reflexivity|]. cbn [powerRZ]. lra.
  - exists (Z.shiftl (Zpos m) (Zpos p)). split; [reflexivity|].
    rewrite Z.shiftl_mul_pow2, mult_IZR, IZR_pow2 by lia. lra.
  - exists (Z.shiftr (Zpos m) (Zpos p)). split; [reflexivity|].
    rewrite Z.shiftr_div_pow2 by lia.
    assert (P : (0 < 2 ^ Zpos p)%Z) by (apply Z.pow_pos_nonneg; lia).
    pose proof (floor_div_real (Zpos m) (2 ^ Zpos p) P) as F.
    rewrite IZR_pow2 in F by lia.
    replace (IZR (Zpos m) * powerRZ 2 (Zneg p))
      with (IZR (Zpos m) / powerRZ 2 (Zpos p)); [exact F|].
    change (Zneg p) with (- Zpos p)%Z. rewrite powerRZ_neg'. reflexivity.
Qed.

(** One emitted dimension: the integer part of [c * s] computed in
    binary64, for a scale [s] within one part in [2^52] of [P / Q] that
    keeps [c] within the bound [B].  It stays within the bound and within
    one pixel of the integer part of [c * P / Q]; it never exceeds that
    integer part when the product [c * P] is below [2^48]. *)
Lemma scaled_dimension (c P Q B : Z) (ms : positive) (es : Z) :
  (0 < c < 2 ^ 31)%Z -> (0 < P < 2 ^ 31)%Z -> (0 < Q < 2 ^ 31)%Z ->
  (0 < B < 2 ^ 31)%Z -> (c * P <= Q * B)%Z ->
  (2 ^ 52 <= Zpos ms < 2 ^ 53)%Z -> (-200 <= es <= 200)%Z ->
  IZR P / IZR Q * (1 - powerRZ 2 (-52)) <= IZR (Zpos ms) * powerRZ 2 es
    <= IZR P / IZR Q * (1 + powerRZ 2 (-52)) ->
  exists n : Z,
    py_int (py_mul_int_float c (S754_finite false ms es)) = Some n
    /\ (0 <= n <= B)%Z
    /\ (c * P / Q - 1 <= n <= c * P / Q + 1)%Z
    /\ ((c * P < 2 ^ 48)%Z -> (n <= c * P / Q)%Z).
Proof.
  intros Hc HP HQ HB HcP Hms Hes HS.
  assert (B31 : (2 ^ 31 < 2 ^ 53)%Z) by lia.
  destruct (float_of_int_exact c ltac:(lia)) as (mc & ec & Ec & Mc & Eec & Vc).
  unfold py_mul_int_float. rewrite Ec in Vc |- *. cbn [float_value] in Vc.
  destruct (SFmul_bounds mc ms ec es Mc Hms ltac:(lia) ltac:(lia))
    as (m & e & E & Mn & Ee & V).
  rewrite E. cbv zeta in V. rewrite Vc in V.
  destruct (py_int_floor m e) as (n & I & F).
  exists n. split; [exact I|].
  pose proof pow2_m52 as D. change (2 ^ 52)%Z with 4503599627370496%Z in D.
  pose proof (pow2_pos (-52)) as Dp.
  set (d := powerRZ 2 (-52)) in *.
  set (S := IZR (Zpos ms) * powerRZ 2 es) in *.
  set (Fv := IZR (Zpos m) * powerRZ 2 e) in *.
  assert (Qr : 1 <= IZR Q) by (apply IZR_le; lia).
  assert (Cr : 1 <= IZR c) by (apply IZR_le; lia).
  assert (Pr : 1 <= IZR P) by (apply IZR_le; lia).
  assert (Br : IZR B <= 2147483648) by (apply IZR_le; lia).
  assert (AB : IZR c * IZR P <= IZR Q * IZR B).
  { rewrite <- !mult_IZR. apply IZR_le. exact HcP. }
  (* the scale, cleared of its denominator *)
  assert (S1 : IZR P * (1 - d) <= S * IZR Q <= IZR P * (1 + d)).
  { destruct HS as [L U]. split.
    - replace (IZR P * (1 - d)) with (IZR P / IZR Q * (1 - d) * IZR Q)
        by (field; lra).
      apply Rmult_le_compat_r; lra.
    - replace (IZR P * (1 + d)) with (IZR P / IZR Q * (1 + d) * IZR Q)
        by (field; lra).
      apply Rmult_le_compat_r; lra. }
  assert (d1 : d <= 1) by lra.
  set (A := IZR c * IZR P) in *.
  assert (F1 : A * (1 - d) * (1 - d) <= Fv * IZR Q <= A * (1 + d) * (1 + d)).
  { destruct V as [VL VU]. destruct S1 as [SL SU]. unfold A. split.
    - assert (IZR c * (S * IZR Q) * (1 - d) <= Fv * IZR Q) by nra.
      assert (IZR c * (IZR P * (1 - d)) * (1 - d) <= IZR c * (S * IZR Q) * (1 - d))
        by (apply Rmult_le_compat_r; [lra|]; apply Rmult_le_compat_l; lra).
      nra.
    - assert (Fv * IZR Q <= IZR c * (S * IZR Q) * (1 + d)) by nra.
      assert (IZR c * (S * IZR Q) * (1 + d) <= IZR c * (IZR P * (1 + d)) * (1 + d))
        by (apply Rmult_le_compat_r; [lra|]; apply Rmult_le_compat_l; lra).
      nra. }
  assert (Apos : 1 <= A) by (unfold A; nra).
  assert (Ad : A * d <= IZR Q * / 2097152).
  { assert (A <= IZR Q * 2147483648) by nra.
    assert (A * d <= IZR Q * 2147483648 * d)
      by (apply Rmult_le_compat_r; lra).
    assert (IZR Q * 2147483648 * d = IZR Q * / 2097152 * (d * 4503599627370496))
      by field.
    rewrite D in *. lra. }
  assert (Add : A * d * d <= A * d) by nra.
  assert (F2 : A - IZR Q * / 2 < Fv * IZR Q < A + IZR Q * / 2).
  { destruct F1 as [FL FU]. split; nra. }
  assert (Fpos : 0 < Fv).
  { destruct F1 as [FL _].
    assert (0 < A * (1 - d) * (1 - d)) by (apply Rmult_lt_0_compat; nra).
    nra. }
  assert (NQ : IZR n * IZR Q <= Fv * IZR Q) by (apply Rmult_le_compat_r; lra).
  assert (NQ1 : Fv * IZR Q < (IZR n + 1) * IZR Q) by (apply Rmult_lt_compat_r; lra).
  split; [split|split; [split|]].
  - assert (H : IZR (-1) < IZR n) by lra. apply lt_IZR in H. lia.
  - assert (H : IZR n * IZR Q < IZR (B + 1) * IZR Q) by (rewrite plus_IZR; nra).
    apply Rmult_lt_reg_r in H; [|lra]. apply lt_IZR in H. lia.
  - assert (H : IZR (c * P) < IZR (Q * (n + 2))).
    { rewrite !mult_IZR, plus_IZR. fold A. nra. }
    apply lt_IZR in H.
    assert ((c * P / Q < n + 2)%Z) by (apply Z.div_lt_upper_bound; lia). lia.
  - assert (H : IZR (Q * n) < IZR (c * P + Q)).
    { rewrite plus_IZR, !mult_IZR. fold A. nra. }
    apply lt_IZR in H.
    assert ((n - 1 <= c * P / Q)%Z) by (apply Z.div_le_lower_bound; lia). lia.
  - intros Small.
    assert (A48 : A <= 281474976710656).
    { unfold A. rewrite <- mult_IZR. apply IZR_le. lia. }
    assert (Ad' : A * d <= / 16).
    { assert (A * d <= 281474976710656 * d) by nra. lra. }
    apply Z.div_le_lower_bound; [lia|].
    assert (H : IZR (Q * n) < IZR (c * P + 1)).
    { rewrite plus_IZR, !mult_IZR. fold A. destruct F1 as [_ FU]. nra. }
    apply lt_IZR in H. lia.
Qed.

End Scaling.

Section ScaledSize.

Local Open Scope R_scope.

Lemma py_truediv_bounds (a b : Z) :
  (0 < a < 2 ^ 53)%Z -> (0 < b < 2 ^ 53)%Z ->
  exists (m : positive) (e : Z),
    py_truediv a b = Some (S754_finite false m e)
    /\ (2 ^ 52 <= Zpos m < 2 ^ 53)%Z
    /\ (-200 <= e <= 200)%Z
    /\ IZR a / IZR b * (1 - powerRZ 2 (-52)) <= IZR (Zpos m) * powerRZ 2 e
       <= IZR a / IZR b * (1 + powerRZ 2 (-52)).
Proof.
  intros Ha Hb. unfold py_truediv.
  destruct (Z.eqb_spec b 0) as [Z0|_]; [lia|].
  destruct (float_of_int_exact a ltac:(lia)) as (ma & ea & Ea & Ma & Eea & Va).
  destruct (float_of_int_exact b ltac:(lia)) as (mb & eb & Eb & Mb & Eeb & Vb).
  rewrite Ea in Va |- *. rewrite Eb in Vb |- *. cbn [float_value] in Va, Vb.
  destruct (SFdiv_bounds ma mb ea eb Ma Mb ltac:(lia) ltac:(lia))
    as (m & e & E & Mn & Ee & V).
  exists m, e. rewrite E. split; [reflexivity|]. split; [exact Mn|].
  split; [lia|]. cbv zeta in V. rewrite Va, Vb in V. exact V.
Qed.

(** The size computed for a frame that exceeds the bound: each
    dimension stays within its bound and within one pixel of the exactly
    scaled one. *)
Lemma scaled_size_bounds (mw mh w h : Z) :
  (0 < mw < 2 ^ 31)%Z -> (0 < mh < 2 ^ 31)%Z ->
  (0 < w < 2 ^ 31)%Z -> (0 < h < 2 ^ 31)%Z ->
  exists new_w new_h : Z,
    Motion.scaled_size mw mh w h = Some (new_w, new_h)
    /\ (0 <= new_w <= mw /\ 0 <= new_h <= mh)%Z
    /\ (spec_scaled w (spec_scale mw mh w h) - 1 <= new_w
        <= spec_scaled w (spec_scale mw mh w h) + 1)%Z
    /\ (spec_scaled h (spec_scale mw mh w h) - 1 <= new_h
        <= spec_scaled h (spec_scale mw mh w h) + 1)%Z
    /\ ((mw < 2 ^ 24 -> mh < 2 ^ 24 -> w < 2 ^ 24 -> h < 2 ^ 24 ->
         new_w <= spec_scaled w (spec_scale mw mh w h)
         /\ new_h <= spec_scaled h (spec_scale mw mh w h))%Z).
Proof.
  intros Hmw Hmh Hw Hh.
  assert (B31 : (2 ^ 31 < 2 ^ 53)%Z) by lia.
  destruct (py_truediv_bounds mw w ltac:(lia) ltac:(lia))
    as (m1 & e1 & E1 & M1 & Ee1 & V1).
  destruct (py_truediv_bounds mh h ltac:(lia) ltac:(lia))
    as (m2 & e2 & E2 & M2 & Ee2 & V2).
  unfold Motion.scaled_size. rewrite E1, E2. cbn [bind].
  destruct (py_min_bounds m1 m2 e1 e2 M1 M2) as (Sel & Le1 & Le2).
  cbn [float_value] in Le1, Le2.
  assert (Wr : 0 < IZR w) by (apply IZR_lt; lia).
  assert (Hr : 0 < IZR h) by (apply IZR_lt; lia).
  assert (MWr : 0 < IZR mw) by (apply IZR_lt; lia).
  assert (MHr : 0 < IZR mh) by (apply IZR_lt; lia).
  pose proof (pow2_pos (-52)) as Dp.
  pose proof pow2_m52 as D. change (2 ^ 52)%Z with 4503599627370496%Z in D.
  set (d := powerRZ 2 (-52)) in *.
  (* the exact scale is the smaller of the two ratios *)
  set (P := fst (spec_scale mw mh w h)).
  set (Q := snd (spec_scale mw mh w h)).
  assert (PQ : (0 < P < 2 ^ 31)%Z /\ (0 < Q < 2 ^ 31)%Z
               /\ (w * P <= Q * mw)%Z /\ (h * P <= Q * mh)%Z
               /\ ((P < 2 ^ 24 \/ 2 ^ 24 <= mw \/ 2 ^ 24 <= mh))%Z
               /\ IZR P / IZR Q <= IZR mw / IZR w
               /\ IZR P / IZR Q <= IZR mh / IZR h
               /\ (IZR P / IZR Q = IZR mw / IZR w \/ IZR P / IZR Q = IZR mh / IZR h)).
  { unfold P, Q, spec_scale.
    destruct (Z.leb_spec (mw * h) (mh * w)) as [C|C]; cbn [fst snd].
    - split; [lia|]. split; [lia|]. split; [lia|]. split; [lia|]. split; [lia|].
      split; [lra|]. split; [|left; reflexivity].
      apply IZR_le in C. rewrite !mult_IZR in C.
      apply (Rmult_le_reg_r (IZR w * IZR h)); [nra|].
      replace (IZR mw / IZR w * (IZR w * IZR h)) with (IZR mw * IZR h) by (field; lra).
      replace (IZR mh / IZR h * (IZR w * IZR h)) with (IZR mh * IZR w) by (field; lra).
      exact C.
    - split; [lia|]. split; [lia|]. split; [lia|]. split; [lia|]. split; [lia|].
      split; [|split; [lra|right; reflexivity]].
      apply IZR_lt in C. rewrite !mult_IZR in C.
      apply (Rmult_le_reg_r (IZR w * IZR h)); [nra|].
      replace (IZR mw / IZR w * (IZR w * IZR h)) with (IZR mw * IZR h) by (field; lra).
      replace (IZR mh / IZR h * (IZR w * IZR h)) with (IZR mh * IZR w) by (field; lra).
      lra. }
  destruct PQ as (HP & HQ & Kw & Kh & P24 & R1 & R2 & R3).
  assert (Rpos : 0 < IZR P / IZR Q).
  { apply Rdiv_lt_0_compat; apply IZR_lt; lia. }
  assert (d1 : 0 <= 1 - d) by lra.
  assert (S : exists (ms : positive) (es : Z),
             py_min (S754_finite false m1 e1) (S754_finite false m2 e2)
             = S754_finite false ms es
             /\ (2 ^ 52 <= Zpos ms < 2 ^ 53)%Z /\ (-200 <= es <= 200)%Z
             /\ IZR P / IZR Q * (1 - d) <= IZR (Zpos ms) * powerRZ 2 es
                <= IZR P / IZR Q * (1 + d)).
  { destruct Sel as [Sel|Sel]; rewrite Sel in Le1, Le2 |- *; cbn [float_value] in Le1, Le2.
    - exists m1, e1. split; [reflexivity|]. split; [exact M1|]. split; [exact Ee1|].
      split.
      + apply Rle_trans with (IZR mw / IZR w * (1 - d)); [|apply V1].
        apply Rmult_le_compat_r; lra.
      + destruct R3 as [-> | ->]; [apply V1|].
        apply Rle_trans with (IZR (Zpos m2) * powerRZ 2 e2); [exact Le2|apply V2].
    - exists m2, e2. split; [reflexivity|]. split; [exact M2|]. split; [exact Ee2|].
      split.
      + apply Rle_trans with (IZR mh / IZR h * (1 - d)); [|apply V2].
        apply Rmult_le_compat_r; lra.
      + destruct R3 as [-> | ->]; [|apply V2].
        apply Rle_trans with (IZR (Zpos m1) * powerRZ 2 e1); [exact Le1|apply V1]. }
  destruct S as (ms & es & Es & Ms & Ees & Vs). rewrite Es.
  destruct (scaled_dimension w P Q mw ms es Hw HP HQ Hmw Kw Ms Ees Vs)
    as (nw & Iw & Nw & Bw & Sw).
  destruct (scaled_dimension h P Q mh ms es Hh HP HQ Hmh Kh Ms Ees Vs)
    as (nh & Ih & Nh & Bh & Sh).
  rewrite Iw, Ih. cbn [bind]. exists nw, nh.
  split; [reflexivity|]. split; [split; assumption|].
  unfold spec_scaled. fold P Q. split; [exact Bw|]. split; [exact Bh|].
  intros Smw Smh Sw24 Sh24.
  assert (T : (2 ^ 48 = 2 ^ 24 * 2 ^ 24)%Z) by reflexivity.
  split; [apply Sw|apply Sh]; nia.
Qed.

End ScaledSize.

(** ** Frames beyond the bound *)

(** The example of the design document: 1280x720 under a bound of 640x480
    is sent as 640x360. *)
Example scaled_size_720p : Motion.scaled_size 640 480 1280 720 = Some (640, 360).
Proof. vm_compute. reflexivity. Qed.

(** Binary64 can lose a pixel against exact arithmetic: 1077 columns
    under a bound of 640 are scaled to 639, since [1077 * (640 / 1077)]
    rounds to a float just below 640. *)
Example scaled_size_1077 : Motion.scaled_size 640 480 1077 720 = Some (639, 427).
Proof. vm_compute. reflexivity. Qed.

Lemma build_packet_beyond_bound (env : Env) (self : StreamingServer) (frame : Frame)
    (new_w new_h : Z) :
  0 < f_width frame -> 0 < f_height frame ->
  (f_width frame > max_width self \/ f_height frame > max_height self) ->
  Motion.scaled_size (max_width self) (max_height self) (f_width frame) (f_height frame)
  = Some (new_w, new_h) ->
  Motion.build_packet env self frame =
    (rgb_frame <- cv_resize env
                    {| f_height := f_height frame; f_width := f_width frame;
                       f_data := swap_channels (f_data frame) |} new_w new_h ;;
     dims <- struct_pack_ii (f_width rgb_frame) (f_height rgb_frame) ;;
     type_code <- struct_pack_i 1 ;;
     planecount <- struct_pack_i 3 ;;
     p_name_len <- struct_pack_i (Z.of_nat (length (@nil byte))) ;;
     p_dimcount <- struct_pack_i 2 ;;
     Some (p_name_len ++ [] ++ p_dimcount ++ dims ++ type_code ++ planecount
             ++ tobytes rgb_frame,
           f_width rgb_frame, f_height rgb_frame)).
Proof.
  intros Hw Hh Big E. unfold Motion.build_packet.
  rewrite cvtColor_valid by assumption. cbn [bind f_width f_height].
  replace ((f_width frame >? max_width self) || (f_height frame >? max_height self))
    with true.
  2:{ symmetry. apply orb_true_iff. rewrite !Z.gtb_ltb, !Z.ltb_lt. lia. }
  rewrite E. reflexivity.
Qed.

(** The scenario of the design document: whatever the content of a
    1280x720 frame, a server bounded by 640x480 publishes a packet that
    announces 640x360 and carries [640 * 360 * 3] bytes. *)
Lemma packet_720p (env : Env) (self : StreamingServer) (frame : Frame) :
  f_width frame = 1280 -> f_height frame = 720 ->
  max_width self = 640 -> max_height self = 480 ->
  exists pixels : bytes,
    Z.of_nat (length pixels) = 640 * 360 * 3
    /\ latest_frame_data (fst (Motion.tcp_step env self frame))
       = Some (spec_packet 640 360 pixels).
Proof.
  intros Fw Fh Mw Mh.
  pose proof (build_packet_beyond_bound env self frame 640 360) as B.
  rewrite Fw, Fh, Mw, Mh in B.
  specialize (B ltac:(lia) ltac:(lia) ltac:(lia) scaled_size_720p).
  unfold cv_resize, frame_empty in B. cbn [f_width f_height] in B.
  change ((1280 <=? 0) || (720 <=? 0) || (640 <=? 0) || (360 <=? 0)) with false in B.
  cbn [bind f_width f_height f_data tobytes] in B.
  rewrite pack_fields in B by (unfold int32_max; lia).
  eexists. split; [|apply (tcp_step_built env self frame _ 640 360); exact B].
  rewrite length_map, length_seq, Z2Nat.id; lia.
Qed.

(** The claim of C2 fails: a frame of 1280 by 1 under the bound 640x480
    gets the size 640 by 0, [cv.resize] raises, and no packet is
    published. *)
Lemma C2_counterexample :
  let frame := solid_frame 1280 1 in
  f_width frame > max_width started_server
  /\ Motion.scaled_size (max_width started_server) (max_height started_server)
       (f_width frame) (f_height frame) = Some (640, 0)
  /\ latest_frame_data (result_self (Motion.update_frame env_ok started_server frame))
     = None
  /\ Motion.tcp_step env_ok started_server frame
     = (started_server, [ EPrint FramePreparationError; ETraceback ]).
Proof.
  vm_compute. repeat split.
Qed.

(** C2 (amended). For a frame that exceeds the bound in width or in
    height, with bounds that are positive 32-bit integers,
    [update_frame] computes [new_w = int(w * s)] and [new_h = int(h * s)]
    with [s = min(max_width / w, max_height / h)] in binary64.  Neither
    exceeds its bound, and each is within one pixel of the exactly scaled
    dimension (never above it when all four sizes are below [2^24]), so
    the ratio of the frame is kept within one pixel of rounding.  When
    both are at least 1 the packet published announces exactly this size
    and carries [new_w * new_h * 3] bytes; when one of them is 0,
    [cv.resize] raises, the error is reported, and the server is left as
    it was, without a new packet. *)
Theorem C2_downscale_within_one_pixel :
  forall (env : Env) (self : StreamingServer) (frame : Frame),
    valid_frame frame ->
    0 < max_width self <= int32_max ->
    0 < max_height self <= int32_max ->
    (f_width frame > max_width self \/ f_height frame > max_height self) ->
    let w := f_width frame in
    let h := f_height frame in
    let scale := spec_scale (max_width self) (max_height self) w h in
    exists new_w new_h : Z,
      Motion.scaled_size (max_width self) (max_height self) w h = Some (new_w, new_h)
      /\ 0 <= new_w <= max_width self
      /\ 0 <= new_h <= max_height self
      /\ spec_scaled w scale - 1 <= new_w <= spec_scaled w scale + 1
      /\ spec_scaled h scale - 1 <= new_h <= spec_scaled h scale + 1
      /\ (max_width self < 2 ^ 24 -> max_height self < 2 ^ 24 ->
          w < 2 ^ 24 -> h < 2 ^ 24 ->
          new_w <= spec_scaled w scale /\ new_h <= spec_scaled h scale)
      /\ (1 <= new_w -> 1 <= new_h ->
          exists pixels : bytes,
            Z.of_nat (length pixels) = new_w * new_h * 3
            /\ latest_frame_data (fst (Motion.tcp_step env self frame))
               = Some (spec_packet new_w new_h pixels)
            /\ spec_decode_packet (spec_packet new_w new_h pixels) =
                 Some {| name_length := 0; name := []; dim_count := 2;
                         width := new_w; height := new_h; type_code := 1;
                         plane_count := 3; pixel_data := pixels |})
      /\ (new_w = 0 \/ new_h = 0 ->
          Motion.tcp_step env self frame
          = (self, [ EPrint FramePreparationError; ETraceback ])).
Proof.
  intros env self frame (Vw & Vh & Vl) Hmw Hmh Big w h scale.
  assert (I : int32_max = 2 ^ 31 - 1) by reflexivity.
  destruct (scaled_size_bounds (max_width self) (max_height self) w h
              ltac:(lia) ltac:(lia) ltac:(unfold w; lia) ltac:(unfold h; lia))
    as (new_w & new_h & E & [Nw Nh] & Bw & Bh & Sharp).
  fold scale in Bw, Bh, Sharp.
  exists new_w, new_h. split; [exact E|]. split; [exact Nw|]. split; [exact Nh|].
  split; [exact Bw|]. split; [exact Bh|]. split; [exact Sharp|].
  pose proof (build_packet_beyond_bound env self frame new_w new_h
                ltac:(lia) ltac:(lia) Big E) as B.
  unfold cv_resize, frame_empty in B. cbn [f_width f_height] in B.
  destruct (Z.leb_spec (f_width frame) 0); [lia|].
  destruct (Z.leb_spec (f_height frame) 0); [lia|]. cbn [orb] in B.
  split.
  - intros P1 P2.
    destruct (Z.leb_spec new_w 0); [lia|]. destruct (Z.leb_spec new_h 0); [lia|].
    cbn [orb bind f_width f_height f_data tobytes] in B.
    set (pixels := map (env_interp env
                          {| f_height := f_height frame; f_width := f_width frame;
                             f_data := swap_channels (f_data frame) |} new_w new_h)
                       (seq 0 (Z.to_nat (new_h * new_w * 3)))) in *.
    rewrite pack_fields in B by lia.
    assert (L : Z.of_nat (length pixels) = new_w * new_h * 3).
    { unfold pixels. rewrite length_map, length_seq, Z2Nat.id; nia. }
    exists pixels. split; [exact L|]. split.
    + apply (tcp_step_built env self frame _ new_w new_h). exact B.
    + apply decode_spec_packet; lia.
  - intros Z0. apply tcp_step_failed. rewrite B.
    destruct Z0 as [-> | ->]; [reflexivity|].
    destruct (new_w <=? 0); reflexivity.
Qed.

Lemma C2_witness :
  let frame := solid_frame 1280 2 in
  valid_frame frame
  /\ f_width frame > max_width started_server
  /\ exists new_w new_h : Z,
       Motion.scaled_size (max_width started_server) (max_height started_server)
         (f_width frame) (f_height frame) = Some (new_w, new_h)
       /\ 0 <= new_w <= max_width started_server
       /\ 0 <= new_h <= max_height started_server.
Proof.
  intros frame.
  assert (V : valid_frame frame).
  { apply valid_solid_frame; vm_compute; split; congruence. }
  assert (Big : f_width frame > max_width started_server) by reflexivity.
  split; [exact V|]. split; [exact Big|].
  assert (Hmw : 0 < max_width started_server <= int32_max)
    by (vm_compute; split; congruence).
  assert (Hmh : 0 < max_height started_server <= int32_max)
    by (vm_compute; split; congruence).
  destruct (C2_downscale_within_one_pixel env_ok started_server frame V
              Hmw Hmh (or_introl Big))
    as (new_w & new_h & E & Bw & Bh & _).
  exists new_w, new_h. split; [exact E|]. split; [exact Bw | exact Bh].
Defined.

(** ** Fault isolation in [update_frame] *)

Lemma update_frame_raises (env : Env) (self : StreamingServer) (frame : Frame) :
  cv_imencode env frame = None ->
  Motion.update_frame env self frame = Raised cv2_error self [].
Proof.
  intros E. unfold Motion.update_frame. rewrite E. reflexivity.
Qed.

Lemma published_jpeg_publish (self : StreamingServer) (frame_data : bytes) :
  published_jpeg (Motion.publish_jpeg self frame_data) =
    match server self with Some _ => Some frame_data | None => None end.
Proof.
  unfold published_jpeg, Motion.publish_jpeg.
  destruct (server self) eqn:E; cbn; try rewrite E; reflexivity.
Qed.

Lemma tcp_step_server (env : Env) (self : StreamingServer) (frame : Frame) :
  server (fst (Motion.tcp_step env self frame)) = server self.
Proof.
  unfold Motion.tcp_step.
  destruct (Motion.build_packet env self frame) as [[[packet w] h]|]; reflexivity.
Qed.

(** The three blocks that sit in a [try] are isolated: once the encoder
    has answered, whatever fails in the file write, the virtual camera or
    the packet construction, the call returns, the JPEG is published, and
    the latest packet is either the new one or the one that was there. *)
Lemma update_frame_isolates_guarded_blocks (env : Env) (self : StreamingServer)
    (frame : Frame) (frame_data : bytes) :
  cv_imencode env frame = Some frame_data ->
  exists self' out,
    Motion.update_frame env self frame = Returned self' out
    /\ published_jpeg self' =
         match server self with Some _ => Some frame_data | None => None end
    /\ match Motion.build_packet env self frame with
       | Some (packet, _, _) =>
           latest_frame_data self' = Some packet
           /\ frame_count self' = frame_count self + 1
       | None =>
           latest_frame_data self' = latest_frame_data self
           /\ frame_count self' = frame_count self
       end.
Proof.
  intros E. eexists. eexists. split; [apply update_frame_returns; exact E|].
  destruct (publish_jpeg_config self frame_data) as (C1 & C2 & C3 & C4 & _).
  split.
  - unfold published_jpeg. rewrite tcp_step_server.
    apply published_jpeg_publish.
  - rewrite <- (build_packet_config env self (Motion.publish_jpeg self frame_data))
      by assumption.
    destruct (Motion.build_packet env (Motion.publish_jpeg self frame_data) frame)
      as [[[packet w] h]|] eqn:B.
    + destruct (tcp_step_built _ _ _ _ _ _ B) as (L & F & _).
      rewrite L, F, C3. split; reflexivity.
    + rewrite (tcp_step_failed _ _ _ B). cbn [fst]. split; assumption.
Qed.

(** C3. The JPEG encoding is the one block of [update_frame] outside of
    any [try]: on a frame the encoder rejects (here the empty array) the
    exception leaves [update_frame], and neither the file write, nor the
    virtual camera, nor the packet construction is run. *)
Theorem C3_encoder_exception_escapes :
  forall (env : Env) (self : StreamingServer),
    Motion.update_frame env self empty_frame = Raised cv2_error self [].
Proof.
  intros env self. apply update_frame_raises. reflexivity.
Qed.

(** ** [start()] and the two ports *)

(** A TCP port that cannot be bound is not fatal: [start()] returns, says
    so, leaves [tcp_socket] unset, and the HTTP server runs. *)
Lemma start_tcp_bind_failure (v : VcamAnswer) (self : StreamingServer) :
  exists self' out,
    Motion.start {| http_bind_ok := true; vcam_answer := v; tcp_bind_ok := false |} self
      = Returned self' out
    /\ tcp_socket self' = None
    /\ In (EPrint (TcpSocketCreationFailed OSError)) out
    /\ server self' =
         Some {| frame_bytes := None; serving := true; http_socket_open := true |}.
Proof.
  unfold Motion.start. cbn [http_bind_ok negb vcam_answer tcp_bind_ok].
  destruct (use_virtual_cam _); [destruct v|];
    (eexists; eexists; split; [reflexivity|]);
    cbn; repeat split; auto 10.
Qed.

(** C6. The HTTP port is bound outside of any [try]: when it is taken,
    the exception leaves [start()], before the virtual camera and the TCP
    listener are set up, and the object is as it was. *)
Theorem C6_http_bind_failure_escapes :
  forall (v : VcamAnswer) (t : bool) (self : StreamingServer),
    Motion.start {| http_bind_ok := false; vcam_answer := v; tcp_bind_ok := t |} self
    = Raised OSError self [].
Proof.
  intros v t self. reflexivity.
Qed.

(** ** [stop()] *)

Lemma stop_never_raises (env : StopEnv) (self : StreamingServer) :
  raised (Motion.stop env self) = false.
Proof. reflexivity. Qed.

(** On a server that was never started there is nothing to do. *)
Lemma stop_before_start (env : StopEnv) (expanduser : string -> string)
    (port tcp_port mw mh : Z) (path : option string) (vcam : bool) :
  Motion.stop env (Motion.init expanduser port tcp_port mw mh path vcam)
  = Returned (Motion.init expanduser port tcp_port mw mh path vcam) [].
Proof. reflexivity. Qed.

(** A second [stop()] finds everything as the first one left it. *)
Lemma stop_twice (self : StreamingServer) :
  Motion.stop stop_ok (result_self (Motion.stop stop_ok self))
  = Motion.stop stop_ok self.
Proof.
  destruct self as [p tp [h|] th [so|] [cl|] tt mw mh fc lf uv [vc|] lp];
    vm_compute; reflexivity.
Qed.

(** What [stop()] does close, when each [close()] goes through. *)
Lemma stop_closes_sockets_and_camera (self : StreamingServer) :
  let self' := result_self (Motion.stop stop_ok self) in
  tcp_socket self' = option_map Motion.close_socket (tcp_socket self)
  /\ tcp_client self' = option_map Motion.close_socket (tcp_client self)
  /\ virtual_cam self' = option_map Motion.close_camera (virtual_cam self)
  /\ server self' = option_map Motion.shutdown (server self).
Proof.
  destruct self as [p tp [h|] th [so|] [cl|] tt mw mh fc lf uv [vc|] lp];
    vm_compute; repeat split.
Qed.

(** C8. After [start()] and [stop()] the serving loop of the HTTP server
    has ended but its listening socket is still open: [stop()] calls
    [shutdown()] and nothing ever calls [server_close()]. *)
Theorem C8_http_socket_left_open :
  forall (env : StopEnv),
    server (result_self (Motion.stop env started_server))
    = Some {| frame_bytes := None; serving := false; http_socket_open := true |}.
Proof.
  intros [[|] [|] [|]]; reflexivity.
Qed.

(** ** The send loop *)

Lemma received_app (peer : Z) (out1 out2 : list Event) :
  received peer (out1 ++ out2) = received peer out1 ++ received peer out2.
Proof.
  induction out1 as [|ev out1 IH]; [reflexivity|].
  destruct ev; cbn [app received]; try exact IH.
  destruct (client =? peer); cbn [app]; rewrite IH; reflexivity.
Qed.

(** One turn at [Sending] with a packet published and a send that goes
    through: the packet is sent and the loop stays where it is. *)
Lemma send_turn_ok (env : LoopEnv) (self : StreamingServer) (client : Socket)
    (data : bytes) :
  tcp_client self = Some client ->
  truthy (latest_frame_data self) = Some data ->
  sock_open client && send_ok env = true ->
  Motion.tcp_accept_loop_step env self Sending
  = (self, Sending, [ ETcpSend (sock_peer client) data; ESleep ]).
Proof.
  intros C D S. cbn [Motion.tcp_accept_loop_step]. rewrite C, D, S. reflexivity.
Qed.

(** One turn at [Sending] with a send that raises: the inner loop is left,
    the thread is back at [accept()], and the object is untouched. *)
Lemma send_turn_fails (env : LoopEnv) (self : StreamingServer) (client : Socket)
    (data : bytes) :
  tcp_client self = Some client ->
  truthy (latest_frame_data self) = Some data ->
  sock_open client && send_ok env = false ->
  Motion.tcp_accept_loop_step env self Sending = (self, Listening, []).
Proof.
  intros C D S. cbn [Motion.tcp_accept_loop_step]. rewrite C, D, S. reflexivity.
Qed.

(** One turn at [Sending] before any packet was published. *)
Lemma send_turn_nothing (env : LoopEnv) (self : StreamingServer) (client : Socket) :
  tcp_client self = Some client ->
  truthy (latest_frame_data self) = None ->
  Motion.tcp_accept_loop_step env self Sending = (self, Sending, [ ESleep ]).
Proof.
  intros C D. cbn [Motion.tcp_accept_loop_step]. rewrite C, D. reflexivity.
Qed.

(** The claim of C4 fails: with one packet published and no update in
    between, two turns of the send loop write the same packet twice. *)
Lemma C4_counterexample :
  let self := result_self (Motion.update_frame env_ok connected_server (solid_frame 2 1)) in
  let packet := spec_packet 2 1 (swap_channels (f_data (solid_frame 2 1))) in
  latest_frame_data self = Some packet
  /\ loop_run [tick_ok; tick_ok] self Sending
     = (self, Sending,
        [ ETcpSend 7 packet; ESleep; ETcpSend 7 packet; ESleep ])
  /\ received 7 (snd (loop_run [tick_ok; tick_ok] self Sending)) = [ packet; packet ].
Proof.
  vm_compute. repeat split.
Qed.

(** C4 (amended). While a client is connected and a packet has been
    published, every turn of the send loop whose [sendall] goes through
    writes the current [latest_frame_data], whether or not it has changed
    since the previous turn: over [n] turns without an update the client
    receives the same packet [n] times.  Nothing is written only as long
    as no packet has been published. *)
Theorem C4_latest_packet_sent_every_turn :
  forall (envs : list LoopEnv) (self : StreamingServer) (client : Socket),
    tcp_client self = Some client ->
    sock_open client = true ->
    Forall (fun env => send_ok env = true) envs ->
    (forall data,
        truthy (latest_frame_data self) = Some data ->
        fst (loop_run envs self Sending) = (self, Sending)
        /\ received (sock_peer client) (snd (loop_run envs self Sending))
           = repeat data (length envs))
    /\ (truthy (latest_frame_data self) = None ->
        fst (loop_run envs self Sending) = (self, Sending)
        /\ received (sock_peer client) (snd (loop_run envs self Sending)) = []).
Proof.
  intros envs self client C O F. split.
  - intros data D. induction F as [|env envs S F IH]; [split; reflexivity|].
    cbn [loop_run].
    rewrite (send_turn_ok env self client data C D)
      by (rewrite O, S; reflexivity).
    destruct (loop_run envs self Sending) as [[self2 st2] out2].
    cbn [fst snd] in *. destruct IH as [IH1 IH2]. split; [exact IH1|].
    cbn [app received length repeat]. rewrite Z.eqb_refl, IH2. reflexivity.
  - intros D. induction F as [|env envs S F IH]; [split; reflexivity|].
    cbn [loop_run].
    rewrite (send_turn_nothing env self client C D).
    destruct (loop_run envs self Sending) as [[self2 st2] out2].
    cbn [fst snd] in *. destruct IH as [IH1 IH2]. split; [exact IH1|].
    cbn [app received]. exact IH2.
Qed.

Lemma C4_witness :
  let self := result_self (Motion.update_frame env_ok connected_server (solid_frame 2 1)) in
  let packet := spec_packet 2 1 (swap_channels (f_data (solid_frame 2 1))) in
  tcp_client self = Some {| sock_peer := 7; sock_open := true |}
  /\ Forall (fun env => send_ok env = true) [tick_ok; tick_ok; tick_ok]
  /\ truthy (latest_frame_data self) = Some packet
  /\ received 7 (snd (loop_run [tick_ok; tick_ok; tick_ok] self Sending))
     = [ packet; packet; packet ].
Proof.
  intros self packet.
  assert (C : tcp_client self = Some {| sock_peer := 7; sock_open := true |})
    by reflexivity.
  assert (F : Forall (fun env => send_ok env = true) [tick_ok; tick_ok; tick_ok])
    by (repeat constructor).
  assert (D : truthy (latest_frame_data self) = Some packet) by reflexivity.
  split; [exact C|]. split; [exact F|]. split; [exact D|].
  exact (proj2 (proj1 (C4_latest_packet_sent_every_turn
                         [tick_ok; tick_ok; tick_ok] self
                         {| sock_peer := 7; sock_open := true |}
                         C eq_refl F) packet D)).
Defined.

(** The claim of C5 fails: after a send that raises, [tcp_client] still
    holds the socket of the client that went away. *)
Lemma C5_counterexample :
  let self := result_self (Motion.update_frame env_ok connected_server (solid_frame 2 1)) in
  let '(self', st', out) := Motion.tcp_accept_loop_step tick_send_fails self Sending in
  st' = Listening
  /\ tcp_client self' = Some {| sock_peer := 7; sock_open := true |}
  /\ tcp_client self' <> None.
Proof.
  vm_compute. repeat split. discriminate.
Qed.

(** C5 (amended). When a send to the connected client raises, the send
    loop is left and the thread is back in the accept loop, with nothing
    sent; [tcp_client] is not cleared and keeps the socket of the failed
    client until the next [accept()] replaces it.  When a later client is
    accepted it becomes [tcp_client], and the next turn sends it the
    latest packet. *)
Theorem C5_send_failure_resumes_accept :
  forall (env : LoopEnv) (self : StreamingServer) (client : Socket) (data : bytes),
    tcp_client self = Some client ->
    truthy (latest_frame_data self) = Some data ->
    sock_open client && send_ok env = false ->
    Motion.tcp_accept_loop_step env self Sending = (self, Listening, [])
    /\ forall (sock : Socket) (addr : Z) (env2 env3 : LoopEnv),
         tcp_socket self = Some sock ->
         sock_open sock = true ->
         accept_answer env2 = Accepted addr ->
         send_ok env3 = true ->
         loop_run [env2; env3] self Listening
         = (set_tcp_client self (Some {| sock_peer := addr; sock_open := true |}),
            Sending,
            [ EPrint (JitNetRecvConnected addr); ETcpSend addr data; ESleep ]).
Proof.
  intros env self client data C D S. split.
  - apply (send_turn_fails env self client data C D S).
  - intros sock addr env2 env3 K O A S3.
    assert (T1 : Motion.tcp_accept_loop_step env2 self Listening
                 = (set_tcp_client self (Some {| sock_peer := addr; sock_open := true |}),
                    Sending, [ EPrint (JitNetRecvConnected addr) ])).
    { cbn [Motion.tcp_accept_loop_step]. rewrite K, O, A. reflexivity. }
    cbn [loop_run]. rewrite T1.
    rewrite (send_turn_ok env3 _ {| sock_peer := addr; sock_open := true |} data)
      by (try reflexivity; try exact D; cbn [sock_open andb]; exact S3).
    reflexivity.
Qed.

Lemma C5_witness :
  let self := result_self (Motion.update_frame env_ok connected_server (solid_frame 2 1)) in
  let packet := spec_packet 2 1 (swap_channels (f_data (solid_frame 2 1))) in
  tcp_client self = Some {| sock_peer := 7; sock_open := true |}
  /\ truthy (latest_frame_data self) = Some packet
  /\ Motion.tcp_accept_loop_step tick_send_fails self Sending = (self, Listening, [])
  /\ loop_run [ {| accept_answer := Accepted 9; send_ok := true |}; tick_ok ]
       self Listening
     = (set_tcp_client self (Some {| sock_peer := 9; sock_open := true |}),
        Sending,
        [ EPrint (JitNetRecvConnected 9); ETcpSend 9 packet; ESleep ]).
Proof.
  intros self packet.
  assert (C : tcp_client self = Some {| sock_peer := 7; sock_open := true |})
    by reflexivity.
  assert (D : truthy (latest_frame_data self) = Some packet) by reflexivity.
  pose proof (C5_send_failure_resumes_accept tick_send_fails self
                {| sock_peer := 7; sock_open := true |} packet C D eq_refl) as W.
  split; [exact C|]. split; [exact D|]. split.
  - exact (proj1 W).
  - exact (proj2 W {| sock_peer := 8081; sock_open := true |} 9
             {| accept_answer := Accepted 9; send_ok := true |} tick_ok
             eq_refl eq_refl eq_refl eq_refl).
Defined.

(** ** The file snapshot *)

Lemma save_failure_reports_app (out1 out2 : list Event) :
  save_failure_reports (out1 ++ out2)
  = (save_failure_reports out1 + save_failure_reports out2)%nat.
Proof.
  unfold save_failure_reports. rewrite filter_app, length_app. reflexivity.
Qed.

Lemma file_step_reports (env : Env) (self : StreamingServer) (frame : Frame) :
  save_failure_reports (Motion.file_step env self frame)
  = match cv_imwrite env (local_file_path self) frame with
    | None => if frame_count self =? 0 then 1%nat else 0%nat
    | Some _ => 0%nat
    end.
Proof.
  unfold Motion.file_step.
  destruct (cv_imwrite env (local_file_path self) frame) as [[|]|];
    destruct (frame_count self =? 0); reflexivity.
Qed.

Lemma vcam_step_reports (env : Env) (self : StreamingServer) (frame : Frame) :
  save_failure_reports (Motion.vcam_step env self frame) = 0%nat.
Proof.
  unfold Motion.vcam_step.
  destruct (use_virtual_cam self && _); [|reflexivity].
  destruct (Motion.vcam_body env self frame); [reflexivity|].
  destruct (frame_count self =? 0); reflexivity.
Qed.

Lemma tcp_step_reports (env : Env) (self : StreamingServer) (frame : Frame) :
  save_failure_reports (snd (Motion.tcp_step env self frame)) = 0%nat.
Proof.
  unfold Motion.tcp_step.
  destruct (Motion.build_packet env self frame) as [[[packet w] h]|];
    [|reflexivity].
  cbn [snd]. destruct (frame_count self + 1 =? 1);
    destruct ((frame_count self + 1) mod 30 =? 0); reflexivity.
Qed.

Lemma tcp_step_frame_count (env : Env) (self : StreamingServer) (frame : Frame) :
  frame_count self <= frame_count (fst (Motion.tcp_step env self frame)).
Proof.
  unfold Motion.tcp_step.
  destruct (Motion.build_packet env self frame) as [[[packet w] h]|];
    cbn [fst set_packet frame_count]; lia.
Qed.

Lemma update_frame_reports (env : Env) (self : StreamingServer) (frame : Frame) :
  save_failure_reports (result_out (Motion.update_frame env self frame))
  = match cv_imencode env frame with
    | None => 0%nat
    | Some _ =>
        match cv_imwrite env (local_file_path self) frame with
        | None => if frame_count self =? 0 then 1%nat else 0%nat
        | Some _ => 0%nat
        end
    end.
Proof.
  destruct (cv_imencode env frame) as [frame_data|] eqn:E.
  - rewrite (update_frame_returns env self frame frame_data E).
    cbn [result_out]. rewrite !save_failure_reports_app.
    rewrite file_step_reports, vcam_step_reports, tcp_step_reports.
    destruct (publish_jpeg_config self frame_data) as (_ & _ & C3 & _ & C5).
    rewrite C3, C5. lia.
  - rewrite (update_frame_raises env self frame E). reflexivity.
Qed.

Lemma update_frame_frame_count (env : Env) (self : StreamingServer) (frame : Frame) :
  frame_count self <= frame_count (result_self (Motion.update_frame env self frame)).
Proof.
  destruct (cv_imencode env frame) as [frame_data|] eqn:E.
  - rewrite (update_frame_returns env self frame frame_data E).
    cbn [result_self].
    destruct (publish_jpeg_config self frame_data) as (_ & _ & C3 & _).
    rewrite <- C3. apply tcp_step_frame_count.
  - rewrite (update_frame_raises env self frame E). cbn [result_self]. lia.
Qed.

(** Once a packet has been prepared, no failure of the file write is
    reported any more, whatever the producer sends. *)
Lemma update_run_reports_nothing (calls : list (Env * Frame)) :
  forall self : StreamingServer,
    1 <= frame_count self ->
    save_failure_reports (result_out (update_run calls self)) = 0%nat.
Proof.
  induction calls as [|[env frame] calls IH]; intros self F; [reflexivity|].
  cbn [update_run].
  pose proof (update_frame_reports env self frame) as R.
  pose proof (update_frame_frame_count env self frame) as M.
  destruct (Motion.update_frame env self frame) as [self1 out1|e self1 out1];
    cbn [result_out result_self] in *.
  - specialize (IH self1 ltac:(lia)).
    assert (R0 : save_failure_reports out1 = 0%nat).
    { rewrite R. destruct (cv_imencode env frame); [|reflexivity].
      destruct (cv_imwrite env (local_file_path self) frame); [reflexivity|].
      destruct (Z.eqb_spec (frame_count self) 0); [lia|reflexivity]. }
    destruct (update_run calls self1); cbn [result_out] in *;
      rewrite save_failure_reports_app; lia.
  - rewrite R. destruct (cv_imencode env frame); [|reflexivity].
    destruct (cv_imwrite env (local_file_path self) frame); [reflexivity|].
    destruct (Z.eqb_spec (frame_count self) 0); [lia|reflexivity].
Qed.

(** The claim of C7 fails: the first write goes through, the second one
    raises, and this first failure is not reported at all; and a write
    that fails by returning [False] is not reported even in the very
    first update. *)
Lemma C7_counterexample :
  let frame := solid_frame 2 1 in
  let self1 := result_self (Motion.update_frame env_ok started_server frame) in
  cv_imwrite env_write_raises (local_file_path self1) frame = None
  /\ raised (update_run [ (env_ok, frame); (env_write_raises, frame) ] started_server)
     = false
  /\ save_failure_reports
       (result_out (update_run [ (env_ok, frame); (env_write_raises, frame) ]
                      started_server))
     = 0%nat
  /\ cv_imwrite env_write_false (local_file_path started_server) frame = Some false
  /\ save_failure_reports
       (result_out (Motion.update_frame env_write_false started_server frame))
     = 0%nat.
Proof.
  vm_compute. repeat split.
Qed.

(** C7 (amended). A file write that raises never leaves [update_frame]:
    the call returns whenever the encoder has answered.  The failure is
    reported under the guard [frame_count == 0] only: once in an update
    made before any packet has been prepared, and not at all in any update
    made after the first packet, so a first failure that occurs later is
    never reported.  A write that fails by returning [False] is not
    reported either. *)
Theorem C7_write_failure_reported_under_guard :
  forall (env : Env) (self : StreamingServer) (frame : Frame) (frame_data : bytes),
    cv_imencode env frame = Some frame_data ->
    raised (Motion.update_frame env self frame) = false
    /\ save_failure_reports (result_out (Motion.update_frame env self frame))
       = match cv_imwrite env (local_file_path self) frame with
         | None => if frame_count self =? 0 then 1%nat else 0%nat
         | Some _ => 0%nat
         end
    /\ (forall calls : list (Env * Frame),
          1 <= frame_count self ->
          save_failure_reports (result_out (update_run calls self)) = 0%nat).
Proof.
  intros env self frame frame_data E. split; [|split].
  - rewrite (update_frame_returns env self frame frame_data E). reflexivity.
  - rewrite update_frame_reports, E. reflexivity.
  - intros calls F. apply update_run_reports_nothing. exact F.
Qed.

Lemma C7_witness :
  cv_imencode env_write_raises (solid_frame 2 1) = Some [xff; xd8; xff; xd9]
  /\ raised (Motion.update_frame env_write_raises started_server (solid_frame 2 1)) = false
  /\ save_failure_reports
       (result_out (Motion.update_frame env_write_raises started_server (solid_frame 2 1)))
     = 1%nat.
Proof.
  assert (E : cv_imencode env_write_raises (solid_frame 2 1) = Some [xff; xd8; xff; xd9])
    by reflexivity.
  pose proof (C7_write_failure_reported_under_guard
                env_write_raises started_server (solid_frame 2 1) _ E) as W.
  split; [exact E|]. split; [exact (proj1 W)|]. exact (proj1 (proj2 W)).
Defined.

(** ** What [stop()] leaves behind *)

Lemma stop_fields (env : StopEnv) (self : StreamingServer) :
  let self' := result_self (Motion.stop env self) in
  frame_count self' = frame_count self
  /\ latest_frame_data self' = latest_frame_data self
  /\ published_jpeg self' = published_jpeg self
  /\ (server self' = None <-> server self = None)
  /\ (tcp_socket self' = None <-> tcp_socket self = None)
  /\ (tcp_client self' = None <-> tcp_client self = None)
  /\ (virtual_cam self' = None <-> virtual_cam self = None)
  /\ use_virtual_cam self' = use_virtual_cam self
  /\ max_width self' = max_width self
  /\ max_height self' = max_height self
  /\ local_file_path self' = local_file_path self
  /\ port self' = port self
  /\ tcp_port self' = tcp_port self.
Proof.
  destruct env as [[|] [|] [|]];
    destruct self as [p tp [h|] th [so|] [cl|] tt mw mh fc lf uv [vc|] lp];
    cbn; repeat split; intros; congruence.
Qed.

(** [update_frame] does on a stopped server what it does on the running
    one: it raises on the same frames and publishes the same
    representations. *)
Lemma update_frame_after_stop (env : StopEnv) (self : StreamingServer)
    (envu : Env) (frame : Frame) :
  let before := Motion.update_frame envu self frame in
  let after := Motion.update_frame envu (result_self (Motion.stop env self)) frame in
  raised after = raised before
  /\ published_jpeg (result_self after) = published_jpeg (result_self before)
  /\ latest_frame_data (result_self after) = latest_frame_data (result_self before)
  /\ frame_count (result_self after) = frame_count (result_self before).
Proof.
  intros before after. unfold before, after.
  destruct (stop_fields env self)
    as (F1 & F2 & F3 & F4 & _ & _ & _ & _ & F9 & F10 & _).
  set (self' := result_self (Motion.stop env self)) in *.
  destruct (cv_imencode envu frame) as [frame_data|] eqn:E.
  - destruct (update_frame_isolates_guarded_blocks envu self frame frame_data E)
      as (s1 & o1 & U1 & J1 & P1).
    destruct (update_frame_isolates_guarded_blocks envu self' frame frame_data E)
      as (s2 & o2 & U2 & J2 & P2).
    rewrite U1, U2. cbn [raised result_self].
    rewrite (build_packet_config envu self self') in P2 by assumption.
    split; [reflexivity|]. split.
    + rewrite J1, J2. destruct (server self') eqn:K1; destruct (server self) eqn:K2;
        try reflexivity.
      * assert (C : @Some HTTPServer h = None) by (apply F4; reflexivity). discriminate.
      * assert (C : @Some HTTPServer h = None) by (apply F4; reflexivity). discriminate.
    + destruct (Motion.build_packet envu self frame) as [[[packet w] h]|];
        destruct P1 as [P1a P1b]; destruct P2 as [P2a P2b];
        rewrite P1a, P1b, P2a, P2b; split; congruence.
  - rewrite !(update_frame_raises envu _ frame E). cbn [raised result_self].
    repeat split; assumption.
Qed.

(** The claim of C10 fails for "every frame".  On a server that has
    published a packet and was then stopped, [update_frame] raises on an
    empty frame, since [cv.imencode] is called outside of any [try]; on
    the raster image of 1280 by 1 pixels it returns but the packet
    cannot be built, and [latest_frame_data] keeps the old packet; and
    on a server that was never started no JPEG is published at all. *)
Lemma C10_counterexample :
  let self := result_self (Motion.update_frame env_ok started_server (solid_frame 2 1)) in
  let s := result_self (Motion.stop stop_ok self) in
  let old := spec_packet 2 1 (swap_channels (f_data (solid_frame 2 1))) in
  latest_frame_data s = Some old
  /\ Motion.update_frame env_ok s empty_frame = Raised cv2_error s []
  /\ valid_frame (solid_frame 1280 1)
  /\ raised (Motion.update_frame env_ok s (solid_frame 1280 1)) = false
  /\ latest_frame_data (result_self (Motion.update_frame env_ok s (solid_frame 1280 1)))
     = Some old
  /\ published_jpeg
       (result_self (Motion.update_frame env_ok
                       (result_self (Motion.stop stop_ok fresh_server))
                       (solid_frame 2 1)))
     = None.
Proof.
  vm_compute. repeat split; intros C; discriminate C.
Qed.

(** C10 (amended). [stop()], once it has returned, has assigned no
    attribute of the server: the counters and the published
    representations are as they were and no reference is cleared.
    Hence [update_frame] after [stop()] does exactly what it did before
    [stop()]: it raises on the same frames, and leaves the same
    [frame_bytes] and [latest_frame_data].  In particular, on a server
    that was started, for a frame the encoder accepts and whose packet
    can be built, the call returns, and it replaces both the published
    JPEG and the latest MatrixPacket. *)
Theorem C10_stop_keeps_state_and_update_still_publishes :
  forall (env : StopEnv) (self : StreamingServer),
    let self' := result_self (Motion.stop env self) in
    (frame_count self' = frame_count self
     /\ latest_frame_data self' = latest_frame_data self
     /\ published_jpeg self' = published_jpeg self
     /\ (server self' = None <-> server self = None)
     /\ (tcp_socket self' = None <-> tcp_socket self = None)
     /\ (tcp_client self' = None <-> tcp_client self = None)
     /\ (virtual_cam self' = None <-> virtual_cam self = None))
    /\ (forall (envu : Env) (frame : Frame),
          raised (Motion.update_frame envu self' frame)
          = raised (Motion.update_frame envu self frame)
          /\ published_jpeg (result_self (Motion.update_frame envu self' frame))
             = published_jpeg (result_self (Motion.update_frame envu self frame))
          /\ latest_frame_data (result_self (Motion.update_frame envu self' frame))
             = latest_frame_data (result_self (Motion.update_frame envu self frame)))
    /\ forall (envu : Env) (frame : Frame) (frame_data packet : bytes) (w h : Z),
         server self <> None ->
         cv_imencode envu frame = Some frame_data ->
         Motion.build_packet envu self frame = Some (packet, w, h) ->
         exists self'' out,
           Motion.update_frame envu self' frame = Returned self'' out
           /\ published_jpeg self'' = Some frame_data
           /\ latest_frame_data self'' = Some packet
           /\ frame_count self'' = frame_count self + 1.
Proof.
  intros env self self'.
  destruct (stop_fields env self)
    as (F1 & F2 & F3 & F4 & F5 & F6 & F7 & F8 & F9 & F10 & _).
  fold self' in F1, F2, F3, F4, F5, F6, F7, F8, F9, F10.
  split; [repeat split; try assumption; tauto|]. split.
  { intros envu frame.
    destruct (update_frame_after_stop env self envu frame) as (A & B & C & _).
    fold self' in A, B, C. repeat split; assumption. }
  intros envu frame frame_data packet w h S E B.
  destruct (update_frame_isolates_guarded_blocks envu self' frame frame_data E)
    as (self'' & out & U & J & P).
  exists self'', out. split; [exact U|].
  rewrite (build_packet_config envu self self') in P by assumption.
  rewrite B in P. destruct P as [P1 P2].
  split; [|split; [exact P1 | rewrite P2, F1; reflexivity]].
  rewrite J. destruct (server self') eqn:K; [reflexivity|].
  exfalso. apply S. apply F4. reflexivity.
Qed.

Lemma C10_witness :
  server started_server <> None
  /\ cv_imencode env_ok (solid_frame 2 1) = Some [xff; xd8; xff; xd9]
  /\ Motion.build_packet env_ok started_server (solid_frame 2 1)
     = Some (spec_packet 2 1 (swap_channels (f_data (solid_frame 2 1))), 2, 1)
  /\ exists self'' out,
       Motion.update_frame env_ok (result_self (Motion.stop stop_ok started_server))
         (solid_frame 2 1) = Returned self'' out
       /\ published_jpeg self'' = Some [xff; xd8; xff; xd9]
       /\ latest_frame_data self''
          = Some (spec_packet 2 1 (swap_channels (f_data (solid_frame 2 1))))
       /\ frame_count self'' = frame_count started_server + 1.
Proof.
  assert (S : server started_server <> None) by (vm_compute; discriminate).
  assert (E : cv_imencode env_ok (solid_frame 2 1) = Some [xff; xd8; xff; xd9])
    by reflexivity.
  assert (B : Motion.build_packet env_ok started_server (solid_frame 2 1)
              = Some (spec_packet 2 1 (swap_channels (f_data (solid_frame 2 1))), 2, 1))
    by reflexivity.
  split; [exact S|]. split; [exact E|]. split; [exact B|].
  exact (proj2 (proj2 (C10_stop_keeps_state_and_update_still_publishes
                         stop_ok started_server))
           env_ok (solid_frame 2 1) _ _ 2 1 S E B).
Defined.

(** ** The two copies of the server *)

Section Duplicates.

(** Apart from what they print in [start()] and the defaults of their
    constructors, the two classes are the same text. *)
Lemma depth_update_frame : Depth.update_frame = Motion.update_frame.
Proof. reflexivity. Qed.

Lemma depth_stop : Depth.stop = Motion.stop.
Proof. reflexivity. Qed.

Lemma depth_loop_step : Depth.tcp_accept_loop_step = Motion.tcp_accept_loop_step.
Proof. reflexivity. Qed.

Lemma depth_do_GET : Depth.do_GET = Motion.do_GET.
Proof. reflexivity. Qed.

Lemma depth_start (env : StartEnv) (self : StreamingServer) :
  result_self (Depth.start env self) = result_self (Motion.start env self)
  /\ raised (Depth.start env self) = raised (Motion.start env self).
Proof.
  unfold Depth.start, Motion.start.
  destruct (http_bind_ok env); [|split; reflexivity]. cbn [negb].
  destruct (use_virtual_cam _); [destruct (vcam_answer env)|];
    destruct (tcp_bind_ok env); split; reflexivity.
Qed.

Lemma depth_init (expanduser : string -> string) (port tcp_port mw mh : Z)
    (path : option string) (vcam : bool) :
  Depth.init expanduser port tcp_port mw mh path vcam
  = set_local_file_path (Motion.init expanduser port tcp_port mw mh path vcam)
      (match path with
       | None => expanduser "~/max_depth_frame.jpg"
       | Some p => p
       end).
Proof. reflexivity. Qed.

(** The path of the file snapshot decides where [cv.imwrite] writes and
    nothing else: every method leaves the same object behind, whatever
    the path. *)
Variable path : string.

Lemma start_any_path (env : StartEnv) (self : StreamingServer) :
  result_self (Motion.start env (set_local_file_path self path))
  = set_local_file_path (result_self (Motion.start env self)) path.
Proof.
  unfold Motion.start.
  destruct (http_bind_ok env); [|reflexivity]. cbn [negb].
  cbn [use_virtual_cam set_server set_local_file_path].
  destruct (use_virtual_cam self); [destruct (vcam_answer env)|];
    destruct (tcp_bind_ok env); reflexivity.
Qed.

Lemma loop_step_any_path (env : LoopEnv) (self : StreamingServer) (st : LoopState) :
  Motion.tcp_accept_loop_step env (set_local_file_path self path) st
  = let '(self1, st1, out1) := Motion.tcp_accept_loop_step env self st in
    (set_local_file_path self1 path, st1, out1).
Proof.
  destruct st; cbn [Motion.tcp_accept_loop_step tcp_socket tcp_client
                      latest_frame_data set_local_file_path].
  - destruct (tcp_socket self) as [sock|]; [|reflexivity].
    destruct (if sock_open sock then accept_answer env else AcceptFailed);
      reflexivity.
  - destruct (tcp_client self) as [client|]; [|reflexivity].
    destruct (truthy (latest_frame_data self)); [|reflexivity].
    destruct (sock_open client && send_ok env); reflexivity.
  - reflexivity.
Qed.

Lemma tcp_step_any_path (env : Env) (self : StreamingServer) (frame : Frame) :
  fst (Motion.tcp_step env (set_local_file_path self path) frame)
  = set_local_file_path (fst (Motion.tcp_step env self frame)) path.
Proof.
  unfold Motion.tcp_step.
  rewrite (build_packet_config env self (set_local_file_path self path))
    by reflexivity.
  destruct (Motion.build_packet env self frame) as [[[packet w] h]|];
    reflexivity.
Qed.

Lemma update_frame_any_path (env : Env) (self : StreamingServer) (frame : Frame) :
  result_self (Motion.update_frame env (set_local_file_path self path) frame)
  = set_local_file_path (result_self (Motion.update_frame env self frame)) path
  /\ raised (Motion.update_frame env (set_local_file_path self path) frame)
     = raised (Motion.update_frame env self frame).
Proof.
  destruct (cv_imencode env frame) as [frame_data|] eqn:E.
  - rewrite !(update_frame_returns env _ frame frame_data E).
    cbn [result_self raised]. split; [|reflexivity].
    rewrite <- tcp_step_any_path. f_equal.
    unfold Motion.publish_jpeg. cbn [server set_local_file_path].
    destruct (server self); reflexivity.
  - rewrite !(update_frame_raises env _ frame E). split; reflexivity.
Qed.

Lemma stop_any_path (env : StopEnv) (self : StreamingServer) :
  result_self (Motion.stop env (set_local_file_path self path))
  = set_local_file_path (result_self (Motion.stop env self)) path.
Proof.
  destruct env as [[|] [|] [|]];
    destruct self as [p tp [h|] th [so|] [cl|] tt mw mh fc lf uv [vc|] lp];
    reflexivity.
Qed.

Lemma call_depth_motion (c : Call) (self : StreamingServer) (st : LoopState) :
  call depth_impl c (set_local_file_path self path, st)
  = (set_local_file_path (fst (call motion_impl c (self, st))) path,
     snd (call motion_impl c (self, st))).
Proof.
  destruct c as [env|env|env frame|env]; cbn [call depth_impl motion_impl
    impl_start impl_loop_step impl_update_frame impl_stop fst snd].
  - rewrite (proj1 (depth_start env _)), start_any_path. reflexivity.
  - rewrite depth_loop_step, loop_step_any_path.
    destruct (Motion.tcp_accept_loop_step env self st) as [[self1 st1] out1].
    reflexivity.
  - rewrite depth_update_frame, (proj1 (update_frame_any_path env self frame)).
    reflexivity.
  - rewrite depth_stop, stop_any_path. reflexivity.
Qed.

Lemma run_depth_motion (calls : list Call) :
  forall (self : StreamingServer) (st : LoopState),
    run depth_impl calls (set_local_file_path self path, st)
    = (set_local_file_path (fst (run motion_impl calls (self, st))) path,
       snd (run motion_impl calls (self, st))).
Proof.
  unfold run. induction calls as [|c calls IH]; intros self st; [reflexivity|].
  cbn [fold_left]. rewrite call_depth_motion.
  destruct (call motion_impl c (self, st)) as [self1 st1]. cbn [fst snd].
  apply IH.
Qed.

End Duplicates.

(** C9. Constructed with the same arguments and driven by the same calls
    with the same answers from the outside world, the server of
    [MaxShowmotion.py] and the one of [MaxShowDepth.py] hold the same
    HTTP server object (hence the same [frame_bytes]) and the same
    [latest_frame_data]; a further [update_frame] on the same frame
    publishes the same JPEG and the same packet on both, and raises on
    one exactly when it raises on the other; and the two HTTP handlers
    answer every request alike. *)
Theorem C9_duplicated_servers_agree :
  forall (expanduser : string -> string) (port tcp_port mw mh : Z)
         (path : option string) (vcam : bool) (calls : list Call),
    let m := fst (run motion_impl calls
                    (Motion.init expanduser port tcp_port mw mh path vcam, Closed)) in
    let d := fst (run depth_impl calls
                    (Depth.init expanduser port tcp_port mw mh path vcam, Closed)) in
    server d = server m
    /\ published_jpeg d = published_jpeg m
    /\ latest_frame_data d = latest_frame_data m
    /\ (forall (env : Env) (frame : Frame),
          published_jpeg (result_self (Depth.update_frame env d frame))
          = published_jpeg (result_self (Motion.update_frame env m frame))
          /\ latest_frame_data (result_self (Depth.update_frame env d frame))
             = latest_frame_data (result_self (Motion.update_frame env m frame))
          /\ raised (Depth.update_frame env d frame)
             = raised (Motion.update_frame env m frame))
    /\ (forall (srv : HTTPServer) (request_path : string)
               (turns : list (HTTPServer * bool)),
          Depth.do_GET srv request_path turns = Motion.do_GET srv request_path turns).
Proof.
  intros expanduser port tcp_port mw mh path vcam calls m d.
  assert (D : d = set_local_file_path m
                    (match path with
                     | None => expanduser "~/max_depth_frame.jpg"
                     | Some p => p
                     end)).
  { unfold d, m. rewrite depth_init, run_depth_motion. reflexivity. }
  rewrite D. split; [reflexivity|]. split; [reflexivity|]. split; [reflexivity|].
  split.
  - intros env frame. rewrite depth_update_frame.
    destruct (update_frame_any_path
                (match path with
                 | None => expanduser "~/max_depth_frame.jpg"
                 | Some p => p
                 end) env m frame) as [U R].
    rewrite U, R. repeat split.
  - intros srv request_path turns. rewrite depth_do_GET. reflexivity.
Qed.

(** ** What the clients of the TCP socket are sent *)

Lemma sent_messages_app (out1 out2 : list Event) :
  sent_messages (out1 ++ out2) = sent_messages out1 ++ sent_messages out2.
Proof.
  induction out1 as [|ev out1 IH]; [reflexivity|].
  destruct ev; cbn; rewrite ?IH; reflexivity.
Qed.

Lemma spec_scaled_below (c mw mh w h : Z) :
  0 < c -> 0 < mw -> 0 < mh -> 0 < w -> 0 < h ->
  (w > mw \/ h > mh) ->
  spec_scaled c (spec_scale mw mh w h) <= c - 1.
Proof.
  intros Hc Hmw Hmh Hw Hh Big. unfold spec_scaled, spec_scale.
  destruct (Z.leb_spec (mw * h) (mh * w)); cbn [fst snd].
  - assert (mw < w) by nia.
    enough (c * mw / w < c) by lia.
    apply Z.div_lt_upper_bound; nia.
  - assert (mh < h) by nia.
    enough (c * mh / h < c) by lia.
    apply Z.div_lt_upper_bound; nia.
Qed.

Lemma build_packet_big (env : Env) (self : StreamingServer) (frame : Frame)
    (packet : bytes) (w h : Z) :
  valid_frame frame ->
  0 < max_width self <= int32_max ->
  0 < max_height self <= int32_max ->
  (f_width frame > max_width self \/ f_height frame > max_height self) ->
  Motion.build_packet env self frame = Some (packet, w, h) ->
  exists pixels : bytes,
    packet = spec_packet w h pixels
    /\ Z.of_nat (length pixels) = w * h * 3
    /\ (1 <= w <= max_width self /\ w <= f_width frame)
    /\ (1 <= h <= max_height self /\ h <= f_height frame).
Proof.
  intros (Vw & Vh & Vl) Hmw Hmh Big B.
  assert (I : int32_max = 2 ^ 31 - 1) by reflexivity.
  destruct (scaled_size_bounds (max_width self) (max_height self)
              (f_width frame) (f_height frame)
              ltac:(lia) ltac:(lia) ltac:(lia) ltac:(lia))
    as (new_w & new_h & E & [Nw Nh] & Bw & Bh & _).
  pose proof (spec_scaled_below (f_width frame) (max_width self) (max_height self)
                (f_width frame) (f_height frame)
                ltac:(lia) ltac:(lia) ltac:(lia) ltac:(lia) ltac:(lia) Big) as Sw.
  pose proof (spec_scaled_below (f_height frame) (max_width self) (max_height self)
                (f_width frame) (f_height frame)
                ltac:(lia) ltac:(lia) ltac:(lia) ltac:(lia) ltac:(lia) Big) as Sh.
  rewrite (build_packet_beyond_bound env self frame new_w new_h
             ltac:(lia) ltac:(lia) Big E) in B.
  unfold cv_resize, frame_empty in B. cbn [f_width f_height] in B.
  destruct (Z.leb_spec (f_width frame) 0); [lia|].
  destruct (Z.leb_spec (f_height frame) 0); [lia|]. cbn [orb] in B.
  destruct (Z.leb_spec new_w 0); [discriminate B|].
  destruct (Z.leb_spec new_h 0); [discriminate B|].
  cbn [orb bind f_width f_height f_data tobytes] in B.
  rewrite pack_fields in B by lia.
  injection B as <- <- <-.
  eexists. split; [reflexivity|].
  split; [rewrite length_map, length_seq, Z2Nat.id; nia|].
  split; lia.
Qed.

(** A packet that gets built announces a size within the bound and
    within the frame, of at least one pixel each way, and carries that
    many pixels. *)
Lemma build_packet_shape (env : Env) (self : StreamingServer) (frame : Frame)
    (packet : bytes) (w h : Z) :
  valid_frame frame ->
  0 < max_width self <= int32_max ->
  0 < max_height self <= int32_max ->
  Motion.build_packet env self frame = Some (packet, w, h) ->
  exists pixels : bytes,
    packet = spec_packet w h pixels
    /\ Z.of_nat (length pixels) = w * h * 3
    /\ (1 <= w <= max_width self /\ w <= f_width frame)
    /\ (1 <= h <= max_height self /\ h <= f_height frame).
Proof.
  intros V Hmw Hmh B. pose proof V as (Vw & Vh & Vl).
  destruct (Z_le_gt_dec (f_width frame) (max_width self)) as [Lw|Gw];
    [destruct (Z_le_gt_dec (f_height frame) (max_height self)) as [Lh|Gh]|].
  - rewrite (build_packet_within_bound env self frame V Lw Lh) in B.
    injection B as <- <- <-.
    exists (swap_channels (f_data frame)).
    rewrite length_swap_channels. repeat split; lia.
  - apply (build_packet_big env self frame packet w h V Hmw Hmh (or_intror Gh) B).
  - apply (build_packet_big env self frame packet w h V Hmw Hmh (or_introl Gw) B).
Qed.

Lemma packet_ok_spec_packet (mw mh w h : Z) (pixels : bytes) :
  mw <= int32_max -> mh <= int32_max ->
  1 <= w <= mw -> 1 <= h <= mh ->
  Z.of_nat (length pixels) = w * h * 3 ->
  packet_ok mw mh (spec_packet w h pixels) = true.
Proof.
  intros Hmw Hmh Hw Hh L. unfold packet_ok.
  rewrite decode_spec_packet by lia.
  cbn [name_length dim_count type_code plane_count width height pixel_data].
  rewrite L, !Z.eqb_refl.
  destruct (Z.leb_spec 1 w); [|lia]. destruct (Z.leb_spec w mw); [|lia].
  destruct (Z.leb_spec 1 h); [|lia]. destruct (Z.leb_spec h mh); [|lia].
  reflexivity.
Qed.

Lemma update_frame_sends_nothing (env : Env) (self : StreamingServer) (frame : Frame) :
  sent_messages (result_out (Motion.update_frame env self frame)) = [].
Proof.
  unfold Motion.update_frame. destruct (cv_imencode env frame) as [fd|]; [|reflexivity].
  set (self1 := Motion.publish_jpeg self fd).
  destruct (Motion.tcp_step env self1 frame) as [s4 o4] eqn:T.
  cbn [result_out]. rewrite !sent_messages_app.
  assert (A : sent_messages (Motion.file_step env self1 frame) = []).
  { unfold Motion.file_step.
    destruct (cv_imwrite env (local_file_path self1) frame) as [[|]|]; cbn;
      destruct (frame_count self1 =? 0); reflexivity. }
  assert (B : sent_messages (Motion.vcam_step env self1 frame) = []).
  { unfold Motion.vcam_step.
    destruct (use_virtual_cam self1 && _); [|reflexivity].
    destruct (Motion.vcam_body env self1 frame); [reflexivity|].
    destruct (frame_count self1 =? 0); reflexivity. }
  assert (C : sent_messages o4 = []).
  { unfold Motion.tcp_step in T.
    destruct (Motion.build_packet env self1 frame) as [[[p w] h]|];
      injection T as <- <-; [|reflexivity].
    destruct (frame_count self1 + 1 =? 1);
      destruct ((frame_count self1 + 1) mod 30 =? 0); reflexivity. }
  rewrite A, B, C. reflexivity.
Qed.

Lemma update_frame_bounds (env : Env) (self : StreamingServer) (frame : Frame) :
  max_width (result_self (Motion.update_frame env self frame)) = max_width self
  /\ max_height (result_self (Motion.update_frame env self frame)) = max_height self.
Proof.
  unfold Motion.update_frame. destruct (cv_imencode env frame) as [fd|];
    [|split; reflexivity].
  destruct (publish_jpeg_config self fd) as (Mw & Mh & _).
  unfold Motion.tcp_step.
  destruct (Motion.build_packet env _ frame) as [[[p w] h]|]; cbn; split; assumption.
Qed.

Lemma update_frame_keeps_good_packet (env : Env) (self : StreamingServer)
    (frame : Frame) :
  valid_frame frame ->
  0 < max_width self <= int32_max ->
  0 < max_height self <= int32_max ->
  holds_good_packet self ->
  holds_good_packet (result_self (Motion.update_frame env self frame)).
Proof.
  intros V Hmw Hmh G. unfold holds_good_packet.
  destruct (update_frame_bounds env self frame) as [-> ->].
  destruct (cv_imencode env frame) as [fd|] eqn:E.
  - destruct (update_frame_isolates_guarded_blocks env self frame fd E)
      as (self' & out & R & _ & P).
    rewrite R. cbn [result_self].
    destruct (Motion.build_packet env self frame) as [[[p w] h]|] eqn:B.
    + destruct P as [-> _].
      destruct (build_packet_shape env self frame p w h V Hmw Hmh B)
        as (pixels & -> & L & Bw & Bh).
      apply packet_ok_spec_packet; lia.
    + destruct P as [-> _]. exact G.
  - unfold Motion.update_frame. rewrite E. exact G.
Qed.

Lemma loop_step_keeps_packet (env : LoopEnv) (self : StreamingServer) (st : LoopState) :
  let self' := fst (fst (Motion.tcp_accept_loop_step env self st)) in
  latest_frame_data self' = latest_frame_data self
  /\ max_width self' = max_width self
  /\ max_height self' = max_height self.
Proof.
  destruct st; cbn.
  - destruct (tcp_socket self) as [sock|]; [|repeat split].
    destruct (if sock_open sock then accept_answer env else AcceptFailed);
      repeat split.
  - destruct (tcp_client self) as [c|]; [|repeat split].
    destruct (truthy (latest_frame_data self)); [|repeat split].
    destruct (sock_open c && send_ok env); repeat split.
  - repeat split.
Qed.

Lemma loop_step_sends_latest (env : LoopEnv) (self : StreamingServer) (st : LoopState) :
  Forall (fun m => latest_frame_data self = Some (snd m))
    (sent_messages (snd (Motion.tcp_accept_loop_step env self st))).
Proof.
  destruct st; cbn.
  - destruct (tcp_socket self) as [sock|]; [|constructor].
    destruct (if sock_open sock then accept_answer env else AcceptFailed);
      constructor.
  - destruct (tcp_client self) as [c|]; [|constructor].
    destruct (latest_frame_data self) as [[|b l]|]; cbn; try constructor.
    destruct (sock_open c && send_ok env); repeat constructor.
  - constructor.
Qed.

(** X1. Whatever the order in which the producer calls [update_frame]
    and the accept-loop thread takes its turns, every message a TCP
    client is sent is a complete packet: it reads back, by the layout of
    the design document, as a picture of at least one pixel each way,
    within the bound of the server, with three bytes per pixel. *)
Theorem X1_clients_receive_well_formed_packets :
  forall (acts : list Action) (self : StreamingServer) (st : LoopState),
    0 < max_width self <= int32_max ->
    0 < max_height self <= int32_max ->
    Forall produces_valid_frame acts ->
    latest_frame_data self = None ->
    Forall (fun m => packet_ok (max_width self) (max_height self) (snd m) = true)
      (sent_messages (snd (session acts self st))).
Proof.
  intros acts self st Hmw Hmh Fv N.
  assert (G : holds_good_packet self) by (unfold holds_good_packet; rewrite N; exact I).
  clear N. revert self st Hmw Hmh G.
  induction Fv as [|a acts Va Fv IH]; intros self st Hmw Hmh G; [constructor|].
  destruct a as [env frame | env]; cbn [session produces_valid_frame] in *.
  - pose proof (update_frame_bounds env self frame) as [Mw Mh].
    pose proof (update_frame_keeps_good_packet env self frame Va Hmw Hmh G) as G'.
    specialize (IH (result_self (Motion.update_frame env self frame)) st
                  ltac:(rewrite Mw; exact Hmw) ltac:(rewrite Mh; exact Hmh) G').
    rewrite Mw, Mh in IH.
    destruct (session acts _ st) as [[s2 st2] o2]. cbn [snd] in *.
    rewrite sent_messages_app, update_frame_sends_nothing. exact IH.
  - pose proof (loop_step_keeps_packet env self st) as (L & Mw & Mh).
    pose proof (loop_step_sends_latest env self st) as S.
    destruct (Motion.tcp_accept_loop_step env self st) as [[s1 st1] o1].
    cbn [fst snd] in *.
    assert (G' : holds_good_packet s1).
    { unfold holds_good_packet. rewrite L, Mw, Mh. exact G. }
    specialize (IH s1 st1 ltac:(rewrite Mw; exact Hmw) ltac:(rewrite Mh; exact Hmh) G').
    rewrite Mw, Mh in IH.
    destruct (session acts s1 st1) as [[s2 st2] o2]. cbn [snd] in *.
    rewrite sent_messages_app. apply Forall_app. split; [|exact IH].
    eapply Forall_impl; [|exact S]. intros m E.
    unfold holds_good_packet in G. rewrite E in G. exact G.
Qed.

Lemma X1_witness :
  let acts := [ Turn {| accept_answer := Accepted 7; send_ok := true |};
                Produce env_ok (solid_frame 2 1); Turn tick_ok ] in
  Forall produces_valid_frame acts
  /\ sent_messages (snd (session acts started_server Listening))
     = [ (7, spec_packet 2 1 (swap_channels (f_data (solid_frame 2 1)))) ]
  /\ Forall (fun m => packet_ok 640 480 (snd m) = true)
       (sent_messages (snd (session acts started_server Listening))).
Proof.
  intros acts.
  assert (V : valid_frame (solid_frame 2 1)).
  { apply valid_solid_frame; vm_compute; split; congruence. }
  assert (F : Forall produces_valid_frame acts).
  { unfold acts. constructor; [exact I|]. constructor; [exact V|].
    constructor; [exact I|]. constructor. }
  split; [exact F|]. split; [vm_compute; reflexivity|].
  exact (X1_clients_receive_well_formed_packets acts started_server Listening
           ltac:(vm_compute; split; congruence) ltac:(vm_compute; split; congruence)
           F eq_refl).
Defined.

(** X2. The server never enlarges a picture and never announces an empty
    one: when [update_frame] builds a packet for a frame, the width and
    the height it announces are at least 1 and exceed neither the bound
    of the server nor the size of the frame, and the packet carries
    exactly width * height * 3 bytes after its 24-byte header. *)
Theorem X2_packet_never_larger_than_frame :
  forall (env : Env) (self : StreamingServer) (frame : Frame)
         (packet : bytes) (w h : Z),
    valid_frame frame ->
    0 < max_width self <= int32_max ->
    0 < max_height self <= int32_max ->
    Motion.build_packet env self frame = Some (packet, w, h) ->
    1 <= w <= Z.min (max_width self) (f_width frame)
    /\ 1 <= h <= Z.min (max_height self) (f_height frame)
    /\ Z.of_nat (length packet) = 24 + w * h * 3
    /\ latest_frame_data (fst (Motion.tcp_step env self frame)) = Some packet
    /\ (cv_imencode env frame <> None ->
        latest_frame_data (result_self (Motion.update_frame env self frame))
        = Some packet).
Proof.
  intros env self frame packet w h V Hmw Hmh B.
  destruct (build_packet_shape env self frame packet w h V Hmw Hmh B)
    as (pixels & -> & L & Bw & Bh).
  split; [lia|]. split; [lia|].
  split; [rewrite length_spec_packet; lia|].
  split; [apply (tcp_step_built env self frame _ w h B)|].
  intros E. destruct (cv_imencode env frame) as [fd|] eqn:Efd; [|congruence].
  destruct (update_frame_isolates_guarded_blocks env self frame fd Efd)
    as (self' & out & R & _ & P).
  rewrite R, B in *. cbn [result_self]. apply P.
Qed.

Lemma X2_witness :
  let frame := solid_frame 1280 2 in
  valid_frame frame
  /\ exists (packet : bytes) (w h : Z),
       Motion.build_packet env_ok started_server frame = Some (packet, w, h)
       /\ 1 <= w <= Z.min (max_width started_server) (f_width frame)
       /\ 1 <= h <= Z.min (max_height started_server) (f_height frame).
Proof.
  intros frame.
  assert (V : valid_frame frame).
  { apply valid_solid_frame; vm_compute; split; congruence. }
  split; [exact V|].
  destruct (Motion.build_packet env_ok started_server frame)
    as [[[packet w] h]|] eqn:B; [|vm_compute in B; discriminate B].
  exists packet, w, h. split; [reflexivity|].
  destruct (X2_packet_never_larger_than_frame env_ok started_server frame packet w h V
              ltac:(vm_compute; split; congruence) ltac:(vm_compute; split; congruence) B)
    as (Bw & Bh & _).
  split; [exact Bw | exact Bh].
Defined.

(** ** The guarded blocks of [update_frame] *)

Lemma vcam_step_config (env : Env) (self self' : StreamingServer) (frame : Frame) :
  max_width self' = max_width self -> max_height self' = max_height self ->
  frame_count self' = frame_count self ->
  use_virtual_cam self' = use_virtual_cam self ->
  virtual_cam self' = virtual_cam self ->
  Motion.vcam_step env self' frame = Motion.vcam_step env self frame.
Proof.
  intros Mw Mh Fc U V. unfold Motion.vcam_step, Motion.vcam_body.
  rewrite Mw, Mh, Fc, U, V. reflexivity.
Qed.

Lemma publish_jpeg_camera (self : StreamingServer) (frame_data : bytes) :
  use_virtual_cam (Motion.publish_jpeg self frame_data) = use_virtual_cam self
  /\ virtual_cam (Motion.publish_jpeg self frame_data) = virtual_cam self.
Proof.
  unfold Motion.publish_jpeg. destruct (server self); split; reflexivity.
Qed.

Lemma vcam_step_publish (env : Env) (self : StreamingServer) (frame : Frame)
    (frame_data : bytes) :
  Motion.vcam_step env (Motion.publish_jpeg self frame_data) frame
  = Motion.vcam_step env self frame.
Proof.
  destruct (publish_jpeg_config self frame_data) as (Mw & Mh & Fc & _).
  destruct (publish_jpeg_camera self frame_data) as (U & V).
  apply vcam_step_config; assumption.
Qed.

Lemma file_step_publish (env : Env) (self : StreamingServer) (frame : Frame)
    (frame_data : bytes) :
  Motion.file_step env (Motion.publish_jpeg self frame_data) frame
  = Motion.file_step env self frame.
Proof.
  destruct (publish_jpeg_config self frame_data) as (_ & _ & Fc & _ & P).
  unfold Motion.file_step. rewrite Fc, P. reflexivity.
Qed.

(** X3. Once the JPEG encoder has answered, [update_frame] returns, and
    each of its three guarded blocks does its work whatever happens in
    the other two: the JPEG is published for the HTTP handlers, the local
    file is written if [cv.imwrite] succeeds, the virtual camera is sent
    its frame if the camera calls succeed, and the packet is published if
    it can be built.  When the packet cannot be built, the previous
    packet and the frame counter stay as they were. *)
Theorem X3_guarded_blocks_are_independent :
  forall (env : Env) (self : StreamingServer) (frame : Frame) (frame_data : bytes),
    cv_imencode env frame = Some frame_data ->
    exists self' out,
      Motion.update_frame env self frame = Returned self' out
      /\ published_jpeg self' =
           match server self with Some _ => Some frame_data | None => None end
      /\ (cv_imwrite env (local_file_path self) frame = Some true ->
          In (EFileWritten (local_file_path self) frame) out)
      /\ (forall (cam : Camera) (sent : Frame),
            use_virtual_cam self = true -> virtual_cam self = Some cam ->
            Motion.vcam_body env self frame = Some sent ->
            In (ECamSend sent) out)
      /\ (forall (packet : bytes) (w h : Z),
            Motion.build_packet env self frame = Some (packet, w, h) ->
            latest_frame_data self' = Some packet
            /\ frame_count self' = frame_count self + 1)
      /\ (Motion.build_packet env self frame = None ->
          latest_frame_data self' = latest_frame_data self
          /\ frame_count self' = frame_count self
          /\ In (EPrint FramePreparationError) out).
Proof.
  intros env self frame fd E.
  destruct (update_frame_isolates_guarded_blocks env self frame fd E)
    as (self' & out & R & J & P).
  exists self', out. split; [exact R|]. split; [exact J|].
  rewrite (update_frame_returns env self frame fd E) in R.
  injection R as _ Hout.
  rewrite file_step_publish, vcam_step_publish in Hout.
  destruct (publish_jpeg_config self fd) as (Mw & Mh & _).
  split; [|split; [|split]].
  - intros W. rewrite <- Hout. apply in_or_app. left.
    unfold Motion.file_step. rewrite W. left. reflexivity.
  - intros cam sent U V S. rewrite <- Hout. apply in_or_app. right.
    apply in_or_app. left.
    unfold Motion.vcam_step. rewrite U, V, S. left. reflexivity.
  - intros packet w h B. rewrite B in P. exact P.
  - intros B. rewrite B in P. destruct P as [P1 P2].
    split; [exact P1|]. split; [exact P2|].
    rewrite <- Hout. apply in_or_app. right. apply in_or_app. right.
    rewrite <- (build_packet_config env self (Motion.publish_jpeg self fd) frame Mw Mh)
      in B.
    rewrite (tcp_step_failed env _ frame B). left. reflexivity.
Qed.

Lemma X3_witness :
  exists self' out,
    Motion.update_frame env_write_raises started_server (solid_frame 2 1)
      = Returned self' out
    /\ published_jpeg self' = Some [xff; xd8; xff; xd9]
    /\ latest_frame_data self'
       = Some (spec_packet 2 1 (swap_channels (f_data (solid_frame 2 1)))).
Proof.
  destruct (X3_guarded_blocks_are_independent env_write_raises started_server
              (solid_frame 2 1) [xff; xd8; xff; xd9] eq_refl)
    as (self' & out & R & J & _ & _ & P & _).
  exists self', out. split; [exact R|]. split; [exact J|].
  exact (proj1 (P (spec_packet 2 1 (swap_channels (f_data (solid_frame 2 1)))) 2 1
                  eq_refl)).
Defined.

(** ** The virtual camera *)

Lemma camera_frames_app (out1 out2 : list Event) :
  camera_frames (out1 ++ out2) = camera_frames out1 ++ camera_frames out2.
Proof.
  induction out1 as [|ev out1 IH]; [reflexivity|].
  destruct ev; cbn; rewrite ?IH; reflexivity.
Qed.

Lemma file_step_camera (env : Env) (self : StreamingServer) (frame : Frame) :
  camera_frames (Motion.file_step env self frame) = [].
Proof.
  unfold Motion.file_step.
  destruct (cv_imwrite env (local_file_path self) frame) as [[|]|]; cbn;
    destruct (frame_count self =? 0); reflexivity.
Qed.

Lemma tcp_step_camera (env : Env) (self : StreamingServer) (frame : Frame) :
  camera_frames (snd (Motion.tcp_step env self frame)) = [].
Proof.
  unfold Motion.tcp_step.
  destruct (Motion.build_packet env self frame) as [[[p w] h]|]; [|reflexivity].
  cbn [snd]. destruct (frame_count self + 1 =? 1);
    destruct ((frame_count self + 1) mod 30 =? 0); reflexivity.
Qed.

Lemma update_frame_camera (env : Env) (self : StreamingServer) (frame : Frame) :
  camera_frames (result_out (Motion.update_frame env self frame))
  = camera_frames (Motion.vcam_step env self frame)
  \/ camera_frames (result_out (Motion.update_frame env self frame)) = [].
Proof.
  destruct (cv_imencode env frame) as [fd|] eqn:E.
  - left. rewrite (update_frame_returns env self frame fd E). cbn [result_out].
    rewrite !camera_frames_app, file_step_camera, tcp_step_camera, vcam_step_publish.
    cbn. apply app_nil_r.
  - right. unfold Motion.update_frame. rewrite E. reflexivity.
Qed.

Lemma vcam_body_size (env : Env) (self : StreamingServer) (frame sent : Frame) :
  Motion.vcam_body env self frame = Some sent ->
  f_width sent = max_width self /\ f_height sent = max_height self.
Proof.
  unfold Motion.vcam_body.
  destruct (cv_cvtColor_BGR2RGB frame) as [rgb|]; [|discriminate].
  cbn [bind].
  destruct (Z.eqb_spec (f_width rgb) (max_width self)) as [Ew|Nw];
    [destruct (Z.eqb_spec (f_height rgb) (max_height self)) as [Eh|Nh]|];
    cbn [negb orb].
  - cbn [bind]. destruct (env_cam_send env rgb); [|discriminate].
    intros S; injection S as <-. split; assumption.
  - unfold cv_resize.
    destruct (frame_empty rgb || (max_width self <=? 0) || (max_height self <=? 0));
      [discriminate|].
    cbn [bind]. destruct (env_cam_send env _); [|discriminate].
    intros S; injection S as <-. split; reflexivity.
  - unfold cv_resize.
    destruct (frame_empty rgb || (max_width self <=? 0) || (max_height self <=? 0));
      [discriminate|].
    cbn [bind]. destruct (env_cam_send env _); [|discriminate].
    intros S; injection S as <-. split; reflexivity.
Qed.

Lemma vcam_step_size (env : Env) (self : StreamingServer) (frame : Frame) :
  Forall (fun sent => f_width sent = max_width self /\ f_height sent = max_height self)
    (camera_frames (Motion.vcam_step env self frame)).
Proof.
  unfold Motion.vcam_step.
  destruct (use_virtual_cam self && _); [|constructor].
  destruct (Motion.vcam_body env self frame) as [sent|] eqn:S.
  - cbn. constructor; [|constructor]. exact (vcam_body_size env self frame sent S).
  - destruct (frame_count self =? 0); constructor.
Qed.

Lemma update_run_bounds (calls : list (Env * Frame)) (self : StreamingServer) :
  max_width (result_self (update_run calls self)) = max_width self
  /\ max_height (result_self (update_run calls self)) = max_height self.
Proof.
  revert self. induction calls as [|[env frame] calls IH]; intros self;
    [split; reflexivity|].
  cbn [update_run].
  pose proof (update_frame_bounds env self frame) as [Mw Mh].
  destruct (Motion.update_frame env self frame) as [s1 o1|e s1 o1];
    cbn [result_self] in *; [|split; assumption].
  specialize (IH s1). destruct (update_run calls s1); cbn [result_self] in *;
    split; lia.
Qed.

(** X4. The virtual camera is only ever sent frames of the size it was
    opened with: over any sequence of [update_frame] calls, every frame
    passed to [virtual_cam.send] is [max_width] wide and [max_height]
    high, whatever the size of the frames the producer hands in. *)
Theorem X4_camera_frames_have_the_device_size :
  forall (calls : list (Env * Frame)) (self : StreamingServer),
    Forall (fun sent => f_width sent = max_width self
                        /\ f_height sent = max_height self)
      (camera_frames (result_out (update_run calls self))).
Proof.
  intros calls. induction calls as [|[env frame] calls IH]; intros self;
    [constructor|].
  cbn [update_run].
  pose proof (update_frame_bounds env self frame) as [Mw Mh].
  pose proof (update_frame_camera env self frame) as C.
  pose proof (vcam_step_size env self frame) as S.
  assert (F1 : Forall (fun sent => f_width sent = max_width self
                                   /\ f_height sent = max_height self)
                 (camera_frames (result_out (Motion.update_frame env self frame)))).
  { destruct C as [-> | ->]; [exact S | constructor]. }
  destruct (Motion.update_frame env self frame) as [s1 o1|e s1 o1];
    cbn [result_self result_out] in *; [|exact F1].
  specialize (IH s1). rewrite Mw, Mh in IH.
  destruct (update_run calls s1); cbn [result_out] in *;
    rewrite camera_frames_app; apply Forall_app; split; assumption.
Qed.

(** ** The frame counter and its reports *)

Lemma first_frame_reports_app (out1 out2 : list Event) :
  first_frame_reports (out1 ++ out2)
  = (first_frame_reports out1 + first_frame_reports out2)%nat.
Proof.
  unfold first_frame_reports. rewrite filter_app, length_app. reflexivity.
Qed.

Lemma update_frame_first_report (env : Env) (self : StreamingServer) (frame : Frame) :
  first_frame_reports (result_out (Motion.update_frame env self frame))
  = if raised (Motion.update_frame env self frame) then 0%nat
    else if packet_built self (env, frame) && (frame_count self =? 0)
         then 1%nat else 0%nat.
Proof.
  destruct (cv_imencode env frame) as [fd|] eqn:E.
  2:{ unfold Motion.update_frame. rewrite E. reflexivity. }
  rewrite (update_frame_returns env self frame fd E). cbn [result_out raised].
  rewrite !first_frame_reports_app.
  destruct (publish_jpeg_config self fd) as (Mw & Mh & Fc & _).
  unfold packet_built. cbn [fst snd].
  rewrite <- (build_packet_config env self (Motion.publish_jpeg self fd) frame Mw Mh).
  set (self1 := Motion.publish_jpeg self fd) in *.
  assert (A : first_frame_reports (Motion.file_step env self1 frame) = 0%nat).
  { unfold Motion.file_step.
    destruct (cv_imwrite env (local_file_path self1) frame) as [[|]|]; cbn;
      destruct (frame_count self1 =? 0); reflexivity. }
  assert (B : first_frame_reports (Motion.vcam_step env self1 frame) = 0%nat).
  { unfold Motion.vcam_step.
    destruct (use_virtual_cam self1 && _); [|reflexivity].
    destruct (Motion.vcam_body env self1 frame); [reflexivity|].
    destruct (frame_count self1 =? 0); reflexivity. }
  rewrite A, B. cbn [Nat.add].
  unfold Motion.tcp_step.
  destruct (Motion.build_packet env self1 frame) as [[[p w] h]|]; [|reflexivity].
  cbn [snd andb]. rewrite Fc.
  destruct (Z.eqb_spec (frame_count self) 0) as [-> | N].
  - reflexivity.
  - destruct (Z.eqb_spec (frame_count self + 1) 1); [lia|].
    destruct ((frame_count self + 1) mod 30 =? 0); reflexivity.
Qed.

Lemma update_frame_counts (env : Env) (self : StreamingServer) (frame : Frame) :
  frame_count (result_self (Motion.update_frame env self frame))
  = if raised (Motion.update_frame env self frame) then frame_count self
    else if packet_built self (env, frame) then frame_count self + 1
         else frame_count self.
Proof.
  destruct (cv_imencode env frame) as [fd|] eqn:E.
  2:{ unfold Motion.update_frame. rewrite E. reflexivity. }
  destruct (update_frame_isolates_guarded_blocks env self frame fd E)
    as (self' & out & R & _ & P).
  rewrite R. cbn [result_self raised]. unfold packet_built. cbn [fst snd].
  destruct (Motion.build_packet env self frame) as [[[p w] h]|]; apply P.
Qed.

Lemma packet_built_config (self self' : StreamingServer) (c : Env * Frame) :
  max_width self' = max_width self -> max_height self' = max_height self ->
  packet_built self' c = packet_built self c.
Proof.
  intros Mw Mh. unfold packet_built.
  rewrite (build_packet_config (fst c) self self' (snd c) Mw Mh). reflexivity.
Qed.

(** X5. Over any sequence of [update_frame] calls that all return, the
    frame counter advances by exactly the number of calls whose packet
    could be built (a call whose packet fails leaves it alone), and
    "First frame prepared" is printed at most once, and not at all once
    the counter has left 0. *)
Theorem X5_frame_counter_counts_built_packets :
  forall (calls : list (Env * Frame)) (self : StreamingServer),
    raised (update_run calls self) = false ->
    frame_count (result_self (update_run calls self))
    = frame_count self + Z.of_nat (length (filter (packet_built self) calls))
    /\ (first_frame_reports (result_out (update_run calls self)) <= 1)%nat
    /\ (1 <= frame_count self ->
        first_frame_reports (result_out (update_run calls self)) = 0%nat).
Proof.
  intros calls. induction calls as [|[env frame] calls IH]; intros self Hr.
  { cbn. split; [lia|]. split; [lia|]. reflexivity. }
  cbn [update_run] in *.
  pose proof (update_frame_bounds env self frame) as [Mw Mh].
  pose proof (update_frame_counts env self frame) as Fc.
  pose proof (update_frame_first_report env self frame) as Fr.
  destruct (Motion.update_frame env self frame) as [s1 o1|e s1 o1];
    cbn [result_self result_out raised] in *; [|discriminate Hr].
  assert (Hr1 : raised (update_run calls s1) = false).
  { destruct (update_run calls s1); [reflexivity | discriminate Hr]. }
  destruct (IH s1 Hr1) as (C & L1 & Z1).
  assert (Ef : filter (packet_built s1) calls = filter (packet_built self) calls).
  { apply filter_ext. intros c. apply packet_built_config; assumption. }
  rewrite Ef in C.
  assert (Rs : result_self (match update_run calls s1 with
                            | Returned self2 out2 => Returned self2 (o1 ++ out2)
                            | Raised e self2 out2 => Raised e self2 (o1 ++ out2)
                            end) = result_self (update_run calls s1))
    by (destruct (update_run calls s1); reflexivity).
  assert (Ro : result_out (match update_run calls s1 with
                           | Returned self2 out2 => Returned self2 (o1 ++ out2)
                           | Raised e self2 out2 => Raised e self2 (o1 ++ out2)
                           end) = o1 ++ result_out (update_run calls s1))
    by (destruct (update_run calls s1); reflexivity).
  rewrite Rs, Ro, first_frame_reports_app, C, Fr. cbn [filter].
  destruct (packet_built self (env, frame)); cbn [andb length] in *.
  - rewrite Fc in *. split; [lia|].
    destruct (Z.eqb_spec (frame_count self) 0) as [E0|N0].
    + rewrite Z1 by lia. split; [lia|]. intros; lia.
    + split; [lia|]. intros P. apply Z1. lia.
  - rewrite Fc in *. split; [lia|]. split; [lia|]. intros P. apply Z1. lia.
Qed.

Lemma X5_witness :
  let calls := [ (env_ok, solid_frame 2 1); (env_ok, solid_frame 1280 1);
                 (env_ok, solid_frame 1 2) ] in
  raised (update_run calls started_server) = false
  /\ frame_count (result_self (update_run calls started_server)) = 0 + 2
  /\ (first_frame_reports (result_out (update_run calls started_server)) <= 1)%nat.
Proof.
  intros calls.
  assert (R : raised (update_run calls started_server) = false)
    by (vm_compute; reflexivity).
  split; [exact R|].
  destruct (X5_frame_counter_counts_built_packets calls started_server R)
    as (C & L & _).
  split; [exact C | exact L].
Defined.

(** ** [start()] when a device or a port is missing *)

Lemma update_frame_camera_switch (env : Env) (self : StreamingServer) (frame : Frame) :
  use_virtual_cam (result_self (Motion.update_frame env self frame))
  = use_virtual_cam self.
Proof.
  unfold Motion.update_frame. destruct (cv_imencode env frame) as [fd|]; [|reflexivity].
  destruct (publish_jpeg_camera self fd) as [U _].
  unfold Motion.tcp_step.
  destruct (Motion.build_packet env _ frame) as [[[p w] h]|]; cbn; exact U.
Qed.

Lemma update_run_without_camera (calls : list (Env * Frame)) (self : StreamingServer) :
  use_virtual_cam self = false ->
  camera_frames (result_out (update_run calls self)) = [].
Proof.
  revert self. induction calls as [|[env frame] calls IH]; intros self U;
    [reflexivity|].
  cbn [update_run].
  pose proof (update_frame_camera_switch env self frame) as U1.
  pose proof (update_frame_camera env self frame) as C.
  assert (C1 : camera_frames (result_out (Motion.update_frame env self frame)) = []).
  { destruct C as [C|C]; [|exact C]. rewrite C.
    unfold Motion.vcam_step. rewrite U. reflexivity. }
  destruct (Motion.update_frame env self frame) as [s1 o1|e s1 o1];
    cbn [result_self result_out] in *; [|exact C1].
  specialize (IH s1 ltac:(congruence)).
  destruct (update_run calls s1); cbn [result_out] in *;
    rewrite camera_frames_app, C1, IH; reflexivity.
Qed.

(** X6. When the virtual camera cannot be created ([pyvirtualcam] is
    missing or its constructor raises), [start()] still returns with the
    HTTP server running, switches [use_virtual_cam] off, and no later
    [update_frame] ever tries to send a frame to a camera. *)
Theorem X6_camera_failure_switches_the_camera_off :
  forall (v : VcamAnswer) (t : bool) (self : StreamingServer)
         (calls : list (Env * Frame)),
    (v = VcamImportError \/ v = VcamFailed) ->
    let r := Motion.start {| http_bind_ok := true; vcam_answer := v;
                             tcp_bind_ok := t |} self in
    raised r = false
    /\ use_virtual_cam (result_self r) = false
    /\ virtual_cam (result_self r) = virtual_cam self
    /\ server (result_self r)
       = Some {| frame_bytes := None; serving := true; http_socket_open := true |}
    /\ camera_frames (result_out (update_run calls (result_self r))) = [].
Proof.
  intros v t self calls Hv r.
  assert (A : raised r = false
              /\ use_virtual_cam (result_self r) = false
              /\ virtual_cam (result_self r) = virtual_cam self
              /\ server (result_self r)
                 = Some {| frame_bytes := None; serving := true;
                           http_socket_open := true |}).
  { unfold r, Motion.start. cbn [http_bind_ok vcam_answer tcp_bind_ok negb].
    destruct (use_virtual_cam self) eqn:U; cbn [set_server use_virtual_cam];
      rewrite U; destruct Hv as [-> | ->]; destruct t; cbn;
      repeat split; try reflexivity; exact U. }
  destruct A as (A1 & A2 & A3 & A4).
  split; [exact A1|]. split; [exact A2|]. split; [exact A3|]. split; [exact A4|].
  apply update_run_without_camera. exact A2.
Qed.

Lemma X6_witness :
  let r := Motion.start {| http_bind_ok := true; vcam_answer := VcamFailed;
                           tcp_bind_ok := true |} fresh_server in
  use_virtual_cam fresh_server = true
  /\ use_virtual_cam (result_self r) = false
  /\ camera_frames
       (result_out (update_run [ (env_ok, solid_frame 2 1); (env_ok, solid_frame 2 1) ]
                      (result_self r))) = [].
Proof.
  intros r. split; [reflexivity|].
  destruct (X6_camera_failure_switches_the_camera_off VcamFailed true fresh_server
              [ (env_ok, solid_frame 2 1); (env_ok, solid_frame 2 1) ]
              (or_intror eq_refl))
    as (_ & U & _ & _ & C).
  split; [exact U | exact C].
Defined.

Lemma tcp_step_sockets (env : Env) (self : StreamingServer) (frame : Frame) :
  tcp_socket (fst (Motion.tcp_step env self frame)) = tcp_socket self
  /\ tcp_thread (fst (Motion.tcp_step env self frame)) = tcp_thread self
  /\ tcp_client (fst (Motion.tcp_step env self frame)) = tcp_client self.
Proof.
  unfold Motion.tcp_step.
  destruct (Motion.build_packet env self frame) as [[[p w] h]|];
    repeat split; reflexivity.
Qed.

Lemma update_frame_sockets (env : Env) (self : StreamingServer) (frame : Frame) :
  tcp_socket (result_self (Motion.update_frame env self frame)) = tcp_socket self
  /\ tcp_thread (result_self (Motion.update_frame env self frame)) = tcp_thread self
  /\ tcp_client (result_self (Motion.update_frame env self frame)) = tcp_client self.
Proof.
  unfold Motion.update_frame.
  destruct (cv_imencode env frame) as [fd|]; [|repeat split; reflexivity].
  pose proof (tcp_step_sockets env (Motion.publish_jpeg self fd) frame) as (A & B & C).
  destruct (Motion.tcp_step env (Motion.publish_jpeg self fd) frame) as [s4 o4].
  cbn [fst result_self] in *. rewrite A, B, C.
  unfold Motion.publish_jpeg. destruct (server self); repeat split; reflexivity.
Qed.

(** X7. When the TCP port cannot be bound, [start()] reports it and
    still returns with the HTTP server running: [tcp_socket] is [None]
    and no accept-loop thread is created.  Frames handed to
    [update_frame] afterwards are still published to the HTTP handlers
    and their packets are still built, although there is no socket left
    through which a TCP client could ever fetch them. *)
Theorem X7_tcp_bind_failure_keeps_http_alive :
  forall (v : VcamAnswer) (self : StreamingServer),
    let r := Motion.start {| http_bind_ok := true; vcam_answer := v;
                             tcp_bind_ok := false |} self in
    raised r = false
    /\ tcp_socket (result_self r) = None
    /\ tcp_thread (result_self r) = tcp_thread self
    /\ In (EPrint (TcpSocketCreationFailed OSError)) (result_out r)
    /\ server (result_self r)
       = Some {| frame_bytes := None; serving := true; http_socket_open := true |}
    /\ (forall env : LoopEnv,
          Motion.tcp_accept_loop_step env (result_self r) Listening
          = (result_self r, Closed, []))
    /\ forall (env : Env) (frame : Frame) (frame_data : bytes),
         cv_imencode env frame = Some frame_data ->
         let self' := result_self (Motion.update_frame env (result_self r) frame) in
         published_jpeg self' = Some frame_data
         /\ tcp_socket self' = None
         /\ (forall packet w h,
               Motion.build_packet env self frame = Some (packet, w, h) ->
               latest_frame_data self' = Some packet).
Proof.
  intros v self r.
  assert (A : raised r = false
              /\ tcp_socket (result_self r) = None
              /\ tcp_thread (result_self r) = tcp_thread self
              /\ In (EPrint (TcpSocketCreationFailed OSError)) (result_out r)
              /\ server (result_self r)
                 = Some {| frame_bytes := None; serving := true;
                           http_socket_open := true |}
              /\ max_width (result_self r) = max_width self
              /\ max_height (result_self r) = max_height self).
  { unfold r, Motion.start. cbn [http_bind_ok vcam_answer tcp_bind_ok negb].
    destruct (use_virtual_cam self) eqn:U; cbn [set_server use_virtual_cam];
      rewrite U; [destruct v|]; cbn; repeat split; try reflexivity;
      repeat (first [left; reflexivity | right]). }
  destruct A as (A1 & A2 & A3 & A4 & A5 & A6 & A7).
  split; [exact A1|]. split; [exact A2|]. split; [exact A3|]. split; [exact A4|].
  split; [exact A5|]. split.
  - intros env. unfold Motion.tcp_accept_loop_step. rewrite A2. reflexivity.
  - intros env frame fd E self'.
    destruct (update_frame_isolates_guarded_blocks env (result_self r) frame fd E)
      as (s' & out & R & J & P).
    pose proof (update_frame_sockets env (result_self r) frame) as (S & _).
    unfold self'. rewrite R in *. cbn [result_self] in *.
    rewrite A5 in J. split; [exact J|]. split; [congruence|].
    intros packet w h B.
    rewrite (build_packet_config env self (result_self r) frame A6 A7) in P.
    rewrite B in P. apply P.
Qed.

(** ** [stop()] and the accept-loop thread *)

Lemma stop_closes (env : StopEnv) (self : StreamingServer) :
  let s := result_self (Motion.stop env self) in
  server s = option_map Motion.shutdown (server self)
  /\ tcp_client s = (if client_close_ok env
                     then option_map Motion.close_socket (tcp_client self)
                     else tcp_client self)
  /\ tcp_socket s = (if socket_close_ok env
                     then option_map Motion.close_socket (tcp_socket self)
                     else tcp_socket self)
  /\ virtual_cam s = (if cam_close_ok env
                      then option_map Motion.close_camera (virtual_cam self)
                      else virtual_cam self).
Proof.
  destruct env as [b1 b2 b3].
  destruct self as [p tp [h|] th [so|] [cl|] tt mw mh fc lf uv [ca|] lp];
    destruct b1, b2, b3; vm_compute; repeat split.
Qed.


Lemma unreachable_step (env : LoopEnv) (self : StreamingServer) (st : LoopState) :
  unreachable self ->
  fst (fst (Motion.tcp_accept_loop_step env self st)) = self
  /\ sent_messages (snd (Motion.tcp_accept_loop_step env self st)) = [].
Proof.
  intros [Uc Us]. destruct st; cbn.
  - destruct (tcp_socket self) as [sock|]; [|split; reflexivity].
    cbn in Us. destruct (sock_open sock); [discriminate Us|]. split; reflexivity.
  - destruct (tcp_client self) as [c|]; [|split; reflexivity].
    cbn in Uc. destruct (sock_open c); [discriminate Uc|].
    destruct (truthy (latest_frame_data self)); split; reflexivity.
  - split; reflexivity.
Qed.

Lemma stop_ok_unreachable (self : StreamingServer) :
  unreachable (result_self (Motion.stop stop_ok self)).
Proof.
  destruct self as [p tp [h|] th [so|] [cl|] tt mw mh fc lf uv [ca|] lp];
    split; reflexivity.
Qed.

(** The turn-by-turn loop is the statement-by-statement one with the
    assignment of the client taken in the same step as [accept()]. *)
Lemma accept_loop_step_refines (env : LoopEnv) (self : StreamingServer)
    (st : LoopState) :
  let fine := accept_loop_step env self (point_of st) in
  match snd (fst fine) with
  | HasAccepted addr =>
      Motion.tcp_accept_loop_step env self st
      = (fst (fst (accept_loop_step env (fst (fst fine)) (HasAccepted addr))),
         Sending,
         snd fine ++ snd (accept_loop_step env (fst (fst fine)) (HasAccepted addr)))
  | pt =>
      exists st' : LoopState,
        pt = point_of st'
        /\ Motion.tcp_accept_loop_step env self st = (fst (fst fine), st', snd fine)
  end.
Proof.
  destruct st; cbn.
  - destruct (tcp_socket self) as [sock|]; [|exists Closed; split; reflexivity].
    destruct (if sock_open sock then accept_answer env else AcceptFailed); cbn.
    + reflexivity.
    + exists Listening. split; reflexivity.
    + exists Closed. split; reflexivity.
  - destruct (tcp_client self) as [c|]; [|exists Listening; split; reflexivity].
    destruct (truthy (latest_frame_data self));
      [|exists Sending; split; reflexivity].
    destruct (sock_open c && send_ok env);
      [exists Sending | exists Listening]; split; reflexivity.
  - exists Closed. split; reflexivity.
Qed.

Lemma unreachable_point_step (env : LoopEnv) (self : StreamingServer) (pt : LoopPoint) :
  unreachable self ->
  (forall addr, pt <> HasAccepted addr) ->
  fst (fst (accept_loop_step env self pt)) = self
  /\ sent_messages (snd (accept_loop_step env self pt)) = []
  /\ forall addr, snd (fst (accept_loop_step env self pt)) <> HasAccepted addr.
Proof.
  intros [Uc Us] N. destruct pt as [|a| |]; cbn.
  - destruct (tcp_socket self) as [sock|]; [|repeat split; discriminate].
    cbn in Us. destruct (sock_open sock); [discriminate Us|].
    repeat split; discriminate.
  - exfalso. apply (N a). reflexivity.
  - destruct (tcp_client self) as [c|]; [|repeat split; discriminate].
    cbn in Uc. destruct (sock_open c); [discriminate Uc|].
    destruct (truthy (latest_frame_data self)); repeat split; discriminate.
  - repeat split; discriminate.
Qed.

Lemma unreachable_point_run (envs : list LoopEnv) (self : StreamingServer)
    (pt : LoopPoint) :
  unreachable self ->
  (forall addr, pt <> HasAccepted addr) ->
  fst (fst (accept_loop_run envs self pt)) = self
  /\ sent_messages (snd (accept_loop_run envs self pt)) = [].
Proof.
  intros U. revert pt. induction envs as [|env envs IH]; intros pt N;
    [split; reflexivity|].
  cbn [accept_loop_run].
  destruct (unreachable_point_step env self pt U N) as (S1 & M1 & N1).
  destruct (accept_loop_step env self pt) as [[s1 pt1] o1].
  cbn [fst snd] in *. subst s1.
  destruct (IH pt1 N1) as [S2 M2].
  destruct (accept_loop_run envs self pt1) as [[s2 pt2] o2]. cbn [fst snd] in *.
  split; [exact S2|]. rewrite sent_messages_app, M1, M2. reflexivity.
Qed.

Lemma serving_client_run (envs : list LoopEnv) (self : StreamingServer)
    (addr : Z) (data : bytes) :
  tcp_client self = Some {| sock_peer := addr; sock_open := true |} ->
  truthy (latest_frame_data self) = Some data ->
  Forall (fun env => send_ok env = true) envs ->
  fst (fst (accept_loop_run envs self AtSend)) = self
  /\ sent_messages (snd (accept_loop_run envs self AtSend))
     = repeat (addr, data) (length envs).
Proof.
  intros C T F. induction F as [|env envs Ok F IH]; [split; reflexivity|].
  cbn [accept_loop_run accept_loop_step]. rewrite C, T. cbn [sock_open sock_peer andb].
  rewrite Ok. destruct IH as [I1 I2].
  destruct (accept_loop_run envs self AtSend) as [[s2 pt2] o2]. cbn [fst snd] in *.
  split; [exact I1|]. cbn. rewrite I2. reflexivity.
Qed.

(** X9. After a [stop()] whose closes went through, a thread that is
    about to call [accept()], that stands at the head of its inner loop,
    or that is past its loops, never sends another message and never
    takes another client.  A thread to which [accept()] hands a client
    that [stop()] did not see is another matter: it assigns this client
    to [self.tcp_client] after [stop()] has closed the previous one, and
    goes on sending the latest packet to it on every turn: [stop()] does
    not end that connection. *)
Theorem X9_after_stop_only_a_client_being_accepted_is_served :
  forall (self : StreamingServer) (envs : list LoopEnv),
    let s := result_self (Motion.stop stop_ok self) in
    (forall pt : LoopPoint,
        (forall addr, pt <> HasAccepted addr) ->
        sent_messages (snd (accept_loop_run envs s pt)) = []
        /\ fst (fst (accept_loop_run envs s pt)) = s)
    /\ (forall (addr : Z) (data : bytes) (env0 : LoopEnv),
          truthy (latest_frame_data self) = Some data ->
          Forall (fun env => send_ok env = true) envs ->
          sent_messages (snd (accept_loop_run (env0 :: envs) s (HasAccepted addr)))
          = repeat (addr, data) (length envs)
          /\ tcp_client (fst (fst (accept_loop_run (env0 :: envs) s (HasAccepted addr))))
             = Some {| sock_peer := addr; sock_open := true |}).
Proof.
  intros self envs s. split.
  - intros pt N.
    destruct (unreachable_point_run envs s pt (stop_ok_unreachable self) N) as [A B].
    split; assumption.
  - intros addr data env0 T F.
    assert (Ts : truthy (latest_frame_data s) = Some data).
    { pose proof (stop_fields stop_ok self) as (_ & L & _). fold s in L. cbv zeta in L.
      rewrite L. exact T. }
    clearbody s. cbn [accept_loop_run accept_loop_step].
    set (s1 := set_tcp_client s (Some {| sock_peer := addr; sock_open := true |})).
    destruct (serving_client_run envs s1 addr data eq_refl Ts F) as [I1 I2].
    destruct (accept_loop_run envs s1 AtSend) as [[s2 pt2] o2]. cbn [fst snd] in *.
    split; [exact I2|]. rewrite I1. reflexivity.
Qed.

Lemma unreachable_listening (env : LoopEnv) (self : StreamingServer) :
  unreachable self ->
  snd (fst (Motion.tcp_accept_loop_step env self Listening)) = Closed.
Proof.
  intros [_ Us]. cbn. destruct (tcp_socket self) as [sock|]; [|reflexivity].
  cbn in Us. destruct (sock_open sock); [discriminate Us | reflexivity].
Qed.

Lemma unreachable_sending (env : LoopEnv) (self : StreamingServer) (data : bytes) :
  unreachable self ->
  truthy (latest_frame_data self) = Some data ->
  snd (fst (Motion.tcp_accept_loop_step env self Sending)) = Listening.
Proof.
  intros [Uc _] T. cbn. destruct (tcp_client self) as [c|]; [|reflexivity].
  cbn in Uc. destruct (sock_open c); [discriminate Uc|].
  rewrite T. reflexivity.
Qed.

Lemma loop_run_closed (envs : list LoopEnv) (self : StreamingServer) :
  snd (fst (loop_run envs self Closed)) = Closed.
Proof.
  induction envs as [|e es IH]; [reflexivity|].
  cbn [loop_run Motion.tcp_accept_loop_step].
  destruct (loop_run es self Closed) as [[s2 st2] o2]. exact IH.
Qed.

Lemma loop_run_state_cons (env : LoopEnv) (envs : list LoopEnv)
    (self : StreamingServer) (st : LoopState) :
  snd (fst (loop_run (env :: envs) self st))
  = snd (fst (loop_run envs (fst (fst (Motion.tcp_accept_loop_step env self st)))
                (snd (fst (Motion.tcp_accept_loop_step env self st))))).
Proof.
  cbn [loop_run].
  destruct (Motion.tcp_accept_loop_step env self st) as [[s1 st1] o1].
  cbn [fst snd]. destruct (loop_run envs s1 st1) as [[s2 st2] o2]. reflexivity.
Qed.

Lemma unreachable_run_listening (env : LoopEnv) (envs : list LoopEnv)
    (self : StreamingServer) :
  unreachable self ->
  snd (fst (loop_run (env :: envs) self Listening)) = Closed.
Proof.
  intros U. rewrite loop_run_state_cons.
  rewrite (proj1 (unreachable_step env self Listening U)).
  rewrite (unreachable_listening env self U).
  apply loop_run_closed.
Qed.

(** X10. After such a [stop()], a thread that was sending a packet to
    its client ends within two turns: the send raises, the inner loop
    breaks, [accept()] on the closed socket raises, and the thread
    leaves its loop for good. *)
Theorem X10_accept_loop_ends_after_stop :
  forall (self : StreamingServer) (data : bytes) (env1 env2 : LoopEnv)
         (envs : list LoopEnv),
    truthy (latest_frame_data self) = Some data ->
    let s := result_self (Motion.stop stop_ok self) in
    snd (fst (loop_run (env1 :: env2 :: envs) s Sending)) = Closed
    /\ snd (fst (loop_run (env1 :: envs) s Listening)) = Closed.
Proof.
  intros self data env1 env2 envs T s.
  pose proof (stop_ok_unreachable self) as U. fold s in U.
  assert (Ts : truthy (latest_frame_data s) = Some data).
  { pose proof (stop_fields stop_ok self) as (_ & L & _). fold s in L. cbv zeta in L.
    rewrite L. exact T. }
  clearbody s.
  split; [|apply unreachable_run_listening; exact U].
  rewrite loop_run_state_cons.
  rewrite (proj1 (unreachable_step env1 s Sending U)).
  rewrite (unreachable_sending env1 s data U Ts).
  apply unreachable_run_listening. exact U.
Qed.

Lemma X10_witness :
  let self := result_self (Motion.update_frame env_ok connected_server (solid_frame 2 1)) in
  tcp_client self = Some {| sock_peer := 7; sock_open := true |}
  /\ snd (fst (loop_run [tick_ok; tick_ok; tick_ok]
                 (result_self (Motion.stop stop_ok self)) Sending)) = Closed.
Proof.
  intros self. split; [reflexivity|].
  exact (proj1 (X10_accept_loop_ends_after_stop self
                  (spec_packet 2 1 (swap_channels (f_data (solid_frame 2 1))))
                  tick_ok tick_ok [tick_ok] eq_refl)).
Defined.

Lemma build_packet_not_empty (env : Env) (self : StreamingServer) (frame : Frame)
    (packet : bytes) (w h : Z) :
  Motion.build_packet env self frame = Some (packet, w, h) ->
  truthy (Some packet) = Some packet.
Proof.
  unfold Motion.build_packet.
  destruct (cv_cvtColor_BGR2RGB frame) as [rgb|]; [|discriminate]. cbn [bind].
  destruct (if (f_width rgb >? max_width self) || (f_height rgb >? max_height self)
            then _ else Some rgb) as [rgb2|]; [|discriminate].
  cbn [bind].
  destruct (struct_pack_ii (f_width rgb2) (f_height rgb2)) as [dims|]; [|discriminate].
  cbn [bind]. change (struct_pack_i 1) with (Some [x01; x00; x00; x00]).
  change (struct_pack_i 3) with (Some [x03; x00; x00; x00]).
  change (struct_pack_i (Z.of_nat (length (@nil byte))))
    with (Some [x00; x00; x00; x00]).
  change (struct_pack_i 2) with (Some [x02; x00; x00; x00]).
  cbn [bind app]. intros E. injection E as <- _ _. reflexivity.
Qed.

Lemma quiet_action_keeps (self : StreamingServer) (a : Action) (s : StreamingServer)
    (client : Socket) :
  builds_nothing self a = true ->
  max_width s = max_width self -> max_height s = max_height self ->
  tcp_client s = Some client ->
  truthy (latest_frame_data s) = None ->
  let r := session [ a ] s Sending in
  snd (fst r) = Sending
  /\ sent_messages (snd r) = []
  /\ max_width (fst (fst r)) = max_width self
  /\ max_height (fst (fst r)) = max_height self
  /\ tcp_client (fst (fst r)) = Some client
  /\ truthy (latest_frame_data (fst (fst r))) = None.
Proof.
  intros Q Mw Mh C T. destruct a as [env frame | env]; cbn [session builds_nothing] in *.
  - pose proof (update_frame_sends_nothing env s frame) as Sn.
    pose proof (update_frame_bounds env s frame) as [Bw Bh].
    pose proof (update_frame_sockets env s frame) as (_ & _ & Cl).
    assert (L : latest_frame_data (result_self (Motion.update_frame env s frame))
                = latest_frame_data s).
    { destruct (cv_imencode env frame) as [fd|] eqn:E.
      - destruct (update_frame_isolates_guarded_blocks env s frame fd E)
          as (s' & out & R & _ & P).
        rewrite R. cbn [result_self].
        unfold packet_built in Q. cbn [fst snd] in Q.
        rewrite <- (build_packet_config env self s frame Mw Mh) in Q.
        destruct (Motion.build_packet env s frame) as [[[p w] h]|];
          [discriminate Q | apply P].
      - unfold Motion.update_frame. rewrite E. reflexivity. }
    cbn [fst snd]. rewrite app_nil_r.
    split; [reflexivity|]. split; [exact Sn|].
    split; [congruence|]. split; [congruence|]. split; [congruence|].
    rewrite L. exact T.
  - rewrite (send_turn_nothing env s client C T). cbn.
    repeat split; assumption.
Qed.

Lemma session_cons (a : Action) (acts : list Action) (self : StreamingServer)
    (st : LoopState) :
  session (a :: acts) self st
  = let '(s1, st1, o1) := session [ a ] self st in
    let '(s2, st2, o2) := session acts s1 st1 in
    (s2, st2, o1 ++ o2).
Proof.
  destruct a as [env frame | env]; cbn [session].
  - destruct (session acts _ st) as [[s2 st2] o2]. rewrite app_nil_r. reflexivity.
  - destruct (Motion.tcp_accept_loop_step env self st) as [[s1 st1] o1].
    destruct (session acts s1 st1) as [[s2 st2] o2]. rewrite app_nil_r. reflexivity.
Qed.

Lemma quiet_session_keeps (self : StreamingServer) (acts : list Action)
    (s : StreamingServer) (client : Socket) :
  forallb (builds_nothing self) acts = true ->
  max_width s = max_width self -> max_height s = max_height self ->
  tcp_client s = Some client ->
  truthy (latest_frame_data s) = None ->
  snd (fst (session acts s Sending)) = Sending
  /\ sent_messages (snd (session acts s Sending)) = [].
Proof.
  revert s. induction acts as [|a acts IH]; intros s Q Mw Mh C T;
    [split; reflexivity|].
  cbn [forallb] in Q. apply andb_true_iff in Q. destruct Q as [Qa Q].
  rewrite session_cons.
  destruct (quiet_action_keeps self a s client Qa Mw Mh C T)
    as (A1 & A2 & A3 & A4 & A5 & A6).
  cbv zeta in A1, A2, A3, A4, A5, A6.
  destruct (session [ a ] s Sending) as [[s1 st1] o1]. cbn [fst snd] in *. subst st1.
  destruct (IH s1 Q A3 A4 A5 A6) as [B1 B2].
  destruct (session acts s1 Sending) as [[s2 st2] o2]. cbn [fst snd] in *.
  split; [exact B1|]. rewrite sent_messages_app, A2, B2. reflexivity.
Qed.

(** X11. A [stop()] that has returned while a client was connected and
    before any packet was built leaves the accept-loop thread in its
    inner loop for as long as no packet is built: with nothing to send,
    no send can raise, and [tcp_client] is never reset, so the thread
    only sleeps, whatever turns it takes and whatever [update_frame]
    calls fail in between.  It is the first packet built after
    [stop()] that ends the thread: when the closes of [stop()] went
    through, the next send raises, [accept()] raises on the closed
    socket, and the thread is past its loop two turns later. *)
Theorem X11_stopped_thread_sleeps_until_the_next_packet :
  forall (env : StopEnv) (self : StreamingServer) (client : Socket)
         (acts : list Action),
    tcp_client self = Some client ->
    truthy (latest_frame_data self) = None ->
    let s := result_self (Motion.stop env self) in
    (forallb (builds_nothing self) acts = true ->
     snd (fst (session acts s Sending)) = Sending
     /\ sent_messages (snd (session acts s Sending)) = [])
    /\ (forall (penv : Env) (frame : Frame) (frame_data packet : bytes) (w h : Z)
               (env1 env2 : LoopEnv),
          client_close_ok env = true -> socket_close_ok env = true ->
          cv_imencode penv frame = Some frame_data ->
          Motion.build_packet penv self frame = Some (packet, w, h) ->
          snd (fst (session [ Produce penv frame; Turn env1; Turn env2 ] s Sending))
          = Closed
          /\ sent_messages
               (snd (session [ Produce penv frame; Turn env1; Turn env2 ] s Sending))
             = []).
Proof.
  intros env self client acts C T s.
  pose proof (stop_fields env self)
    as (_ & L & _ & _ & _ & _ & _ & _ & Mw & Mh & _).
  pose proof (stop_closes env self) as (_ & Cl & So & _).
  fold s in L, Mw, Mh, Cl, So. cbv zeta in L, Mw, Mh, Cl, So.
  split.
  - intros Q.
    assert (Cs : exists c, tcp_client s = Some c).
    { rewrite Cl, C. destruct (client_close_ok env); eexists; reflexivity. }
    destruct Cs as (c & Cs).
    apply (quiet_session_keeps self acts s c Q Mw Mh Cs). rewrite L. exact T.
  - intros penv frame fd packet w h env1 env2 Ec Es E B.
    rewrite Ec in Cl. rewrite Es in So. rewrite C in Cl. cbn [option_map] in Cl.
    destruct (update_frame_isolates_guarded_blocks penv s frame fd E)
      as (s' & out & R & _ & P).
    rewrite (build_packet_config penv self s frame Mw Mh), B in P.
    destruct P as [Lp _].
    pose proof (update_frame_sockets penv s frame) as (So' & _ & Cl').
    pose proof (update_frame_sends_nothing penv s frame) as Sn.
    rewrite R in So', Cl', Sn. cbn [result_self result_out] in So', Cl', Sn.
    cbn [session]. rewrite R. cbn [result_self result_out].
    assert (U : unreachable s').
    { split; [rewrite Cl', Cl; reflexivity|].
      rewrite So', So. destruct (tcp_socket self); reflexivity. }
    assert (Tp : truthy (latest_frame_data s') = Some packet).
    { rewrite Lp. apply (build_packet_not_empty penv self frame packet w h B). }
    pose proof (unreachable_step env1 s' Sending U) as [S1 M1].
    pose proof (unreachable_sending env1 s' packet U Tp) as St1.
    destruct (Motion.tcp_accept_loop_step env1 s' Sending) as [[s1 st1] o1].
    cbn [fst snd] in S1, M1, St1. subst s1 st1.
    pose proof (unreachable_step env2 s' Listening U) as [S2 M2].
    pose proof (unreachable_listening env2 s' U) as St2.
    destruct (Motion.tcp_accept_loop_step env2 s' Listening) as [[s2 st2] o2].
    cbn [fst snd] in S2, M2, St2 |- *. subst s2 st2.
    split; [reflexivity|].
    rewrite !sent_messages_app, Sn, M1, M2. reflexivity.
Qed.

Lemma X11_witness :
  let acts := [ Turn tick_ok; Produce env_ok empty_frame; Turn tick_ok;
                Turn tick_send_fails ] in
  let s := result_self (Motion.stop stop_ok connected_server) in
  truthy (latest_frame_data connected_server) = None
  /\ snd (fst (session acts s Sending)) = Sending
  /\ snd (fst (session [ Produce env_ok (solid_frame 2 1); Turn tick_ok; Turn tick_ok ]
                 s Sending)) = Closed.
Proof.
  intros acts s.
  assert (T : truthy (latest_frame_data connected_server) = None) by reflexivity.
  split; [exact T|].
  destruct (X11_stopped_thread_sleeps_until_the_next_packet stop_ok connected_server
              {| sock_peer := 7; sock_open := true |} acts eq_refl T) as [Q P].
  split.
  - exact (proj1 (Q eq_refl)).
  - exact (proj1 (P env_ok (solid_frame 2 1) [xff; xd8; xff; xd9]
                    (spec_packet 2 1 (swap_channels (f_data (solid_frame 2 1)))) 2 1
                    tick_ok tick_ok eq_refl eq_refl eq_refl eq_refl)).
Defined.

(** ** The HTTP handler *)

Lemma bytes_eqb_refl (a : bytes) : bytes_eqb a a = true.
Proof.
  unfold bytes_eqb. destruct (list_eq_dec Byte.byte_eq_dec a a); congruence.
Qed.

Lemma read_part_calls (at_header at_body : bytes) (rest : list HttpOut) :
  spec_read_parts (part_calls at_header at_body ++ rest)
  = if part_whole (at_header, at_body)
    then match spec_read_parts rest with
         | Some bodies => Some (at_body :: bodies)
         | None => None
         end
    else None.
Proof.
  unfold part_calls, part_whole. cbn [app spec_read_parts fst snd].
  rewrite !bytes_eqb_refl. cbn [andb String.eqb Ascii.eqb Bool.eqb].
  destruct (Nat.eqb_spec (length at_header) (length at_body)) as [E|N].
  - rewrite E, Z.eqb_refl. reflexivity.
  - destruct (Z.eqb_spec (Z.of_nat (length at_header)) (Z.of_nat (length at_body)));
      [lia | reflexivity].
Qed.

Lemma read_parts_completed (parts : list (bytes * bytes)) :
  spec_read_parts (flat_map (fun p => part_calls (fst p) (snd p)) parts)
  = if forallb part_whole parts then Some (map snd parts) else None.
Proof.
  induction parts as [|[h b] parts IH]; [reflexivity|].
  cbn [flat_map fst snd forallb map]. rewrite read_part_calls, IH.
  destruct (part_whole (h, b)); [|reflexivity].
  destruct (forallb part_whole parts); reflexivity.
Qed.

Lemma stream_written_parts (turns : list StreamTurn) :
  exists tail : list HttpOut,
    stream_written turns
    = flat_map (fun p => part_calls (fst p) (snd p)) (parts_completed turns) ++ tail
    /\ (length tail <= 5)%nat.
Proof.
  induction turns as [|t turns IH].
  { exists []. split; [reflexivity | cbn; lia]. }
  destruct t as [|h b [w|]]; cbn [stream_written parts_completed flat_map].
  - exact IH.
  - exists (firstn (calls_before w) (part_calls h b)). split; [reflexivity|].
    destruct w; cbn; lia.
  - destruct IH as (tail & E & L). exists tail. split; [|exact L].
    cbn [fst snd]. rewrite E, <- app_assoc. reflexivity.
Qed.

(** The coarser handler is the finer one with a single read per part
    and failures at the first write only. *)
Lemma stream_loop_written (turns : list (HTTPServer * bool)) :
  Motion.stream_loop turns = stream_written (map stream_turn_of turns).
Proof.
  induction turns as [|[h ok] turns IH]; [reflexivity|].
  cbn [Motion.stream_loop map]. unfold stream_turn_of at 1. cbn [fst snd].
  destruct (frame_bytes h) as [fb|]; [|exact IH].
  destruct ok; cbn [stream_written]; [|reflexivity].
  rewrite IH. reflexivity.
Qed.

(** X12. What the handler of [/stream] writes is the response head,
    then the parts it wrote to their end, then at most the first calls
    of one part cut short by the write that failed.  The completed parts
    read back as a multipart stream, giving the JPEG bodies in order,
    exactly when every part announces the length of its own body.  The
    handler reads [frame_bytes] once for the [Content-Length] and again
    for the body: a part during which the producer replaced the JPEG by
    one of another length is torn, and the stream no longer reads
    back. *)
Theorem X12_stream_reads_back_unless_a_part_is_torn :
  forall turns : list StreamTurn,
    let parts := parts_completed turns in
    let whole := flat_map (fun p => part_calls (fst p) (snd p)) parts in
    (exists tail : list HttpOut,
       do_GET_stream false turns = (stream_head ++ whole ++ tail, None)
       /\ (length tail <= 5)%nat)
    /\ spec_read_stream (stream_head ++ whole)
       = (if forallb part_whole parts then Some (map snd parts) else None)
    /\ (forall (at_header at_body : bytes),
          length at_header <> length at_body ->
          spec_read_stream (fst (do_GET_stream false [ Part at_header at_body None ]))
          = None).
Proof.
  intros turns parts whole. split; [|split].
  - destruct (stream_written_parts turns) as (tail & E & L).
    exists tail. split; [|exact L].
    unfold do_GET_stream. rewrite E. reflexivity.
  - change (spec_read_parts whole
            = if forallb part_whole parts then Some (map snd parts) else None).
    apply read_parts_completed.
  - intros h b N. cbn [do_GET_stream fst stream_written].
    change (spec_read_parts (part_calls h b ++ []) = None).
    rewrite read_part_calls. unfold part_whole. cbn [fst snd].
    destruct (Nat.eqb_spec (length h) (length b)); [contradiction | reflexivity].
Qed.

Lemma update_frame_server (env : Env) (self : StreamingServer) (frame : Frame)
    (h : HTTPServer) :
  server self = Some h ->
  exists h', server (result_self (Motion.update_frame env self frame)) = Some h'
             /\ (forall frame_data, cv_imencode env frame = Some frame_data ->
                 frame_bytes h' = Some frame_data).
Proof.
  intros S. destruct (cv_imencode env frame) as [fd|] eqn:E.
  - destruct (update_frame_isolates_guarded_blocks env self frame fd E)
      as (self' & out & R & J & _).
    rewrite R. cbn [result_self]. rewrite S in J. unfold published_jpeg in J.
    destruct (server self') as [h'|]; [|discriminate J].
    exists h'. split; [reflexivity|]. intros fd' E'. congruence.
  - unfold Motion.update_frame. rewrite E. cbn [result_self].
    exists h. split; [exact S|]. intros fd' E'. discriminate E'.
Qed.

Lemma update_run_server (calls : list (Env * Frame)) (self : StreamingServer)
    (h : HTTPServer) :
  server self = Some h ->
  exists h', server (result_self (update_run calls self)) = Some h'.
Proof.
  revert self h. induction calls as [|[env frame] calls IH]; intros self h S.
  { exists h. exact S. }
  cbn [update_run].
  destruct (update_frame_server env self frame h S) as (h1 & S1 & _).
  destruct (Motion.update_frame env self frame) as [s1 o1|e s1 o1];
    cbn [result_self] in *; [|exists h1; exact S1].
  destruct (IH s1 h1 S1) as (h2 & S2). exists h2.
  destruct (update_run calls s1); exact S2.
Qed.

(** X13. The snapshot at [/frame.jpg] follows the producer: on a server
    that has just been started it answers 404; after any number of
    [update_frame] calls it answers 200 with the JPEG of the last frame
    whose encoding succeeded, and a [Content-Length] equal to the length
    of that JPEG. *)
Theorem X13_snapshot_serves_the_latest_jpeg :
  forall (senv : StartEnv) (self : StreamingServer) (calls : list (Env * Frame))
         (env : Env) (frame : Frame) (frame_data : bytes)
         (turns : list (HTTPServer * bool)),
    http_bind_ok senv = true ->
    cv_imencode env frame = Some frame_data ->
    let s1 := result_self (Motion.start senv self) in
    let s2 := result_self (Motion.update_frame env
                             (result_self (update_run calls s1)) frame) in
    exists h1 h2 : HTTPServer,
      server s1 = Some h1 /\ server s2 = Some h2
      /\ Motion.do_GET h1 "/frame.jpg" turns = [ SendResponse 404; EndHeaders ]
      /\ Motion.do_GET h2 "/frame.jpg" turns
         = [ SendResponse 200;
             SendHeader "Content-Type" (HStr "image/jpeg");
             SendHeader "Content-Length" (HInt (Z.of_nat (length frame_data)));
             SendHeader "Cache-Control" (HStr "no-cache");
             EndHeaders;
             Write frame_data ].
Proof.
  intros senv self calls env frame fd turns Hb E s1 s2.
  assert (S1 : server s1 = Some {| frame_bytes := None; serving := true;
                                   http_socket_open := true |}).
  { unfold s1, Motion.start. rewrite Hb. cbn [negb].
    destruct (use_virtual_cam (set_server self _ _)); [destruct (vcam_answer senv)|];
      destruct (tcp_bind_ok senv); reflexivity. }
  destruct (update_run_server calls s1 _ S1) as (hr & Sr).
  destruct (update_frame_server env _ frame hr Sr) as (h2 & S2 & F2).
  exists {| frame_bytes := None; serving := true; http_socket_open := true |}, h2.
  split; [exact S1|]. split; [exact S2|]. split; [reflexivity|].
  unfold Motion.do_GET.
  change ("/frame.jpg" =? "/stream")%string with false.
  change ("/frame.jpg" =? "/frame.jpg")%string with true.
  cbn iota. rewrite (F2 fd E). reflexivity.
Qed.

Lemma X13_witness :
  exists h2 : HTTPServer,
    server (result_self (Motion.update_frame env_ok
                           (result_self (update_run [ (env_ok, solid_frame 2 1) ]
                                           (result_self (Motion.start start_ok fresh_server))))
                           (solid_frame 1 1))) = Some h2
    /\ Motion.do_GET h2 "/frame.jpg" []
       = [ SendResponse 200;
           SendHeader "Content-Type" (HStr "image/jpeg");
           SendHeader "Content-Length" (HInt 4);
           SendHeader "Cache-Control" (HStr "no-cache");
           EndHeaders;
           Write [xff; xd8; xff; xd9] ].
Proof.
  destruct (X13_snapshot_serves_the_latest_jpeg start_ok fresh_server
              [ (env_ok, solid_frame 2 1) ] env_ok (solid_frame 1 1)
              [xff; xd8; xff; xd9] [] eq_refl eq_refl)
    as (h1 & h2 & _ & S2 & _ & G).
  exists h2. split; [exact S2 | exact G].
Defined.

(** ** The depth streamer *)

Lemma start_keeps_packet_fields (env : StartEnv) (self : StreamingServer) :
  let s := result_self (Motion.start env self) in
  max_width s = max_width self /\ max_height s = max_height self
  /\ frame_count s = frame_count self
  /\ latest_frame_data s = latest_frame_data self.
Proof.
  unfold Motion.start. destruct (http_bind_ok env); cbn [negb];
    [|repeat split; reflexivity].
  destruct (use_virtual_cam (set_server self _ _)); [destruct (vcam_answer env)|];
    destruct (tcp_bind_ok env); repeat split; reflexivity.
Qed.

Lemma depth_start_ok (env : StartEnv) (srv : StreamingServer) :
  depth_server_ok srv -> depth_server_ok (result_self (Depth.start env srv)).
Proof.
  intros (Mw & Mh & P). unfold depth_server_ok.
  rewrite (proj1 (depth_start env srv)).
  destruct (start_keeps_packet_fields env srv) as (A & B & C & D).
  cbv zeta in A, B, C, D. rewrite A, B, C, D. repeat split; assumption.
Qed.

Lemma depth_stop_ok (env : StopEnv) (srv : StreamingServer) :
  depth_server_ok srv -> depth_server_ok (result_self (Depth.stop env srv)).
Proof.
  intros (Mw & Mh & P). unfold depth_server_ok. rewrite depth_stop.
  destruct (stop_fields env srv)
    as (Fc & L & _ & _ & _ & _ & _ & _ & A & B & _).
  cbv zeta in Fc, L, A, B. rewrite Fc, L, A, B. repeat split; assumption.
Qed.

Lemma cv_resize_shape (env : Env) (src dst : Frame) (w h : Z) :
  cv_resize env src w h = Some dst ->
  valid_frame src ->
  f_width dst = w /\ f_height dst = h
  /\ (w <= int32_max -> h <= int32_max -> valid_frame dst).
Proof.
  unfold cv_resize. intros R V.
  destruct (frame_empty src); [discriminate R|].
  destruct (Z.leb_spec w 0); [discriminate R|].
  destruct (Z.leb_spec h 0); [discriminate R|].
  cbn [orb] in R. injection R as <-. cbn [f_width f_height f_data].
  split; [reflexivity|]. split; [reflexivity|].
  intros Hw Hh. unfold valid_frame. cbn [f_width f_height f_data].
  split; [lia|]. split; [lia|].
  rewrite length_map, length_seq, Z2Nat.id; nia.
Qed.

(** The picture that reaches [update_frame] in a turn, if the resize does
    not raise: always 640 by 480. *)
Lemma turn_picture_shape (env : Env) (picture dst : Frame) :
  valid_frame picture ->
  (if negb (f_width picture =? 640) || negb (f_height picture =? 480)
   then cv_resize env picture 640 480 else Some picture) = Some dst ->
  valid_frame dst /\ f_width dst = 640 /\ f_height dst = 480.
Proof.
  intros V R.
  destruct (Z.eqb_spec (f_width picture) 640) as [Ew|Nw];
    [destruct (Z.eqb_spec (f_height picture) 480) as [Eh|Nh]|];
    cbn [negb orb] in R.
  - injection R as <-. split; [exact V|]. split; assumption.
  - destruct (cv_resize_shape env picture dst 640 480 R V) as (A & B & C).
    split; [apply C; unfold int32_max; lia|]. split; assumption.
  - destruct (cv_resize_shape env picture dst 640 480 R V) as (A & B & C).
    split; [apply C; unfold int32_max; lia|]. split; assumption.
Qed.

Lemma update_frame_no_preparation_error (env : Env) (self : StreamingServer)
    (frame : Frame) :
  Motion.build_packet env self frame <> None ->
  ~ In (EPrint FramePreparationError)
       (result_out (Motion.update_frame env self frame)).
Proof.
  intros B. destruct (cv_imencode env frame) as [fd|] eqn:E.
  2:{ unfold Motion.update_frame. rewrite E. intros []. }
  rewrite (update_frame_returns env self frame fd E). cbn [result_out].
  destruct (publish_jpeg_config self fd) as (Mw & Mh & _).
  rewrite <- (build_packet_config env self (Motion.publish_jpeg self fd) frame Mw Mh)
    in B.
  set (self1 := Motion.publish_jpeg self fd) in *.
  intros H. apply in_app_or in H. destruct H as [H|H].
  { unfold Motion.file_step in H.
    destruct (cv_imwrite env (local_file_path self1) frame) as [[|]|];
      destruct (frame_count self1 =? 0); cbn in H;
      repeat (destruct H as [H|H]; [discriminate H|]); exact H. }
  apply in_app_or in H. destruct H as [H|H].
  { unfold Motion.vcam_step in H.
    destruct (use_virtual_cam self1 && _); [|exact H].
    destruct (Motion.vcam_body env self1 frame);
      [|destruct (frame_count self1 =? 0)]; cbn in H;
      repeat (destruct H as [H|H]; [discriminate H|]); exact H. }
  unfold Motion.tcp_step in H.
  destruct (Motion.build_packet env self1 frame) as [[[p w] h]|]; [|congruence].
  cbn [snd] in H.
  destruct (frame_count self1 + 1 =? 1);
    destruct ((frame_count self1 + 1) mod 30 =? 0); cbn in H;
    repeat (destruct H as [H|H]; [discriminate H|]); exact H.
Qed.

Lemma existsb_map_server (out : list Event) :
  existsb reports_preparation_error (map SServer out) = true ->
  In (EPrint FramePreparationError) out.
Proof.
  induction out as [|ev out IH]; [discriminate|].
  cbn [map existsb]. intros H. apply orb_true_iff in H. destruct H as [H|H].
  - left. destruct ev as [[]| | | | | |]; try discriminate H. reflexivity.
  - right. apply IH. exact H.
Qed.

(** One turn keeps the invariant of the depth server and reports no
    packet failure. *)
Lemma turn_keeps_depth_server (t : DepthTurn) (self : OAKDepthStreamer) :
  turn_has_valid_picture t ->
  depth_server_ok (streaming_server self) ->
  let r := Streamer.turn t self in
  depth_server_ok (streaming_server (fst (fst r)))
  /\ running (fst (fst r)) = running self
  /\ viewer (fst (fst r)) = viewer self
  /\ existsb reports_preparation_error (snd r) = false
  /\ frame_count (streaming_server (fst (fst r)))
     = frame_count (streaming_server self)
       + match snd (fst r) with None => 1 | Some _ => 0 end.
Proof.
  intros V Ok. destruct t as [picture closest env | e | ]; cbn [turn_has_valid_picture] in V.
  2,3: cbn [Streamer.turn fst snd]; split; [exact Ok|]; split; [reflexivity|];
    split; [reflexivity|]; split; [reflexivity | lia].
  unfold Streamer.turn. cbv zeta.
  set (out1 := match closest with
               | Some (x, y, z) => _
               | None => []
               end).
  assert (O1 : existsb reports_preparation_error out1 = false).
  { unfold out1. destruct closest as [[[x y] z]|]; [|reflexivity].
    destruct (_ =? 0); reflexivity. }
  destruct (if negb (f_width picture =? 640) || negb (f_height picture =? 480)
            then cv_resize env picture 640 480 else Some picture) as [dst|] eqn:R.
  2:{ cbn [fst snd]. split; [exact Ok|]. split; [reflexivity|].
      split; [reflexivity|]. split; [exact O1 | lia]. }
  destruct (turn_picture_shape env picture dst V R) as (Vd & Wd & Hd).
  destruct Ok as (Mw & Mh & P).
  pose proof (build_packet_within_bound env (streaming_server self) dst Vd
                ltac:(lia) ltac:(lia)) as B.
  rewrite Wd, Hd in B.
  rewrite depth_update_frame.
  pose proof (update_frame_bounds env (streaming_server self) dst) as [Bw Bh].
  pose proof (update_frame_no_preparation_error env (streaming_server self) dst
                ltac:(rewrite B; discriminate)) as NoErr.
  destruct (cv_imencode env dst) as [fd|] eqn:E.
  - destruct (update_frame_isolates_guarded_blocks env (streaming_server self) dst fd E)
      as (s' & out & Ru & _ & Pk).
    rewrite B in Pk. destruct Pk as [L Fc].
    rewrite Ru in *. cbn [fst snd result_self result_out streaming_server viewer running] in *.
    split.
    { unfold depth_server_ok. rewrite Bw, Bh, L, Fc.
      split; [exact Mw|]. split; [exact Mh|]. split.
      - destruct (latest_frame_data (streaming_server self)); [lia|]. lia.
      - exists (swap_channels (f_data dst)). split; [reflexivity|].
        rewrite length_swap_channels. destruct Vd as (_ & _ & Ld). rewrite Ld, Wd, Hd.
        reflexivity. }
    split; [reflexivity|]. split; [reflexivity|]. split; [|exact Fc].
    rewrite existsb_app, O1. cbn [orb]. rewrite existsb_app. cbn.
    rewrite orb_false_r.
    destruct (existsb reports_preparation_error (map SServer out)) eqn:X;
      [|reflexivity].
    exfalso. apply NoErr. apply existsb_map_server. exact X.
  - unfold Motion.update_frame in *. rewrite E in *.
    cbn [fst snd result_self result_out map streaming_server viewer running] in *.
    split; [split; [exact Mw|]; split; [exact Mh | exact P]|].
    split; [reflexivity|]. split; [reflexivity|]. split; [|lia].
    rewrite app_nil_r. exact O1.
Qed.

Lemma turns_completed_app (out1 out2 : list StreamerEvent) :
  turns_completed (out1 ++ out2) = (turns_completed out1 + turns_completed out2)%nat.
Proof.
  unfold turns_completed. rewrite filter_app, length_app. reflexivity.
Qed.

Lemma turns_completed_server (out : list Event) :
  turns_completed (map SServer out) = 0%nat.
Proof.
  induction out as [|ev out IH]; [reflexivity|]. exact IH.
Qed.

Lemma turn_sleeps (t : DepthTurn) (self : OAKDepthStreamer) :
  turns_completed (snd (Streamer.turn t self))
  = match snd (fst (Streamer.turn t self)) with None => 1%nat | Some _ => 0%nat end.
Proof.
  destruct t as [picture closest env | e | ]; [|reflexivity|reflexivity].
  unfold Streamer.turn. cbv zeta.
  set (out1 := match closest with
               | Some (x, y, z) => _
               | None => []
               end).
  assert (O1 : turns_completed out1 = 0%nat).
  { unfold out1. destruct closest as [[[x y] z]|]; [|reflexivity].
    destruct (_ =? 0); reflexivity. }
  destruct (if negb (f_width picture =? 640) || negb (f_height picture =? 480)
            then cv_resize env picture 640 480 else Some picture) as [dst|];
    [|exact O1].
  destruct (Depth.update_frame env (streaming_server self) dst) as [srv out2|e srv out2];
    cbn [fst snd]; rewrite !turns_completed_app, ?turns_completed_server, O1;
    reflexivity.
Qed.

Lemma loop_keeps_depth_server (turns : list DepthTurn) (self : OAKDepthStreamer) :
  Forall turn_has_valid_picture turns ->
  depth_server_ok (streaming_server self) ->
  let r := Streamer.loop turns self in
  depth_server_ok (streaming_server (fst (fst r)))
  /\ running (fst (fst r)) = running self
  /\ viewer (fst (fst r)) = viewer self
  /\ existsb reports_preparation_error (snd r) = false
  /\ frame_count (streaming_server (fst (fst r)))
     = frame_count (streaming_server self) + Z.of_nat (turns_completed (snd r)).
Proof.
  intros F. revert self. induction F as [|t turns Vt F IH]; intros self Ok.
  - cbn. destruct (running self) eqn:Run; cbn; rewrite ?Run;
      (split; [exact Ok|]); repeat split; lia.
  - cbn [Streamer.loop]. destruct (running self) eqn:Run; cbn [negb].
    2:{ cbn. rewrite Run. split; [exact Ok|]. repeat split; lia. }
    destruct (turn_keeps_depth_server t self Vt Ok) as (Ok1 & R1 & V1 & E1 & C1).
    pose proof (turn_sleeps t self) as S1.
    destruct (Streamer.turn t self) as [[self1 [e|]] out1]; cbn [fst snd] in *.
    + split; [exact Ok1|]. split; [congruence|]. split; [exact V1|].
      split; [exact E1|]. rewrite S1, C1. lia.
    + destruct (IH self1 Ok1) as (Ok2 & R2 & V2 & E2 & C2).
      destruct (Streamer.loop turns self1) as [[self2 e2] out2]; cbn [fst snd] in *.
      split; [exact Ok2|]. split; [congruence|]. split; [congruence|].
      split; [rewrite existsb_app, E1, E2; reflexivity|].
      rewrite turns_completed_app, S1, C2, C1. lia.
Qed.

Lemma depth_start_out (env : StartEnv) (srv : StreamingServer) :
  existsb reports_preparation_error (map SServer (result_out (Depth.start env srv)))
  = false.
Proof.
  unfold Depth.start. destruct (http_bind_ok env); cbn [negb]; [|reflexivity].
  destruct (use_virtual_cam (set_server srv _ _)); [destruct (vcam_answer env)|];
    destruct (tcp_bind_ok env); reflexivity.
Qed.

Lemma depth_start_raises (env : StartEnv) (srv : StreamingServer) :
  http_bind_ok env = false -> Depth.start env srv = Raised OSError srv [].
Proof.
  intros H. unfold Depth.start. rewrite H. reflexivity.
Qed.

Lemma depth_start_returns (env : StartEnv) (srv : StreamingServer) :
  http_bind_ok env = true ->
  exists srv' out,
    Depth.start env srv = Returned srv' out
    /\ server srv' = Some {| frame_bytes := None; serving := true;
                             http_socket_open := true |}.
Proof.
  intros H. unfold Depth.start. rewrite H. cbn [negb].
  destruct (use_virtual_cam (set_server srv _ _)); [destruct (vcam_answer env)|];
    destruct (tcp_bind_ok env); eexists; eexists; split; reflexivity.
Qed.

Lemma stop_server (env : StopEnv) (self : StreamingServer) :
  server (result_self (Motion.stop env self))
  = option_map Motion.shutdown (server self).
Proof.
  destruct env as [b1 b2 b3].
  destruct self as [p tp [h|] th [so|] [cl|] tt mw mh fc lf uv [ca|] lp];
    destruct b1, b2, b3; reflexivity.
Qed.

(** The three ways [start()] of the streamer can go. *)
Lemma streamer_start_cases (dev : DeviceAnswer) (senv : StartEnv)
    (self : OAKDepthStreamer) :
  let r := Streamer.start dev senv self in
  match dev with
  | DeviceReady =>
      if http_bind_ok senv then
        snd (fst r) = inl true
        /\ running (fst (fst r)) = true
        /\ device (viewer (fst (fst r))) = DeviceOpen
        /\ streaming_server (fst (fst r))
           = result_self (Depth.start senv (streaming_server self))
        /\ snd r = map SServer (result_out (Depth.start senv (streaming_server self)))
                   ++ [ SPrint OakDepthStreamerStarted; SPrint PressCtrlCToStop ]
      else
        snd (fst r) = inr (RaiseException OSError)
        /\ running (fst (fst r)) = running self
        /\ device (viewer (fst (fst r))) = DeviceOpen
        /\ streaming_server (fst (fst r)) = streaming_server self
        /\ snd r = []
  | _ =>
      snd (fst r) = inl false
      /\ running (fst (fst r)) = running self
      /\ device (viewer (fst (fst r)))
         = match dev with DeviceMissing => device (viewer self) | _ => DeviceOpen end
      /\ streaming_server (fst (fst r)) = streaming_server self
      /\ snd r = [ SPrint ErrorStartingOakDevice; SPrint FailedToStartOakDevice;
                   SPrint FailedToStartOakDevice ]
  end.
Proof.
  destruct dev; cbn.
  - repeat split; reflexivity.
  - repeat split; reflexivity.
  - destruct (http_bind_ok senv) eqn:H.
    + destruct (depth_start_returns senv (streaming_server self) H)
        as (srv' & out & R & _).
      rewrite R. cbn. repeat split; reflexivity.
    + rewrite (depth_start_raises senv (streaming_server self) H). cbn.
      repeat split; reflexivity.
Qed.

Lemma streamer_stop_cases (stopenv : StopEnv) (self : OAKDepthStreamer) :
  let r := Streamer.stop stopenv self in
  running (fst (fst r)) = false
  /\ streaming_server (fst (fst r))
     = result_self (Motion.stop stopenv (streaming_server self))
  /\ match device (viewer self) with
     | DeviceNone =>
         snd (fst r) = None /\ device (viewer (fst (fst r))) = DeviceNone
         /\ snd r = [ SPrint OakDepthStreamerStopped ]
     | DeviceOpen =>
         snd (fst r) = None /\ device (viewer (fst (fst r))) = DeviceDeleted
         /\ snd r = [ SPrint OakDepthStreamerStopped ]
     | DeviceDeleted =>
         snd (fst r) = Some RaiseAttributeError
         /\ device (viewer (fst (fst r))) = DeviceDeleted
         /\ snd r = []
     end.
Proof.
  unfold Streamer.stop, Streamer.calculator_close. rewrite depth_stop.
  destruct (device (viewer self)) eqn:D; cbn; rewrite ?D; repeat split; reflexivity.
Qed.

(** X14. The depth streamer only ever hands pictures of 640 by 480
    pixels to its streaming server, whatever the size of the depth
    pictures of the device: the packet the server holds at any moment
    of [run()] announces exactly 640 by 480 and carries 921600 bytes,
    the downscaling branch of [update_frame] is never taken, no packet
    ever fails to be built, and the frame counter equals the number of
    loop turns that ran to their end. *)
Theorem X14_depth_stream_is_always_640_by_480 :
  forall (dev : DeviceAnswer) (senv : StartEnv) (stopenv : StopEnv)
         (turns : list DepthTurn) (expanduser : string -> string)
         (port tcp_port : Z) (use_virtual_cam : bool) (v : OAKDepthViewer),
    Forall turn_has_valid_picture turns ->
    let r := Streamer.run dev senv stopenv turns
               (Streamer.init expanduser port tcp_port use_virtual_cam v) in
    let srv := streaming_server (fst (fst r)) in
    depth_server_ok srv
    /\ frame_count srv = Z.of_nat (turns_completed (snd r))
    /\ existsb reports_preparation_error (snd r) = false.
Proof.
  intros dev senv stopenv turns expanduser port tcp_port uvc v F.
  set (self := Streamer.init expanduser port tcp_port uvc v).
  assert (Ok0 : depth_server_ok (streaming_server self))
    by (repeat split; reflexivity).
  assert (Fc0 : frame_count (streaming_server self) = 0) by reflexivity.
  clearbody self. cbv zeta. unfold Streamer.run.
  pose proof (streamer_start_cases dev senv self) as S. cbv zeta in S.
  destruct (Streamer.start dev senv self) as [[self1 res] out1]. cbn [fst snd] in S.
  assert (A : depth_server_ok (streaming_server self1)
              /\ frame_count (streaming_server self1) = 0
              /\ turns_completed out1 = 0%nat
              /\ existsb reports_preparation_error out1 = false).
  { destruct dev; [| |destruct (http_bind_ok senv)];
      destruct S as (_ & _ & _ & -> & ->).
    - split; [exact Ok0|]. split; [exact Fc0|]. split; reflexivity.
    - split; [exact Ok0|]. split; [exact Fc0|]. split; reflexivity.
    - split; [apply depth_start_ok; exact Ok0|].
      split.
      { rewrite (proj1 (depth_start senv (streaming_server self))).
        destruct (start_keeps_packet_fields senv (streaming_server self))
          as (_ & _ & C & _). cbv zeta in C. rewrite C. exact Fc0. }
      split; [rewrite turns_completed_app, turns_completed_server; reflexivity|].
      rewrite existsb_app, depth_start_out. reflexivity.
    - split; [exact Ok0|]. split; [exact Fc0|]. split; reflexivity. }
  destruct A as (Ok1 & Fc1 & T1 & E1).
  destruct res as [[|]|e]; cbn [fst snd].
  2,3: split; [exact Ok1|]; split; [rewrite Fc1, T1; reflexivity | exact E1].
  destruct (loop_keeps_depth_server turns self1 F Ok1) as (Ok2 & _ & _ & E2 & C2).
  destruct (Streamer.loop turns self1) as [[self2 e2] out2]. cbn [fst snd] in *.
  assert (St : let r := Streamer.stop stopenv self2 in
             depth_server_ok (streaming_server (fst (fst r)))
             /\ frame_count (streaming_server (fst (fst r)))
                = frame_count (streaming_server self2)
             /\ turns_completed (snd r) = 0%nat
             /\ existsb reports_preparation_error (snd r) = false).
  { destruct (streamer_stop_cases stopenv self2) as (_ & Sv & D).
    cbv zeta in Sv, D |- *. rewrite Sv.
    split; [rewrite <- depth_stop; apply depth_stop_ok; exact Ok2|].
    split; [apply (stop_fields stopenv (streaming_server self2))|].
    destruct (device (viewer self2)); destruct D as (_ & _ & ->);
      split; reflexivity. }
  cbv zeta in St.
  destruct (Streamer.stop stopenv self2) as [[self3 e3] out3]. cbn [fst snd] in St.
  destruct St as (Ok3 & Fc3 & T3 & E3).
  destruct e2 as [| |[e| |]]; cbn [fst snd].
  - split; [exact Ok2|]. rewrite turns_completed_app, existsb_app, E1, E2, C2, Fc1, T1.
    split; [lia | reflexivity].
  - split; [exact Ok3|].
    rewrite !turns_completed_app, !existsb_app, E1, E2, E3, Fc3, C2, Fc1, T1, T3.
    split; [lia | reflexivity].
  - split; [exact Ok3|].
    rewrite !turns_completed_app, !existsb_app, E1, E2, E3, Fc3, C2, Fc1, T1, T3.
    split; [lia | reflexivity].
  - split; [exact Ok3|].
    rewrite !turns_completed_app, !existsb_app, E1, E2, E3, Fc3, C2, Fc1, T1, T3.
    split; [lia | reflexivity].
  - split; [exact Ok3|].
    rewrite !turns_completed_app, !existsb_app, E1, E2, E3, Fc3, C2, Fc1, T1, T3.
    cbn. split; [lia | reflexivity].
Qed.

Lemma X14_witness :
  let turns := [ TurnFrame (solid_frame 2 1) None env_ok; TurnInterrupted ] in
  let r := Streamer.run DeviceReady start_ok stop_ok turns
             (Streamer.init (fun p => p) 8082 8083 false
                {| device := DeviceNone; depthQueue := false |}) in
  Forall turn_has_valid_picture turns
  /\ depth_server_ok (streaming_server (fst (fst r)))
  /\ frame_count (streaming_server (fst (fst r))) = Z.of_nat (turns_completed (snd r)).
Proof.
  intros turns r.
  assert (V : valid_frame (solid_frame 2 1)).
  { apply valid_solid_frame; vm_compute; split; congruence. }
  assert (F : Forall turn_has_valid_picture turns).
  { unfold turns. constructor; [exact V|]. constructor; [exact I|]. constructor. }
  split; [exact F|].
  destruct (X14_depth_stream_is_always_640_by_480 DeviceReady start_ok stop_ok turns
              (fun p => p) 8082 8083 false
              {| device := DeviceNone; depthQueue := false |} F)
    as (Ok & Fc & _).
  split; [exact Ok | exact Fc].
Defined.

Lemma streamer_stop_raise (stopenv : StopEnv) (self : OAKDepthStreamer) (e : Raise) :
  snd (fst (Streamer.stop stopenv self)) = Some e -> e = RaiseAttributeError.
Proof.
  destruct (streamer_stop_cases stopenv self) as (_ & _ & D). cbv zeta in D.
  destruct (device (viewer self)); destruct D as (-> & _); congruence.
Qed.

(** X15. A [start()] that fails never reaches [stop()]: when the OAK
    device does not start, [run()] returns at once without starting the
    streaming server; when the device starts but the HTTP port cannot be
    bound, the [OSError] leaves [run()] before its [try].  Either way
    the streaming server is left as it was, nothing reports the streamer
    as stopped, and a device that had been opened stays open:
    [calculator.close()] is not called. *)
Theorem X15_failed_start_never_reaches_stop :
  forall (dev : DeviceAnswer) (senv : StartEnv) (stopenv : StopEnv)
         (turns : list DepthTurn) (self : OAKDepthStreamer),
    (dev <> DeviceReady \/ http_bind_ok senv = false) ->
    let r := Streamer.run dev senv stopenv turns self in
    let s := fst (fst r) in
    snd (fst r) = match dev with
                  | DeviceReady => RunRaised (RaiseException OSError)
                  | _ => RunReturned
                  end
    /\ streaming_server s = streaming_server self
    /\ running s = running self
    /\ device (viewer s) = match dev with
                           | DeviceMissing => device (viewer self)
                           | _ => DeviceOpen
                           end
    /\ ~ In (SPrint OakDepthStreamerStopped) (snd r).
Proof.
  intros dev senv stopenv turns self H. cbv zeta. unfold Streamer.run.
  pose proof (streamer_start_cases dev senv self) as S. cbv zeta in S.
  destruct (Streamer.start dev senv self) as [[self1 res] out1]. cbn [fst snd] in S.
  destruct dev.
  - destruct S as (-> & R & D & Sv & ->). cbn [fst snd].
    repeat split; try assumption. cbn. intuition discriminate.
  - destruct S as (-> & R & D & Sv & ->). cbn [fst snd].
    repeat split; try assumption. cbn. intuition discriminate.
  - destruct H as [H|H]; [congruence|]. rewrite H in S.
    destruct S as (-> & R & D & Sv & ->). cbn [fst snd].
    repeat split; try assumption. intros [].
Qed.

Lemma X15_witness :
  let r := Streamer.run DeviceReady
             {| http_bind_ok := false; vcam_answer := VcamFailed; tcp_bind_ok := true |}
             stop_ok [ TurnInterrupted ] fresh_streamer in
  snd (fst r) = RunRaised (RaiseException OSError)
  /\ device (viewer (fst (fst r))) = DeviceOpen
  /\ streaming_server (fst (fst r)) = streaming_server fresh_streamer.
Proof.
  intros r.
  destruct (X15_failed_start_never_reaches_stop DeviceReady
              {| http_bind_ok := false; vcam_answer := VcamFailed; tcp_bind_ok := true |}
              stop_ok [ TurnInterrupted ] fresh_streamer (or_intror eq_refl))
    as (E & S & _ & D & _).
  split; [exact E|]. split; [exact D | exact S].
Defined.

Lemma turn_keeps_streamer (t : DepthTurn) (self : OAKDepthStreamer) :
  let r := Streamer.turn t self in
  running (fst (fst r)) = running self
  /\ viewer (fst (fst r)) = viewer self
  /\ (server (streaming_server self) <> None ->
      server (streaming_server (fst (fst r))) <> None)
  /\ (snd (fst r) = Some RaiseKeyboardInterrupt -> t = TurnInterrupted)
  /\ snd (fst r) <> Some RaiseAttributeError.
Proof.
  destruct t as [picture closest env | e | ]; cbn [Streamer.turn]; cbv zeta.
  2,3: cbn; repeat split; try congruence; auto.
  destruct (if negb (f_width picture =? 640) || negb (f_height picture =? 480)
            then cv_resize env picture 640 480 else Some picture) as [dst|].
  2:{ cbn. repeat split; try congruence; auto. }
  rewrite depth_update_frame.
  assert (Sv : server (streaming_server self) <> None ->
               server (result_self (Motion.update_frame env (streaming_server self) dst))
               <> None).
  { intros N. destruct (server (streaming_server self)) as [h|] eqn:Sh; [|congruence].
    destruct (update_frame_server env (streaming_server self) dst h Sh) as (h' & -> & _).
    discriminate. }
  destruct (Motion.update_frame env (streaming_server self) dst) as [srv out|e srv out];
    cbn [fst snd result_self running viewer streaming_server] in *;
    repeat split; try congruence; auto.
Qed.

Lemma loop_keeps_streamer (turns : list DepthTurn) (self : OAKDepthStreamer) :
  running self = true ->
  let r := Streamer.loop turns self in
  running (fst (fst r)) = true
  /\ viewer (fst (fst r)) = viewer self
  /\ (server (streaming_server self) <> None ->
      server (streaming_server (fst (fst r))) <> None)
  /\ snd (fst r) <> LoopExited
  /\ snd (fst r) <> LoopRaised RaiseAttributeError
  /\ (snd (fst r) = LoopRaised RaiseKeyboardInterrupt -> In TurnInterrupted turns).
Proof.
  revert self. induction turns as [|t turns IH]; intros self Run;
    cbn [Streamer.loop]; rewrite Run; cbn [negb].
  { cbn. repeat split; try congruence; auto. }
  destruct (turn_keeps_streamer t self) as (R1 & V1 & S1 & K1 & A1).
  destruct (Streamer.turn t self) as [[self1 [e|]] out1]; cbn [fst snd] in *.
  - split; [congruence|]. split; [exact V1|]. split; [exact S1|].
    split; [discriminate|]. split; [congruence|].
    intros E. left. apply K1. congruence.
  - destruct (IH self1 ltac:(congruence)) as (R2 & V2 & S2 & X2 & A2 & K2).
    destruct (Streamer.loop turns self1) as [[self2 e2] out2]; cbn [fst snd] in *.
    split; [exact R2|]. split; [congruence|]. split; [auto|].
    split; [exact X2|]. split; [exact A2|]. intros E. right. apply K2. exact E.
Qed.

(** With a [stop()] that comes back, [run()] after a successful start
    either is still in its loop or has been through [stop()]. *)
Lemma run_goes_through_stop :
  forall (senv : StartEnv) (stopenv stopenv2 : StopEnv) (turns : list DepthTurn)
         (self : OAKDepthStreamer),
    http_bind_ok senv = true ->
    let r := Streamer.run DeviceReady senv stopenv turns self in
    let s := fst (fst r) in
    match snd (fst r) with
    | RunGoesOn =>
        running s = true /\ device (viewer s) = DeviceOpen
        /\ ~ In TurnInterrupted turns
    | RunReturned =>
        streamer_stopped s /\ In TurnInterrupted turns
        /\ snd (fst (Streamer.stop stopenv2 s)) = Some RaiseAttributeError
    | RunRaised e =>
        streamer_stopped s /\ (exists x : exn, e = RaiseException x)
        /\ snd (fst (Streamer.stop stopenv2 s)) = Some RaiseAttributeError
    end.
Proof.
  intros senv stopenv stopenv2 turns self H. cbv zeta. unfold Streamer.run.
  pose proof (streamer_start_cases DeviceReady senv self) as S. cbv zeta in S.
  rewrite H in S.
  destruct (depth_start_returns senv (streaming_server self) H) as (srv1 & o1 & Rs & Sv1).
  rewrite Rs in S. cbn [result_self result_out] in S.
  destruct (Streamer.start DeviceReady senv self) as [[self1 res] out1].
  cbn [fst snd] in S. destruct S as (-> & Run1 & D1 & Srv1 & _).
  destruct (loop_keeps_streamer turns self1 Run1) as (R2 & V2 & S2 & X2 & A2 & K2).
  assert (NoInt : snd (fst (Streamer.loop turns self1)) = LoopGoesOn ->
                  ~ In TurnInterrupted turns).
  { clear. revert self1. induction turns as [|t turns IH]; intros self1 E; [intros []|].
    cbn [Streamer.loop] in E. destruct (running self1); cbn [negb] in E;
      [|discriminate E].
    destruct t as [picture closest env | e | ].
    - destruct (Streamer.turn (TurnFrame picture closest env) self1)
        as [[s1 [e1|]] o1]; cbn [fst snd] in E; [discriminate E|].
      specialize (IH s1).
      destruct (Streamer.loop turns s1) as [[s2 e2] o2]; cbn [fst snd] in *.
      intros [X|X]; [discriminate X|]. exact (IH E X).
    - cbn in E. discriminate E.
    - cbn in E. discriminate E. }
  destruct (Streamer.loop turns self1) as [[self2 e2] out2]. cbn [fst snd] in *.
  assert (D2 : device (viewer self2) = DeviceOpen) by congruence.
  assert (Sv2 : server (streaming_server self2) <> None).
  { apply S2. rewrite Srv1, Sv1. discriminate. }
  pose proof (streamer_stop_cases stopenv self2) as (R3 & Sv3 & D3).
  cbv zeta in R3, Sv3, D3. rewrite D2 in D3. destruct D3 as (E3 & D3 & _).
  destruct (Streamer.stop stopenv self2) as [[self3 e3] out3]. cbn [fst snd] in *.
  subst e3.
  assert (St : streamer_stopped self3
               /\ snd (fst (Streamer.stop stopenv2 self3)) = Some RaiseAttributeError).
  { split.
    - split; [exact R3|]. split; [exact D3|].
      rewrite Sv3, stop_server.
      destruct (server (streaming_server self2)); [reflexivity | congruence].
    - pose proof (streamer_stop_cases stopenv2 self3) as (_ & _ & D4).
      cbv zeta in D4. rewrite D3 in D4. apply D4. }
  destruct St as (St1 & St2).
  destruct e2 as [| |[e| |]]; cbn [fst snd].
  - split; [exact R2|]. split; [exact D2|]. apply NoInt. reflexivity.
  - congruence.
  - split; [exact St1|]. split; [exists e; reflexivity | exact St2].
  - congruence.
  - split; [exact St1|]. split; [apply K2; reflexivity | exact St2].
Qed.

(** X17. Nothing leaves [run_depth_streamer]: whatever fails in
    [streamer.run()] (the device, the HTTP port, OpenCV, the JPEG
    encoder), the function reports it and returns, so that the
    thread of main.py that runs it ends quietly and the rest of the
    program goes on without the depth stream. *)
Theorem X17_depth_thread_never_dies_of_an_exception :
  forall (dev : DeviceAnswer) (senv : StartEnv) (stopenv : StopEnv)
         (turns : list DepthTurn) (self : OAKDepthStreamer),
    let r := run_depth_streamer dev senv stopenv turns self in
    (snd (fst r) = RunReturned \/ snd (fst r) = RunGoesOn)
    /\ forall e : Raise,
         snd (fst (Streamer.run dev senv stopenv turns self)) = RunRaised e ->
         snd (fst r) = RunReturned
         /\ In (SPrint (OakDepthStreamerError e)) (snd r)
         /\ In (SPrint ContinuingWithoutDepthStream) (snd r).
Proof.
  intros dev senv stopenv turns self. cbv zeta.
  assert (N : snd (fst (Streamer.run dev senv stopenv turns self))
              <> RunRaised RaiseKeyboardInterrupt).
  { unfold Streamer.run.
    pose proof (streamer_start_cases dev senv self) as S. cbv zeta in S.
    destruct (Streamer.start dev senv self) as [[self1 res] out1]. cbn [fst snd] in S.
    assert (Rs : res <> inr RaiseKeyboardInterrupt).
    { destruct dev; [| |destruct (http_bind_ok senv)]; destruct S as (-> & _);
        discriminate. }
    destruct res as [[|]|e]; cbn [fst snd]; [|discriminate|congruence].
    destruct (Streamer.loop turns self1) as [[self2 e2] out2].
    pose proof (streamer_stop_raise stopenv self2) as Sr.
    destruct (Streamer.stop stopenv self2) as [[self3 e3] out3]. cbn [fst snd] in *.
    destruct e2 as [| |[e| |]]; cbn [fst snd]; try discriminate;
      destruct e3 as [e3|]; try discriminate;
      rewrite (Sr e3 eq_refl); discriminate. }
  unfold run_depth_streamer.
  destruct (Streamer.run dev senv stopenv turns self) as [[s1 [|[e| |]|]] out];
    cbn [fst snd] in *; try congruence.
  - split; [left; reflexivity|]. intros e E. discriminate E.
  - split; [left; reflexivity|]. intros e' E. injection E as <-.
    split; [reflexivity|]. split; apply in_or_app; right;
      [left; reflexivity | right; left; reflexivity].
  - split; [left; reflexivity|]. intros e' E. injection E as <-.
    split; [reflexivity|]. split; apply in_or_app; right;
      [left; reflexivity | right; left; reflexivity].
  - split; [right; reflexivity|]. intros e E. discriminate E.
Qed.

(** ** Dictionaries *)

Section DictFacts.

Context {K V : Type} (eqb : K -> K -> bool).
Hypothesis eqb_spec : forall a b : K, eqb a b = true <-> a = b.

Lemma dict_get_set_same (k : K) (v : V) (d : list (K * V)) :
  dict_get eqb k (dict_set eqb k v d) = Some v.
Proof.
  induction d as [|[k' v'] d IH]; cbn.
  - rewrite (proj2 (eqb_spec k k) eq_refl). reflexivity.
  - destruct (eqb k k') eqn:E; cbn; rewrite E; [reflexivity | exact IH].
Qed.

Lemma dict_get_set_other (k k' : K) (v : V) (d : list (K * V)) :
  k <> k' ->
  dict_get eqb k (dict_set eqb k' v d) = dict_get eqb k d.
Proof.
  intros N. induction d as [|[k0 v0] d IH]; cbn.
  - destruct (eqb k k') eqn:E; [apply eqb_spec in E; contradiction | reflexivity].
  - destruct (eqb k' k0) eqn:E1; cbn.
    + apply eqb_spec in E1. subst k0.
      destruct (eqb k k') eqn:E; [apply eqb_spec in E; contradiction | reflexivity].
    + destruct (eqb k k0); [reflexivity | exact IH].
Qed.

Lemma dict_set_keys (k : K) (v : V) (d : list (K * V)) :
  map fst (dict_set eqb k v d)
  = if dict_mem eqb k d then map fst d else map fst d ++ [ k ].
Proof.
  unfold dict_mem. induction d as [|[k0 v0] d IH]; cbn; [reflexivity|].
  destruct (eqb k k0) eqn:E; cbn; [reflexivity|].
  rewrite IH. destruct (dict_get eqb k d); reflexivity.
Qed.

End DictFacts.

Lemma Z_eqb_spec (a b : Z) : (a =? b) = true <-> a = b.
Proof. apply Z.eqb_eq. Qed.

Lemma key_eqb_spec (a b : Motiontask.Key) : Motiontask.key_eqb a b = true <-> a = b.
Proof.
  destruct a as [x|x], b as [y|y]; cbn.
  - rewrite Z.eqb_eq. split; [intros ->; reflexivity | intros E; injection E; auto].
  - split; discriminate.
  - split; discriminate.
  - rewrite String.eqb_eq. split; [intros ->; reflexivity | intros E; injection E; auto].
Qed.

(** ** The position histories of motiontask.py *)

Lemma deque_append_length {A} (h : list A) (p : A) :
  (length h <= 10)%nat ->
  (length (Motiontask.deque_append h p) <= 10)%nat
  /\ ((length h < 10)%nat ->
      length (Motiontask.deque_append h p) = S (length h)).
Proof.
  intros L. unfold Motiontask.deque_append.
  destruct (Nat.leb_spec 10 (length h)).
  - split; [|lia]. rewrite length_app. cbn.
    destruct h; cbn in *; lia.
  - rewrite length_app. cbn. split; lia.
Qed.

(** What a call does to the histories: the history of the hand of the
    call gets the new position, unless a track is selected, which
    empties it; the other histories are left alone. *)
Lemma track_block_history (st : Motiontask.State) (data : Motiontask.HandData)
    (swipe : option string) (t : py_float) :
  let r := Motiontask.track_block st data swipe t in
  (existsb (is_track_selection (Motiontask.hand_id data)) (snd r) = true
   /\ swipe <> None
   /\ Motiontask.hand_history (fst r)
      = dict_set Z.eqb (Motiontask.hand_id data) [] (Motiontask.hand_history st))
  \/ (snd r = [] /\ fst r = st).
Proof.
  unfold Motiontask.track_block.
  destruct swipe as [s|]; [|right; split; reflexivity].
  destruct (String.eqb s "right_track" || String.eqb s "left_track");
    [|right; split; reflexivity].
  destruct (Motiontask.may_act st _ t _); [|right; split; reflexivity].
  left. destruct (String.eqb s "right_track"); cbn; rewrite Z.eqb_refl;
    split; try reflexivity; split; try discriminate; reflexivity.
Qed.

Lemma left_block_history (st : Motiontask.State) (t : py_float) :
  Motiontask.hand_history (fst (Motiontask.left_block st t)) = Motiontask.hand_history st
  /\ forall h, existsb (is_track_selection h) (snd (Motiontask.left_block st t)) = false.
Proof.
  unfold Motiontask.left_block.
  destruct (Motiontask.check_left_hand_gesture st) as [g|]; [|split; reflexivity].
  destruct (Motiontask.may_act st _ t _); [|split; reflexivity].
  destruct (String.eqb g "up_scene"); [|destruct (String.eqb g "down_scene")];
    cbn; unfold Motiontask.call_back; cbn;
    destruct (Motiontask.osc_callback st); split; reflexivity.
Qed.

Lemma right_block_history (st : Motiontask.State) (t : py_float) :
  Motiontask.hand_history (fst (Motiontask.right_block st t)) = Motiontask.hand_history st
  /\ forall h, existsb (is_track_selection h) (snd (Motiontask.right_block st t)) = false.
Proof.
  unfold Motiontask.right_block.
  destruct (Motiontask.check_right_hand_gesture st) as [g|]; [|split; reflexivity].
  destruct (Motiontask.may_act st _ t _); [|split; reflexivity].
  destruct (String.eqb g "fire_clip"); [|destruct (String.eqb g "fire_scene")];
    cbn; unfold Motiontask.call_back; cbn;
    destruct (Motiontask.osc_callback st); split; reflexivity.
Qed.

Lemma both_block_history (st : Motiontask.State) (t : py_float) :
  Motiontask.hand_history (fst (Motiontask.both_block st t)) = Motiontask.hand_history st
  /\ forall h, existsb (is_track_selection h) (snd (Motiontask.both_block st t)) = false.
Proof.
  unfold Motiontask.both_block.
  destruct (Motiontask.check_both_hands_holding st) as [g|]; [|split; reflexivity].
  destruct (Motiontask.may_act st _ t _); [|split; reflexivity].
  cbn; unfold Motiontask.call_back; cbn;
    destruct (Motiontask.osc_callback st); split; reflexivity.
Qed.

Lemma expire_history (st : Motiontask.State) (k1 k2 : Motiontask.Key)
    (reading delay : py_float) :
  Motiontask.hand_history (Motiontask.expire st k1 k2 reading delay)
  = Motiontask.hand_history st.
Proof.
  unfold Motiontask.expire.
  destruct (dict_mem Motiontask.key_eqb k1 _); [|reflexivity].
  destruct (py_gt _ delay); reflexivity.
Qed.

Lemma track_block_other (st : Motiontask.State) (data : Motiontask.HandData)
    (swipe : option string) (t : py_float) (h : Z) :
  h <> Motiontask.hand_id data ->
  existsb (is_track_selection h) (snd (Motiontask.track_block st data swipe t)) = false.
Proof.
  intros N. unfold Motiontask.track_block.
  destruct swipe as [s|]; [|reflexivity].
  destruct (String.eqb s "right_track" || String.eqb s "left_track"); [|reflexivity].
  destruct (Motiontask.may_act st _ t _); [|reflexivity].
  assert (E : (Motiontask.hand_id data =? h) = false) by (apply Z.eqb_neq; congruence).
  destruct (String.eqb s "right_track"); cbn; rewrite E; unfold Motiontask.call_back;
    cbn; destruct (Motiontask.osc_callback st); reflexivity.
Qed.

Lemma process_hand_data_history (clock : Motiontask.Clock) (st : Motiontask.State)
    (data : Motiontask.HandData) :
  let r := Motiontask.process_hand_data clock st data in
  let h := Motiontask.hand_id data in
  exists p : py_float * py_float,
    let new := Motiontask.deque_append (history_of st h) p in
    (forall h', h' <> h ->
       history_of (fst r) h' = history_of st h'
       /\ existsb (is_track_selection h') (snd r) = false)
    /\ (existsb (is_track_selection h) (snd r) = true ->
        history_of (fst r) h = [] /\ (5 <= length new)%nat)
    /\ (existsb (is_track_selection h) (snd r) = false ->
        history_of (fst r) h = new).
Proof.
  cbv zeta. unfold Motiontask.process_hand_data.
  set (px := match dict_get String.eqb "palm_x" _ with Some x => x | None => _ end).
  set (py := match dict_get String.eqb "palm_y" _ with Some y => y | None => _ end).
  set (st0 := match Motiontask.gesture data with Some g => _ | None => st end).
  assert (H0 : Motiontask.hand_history st0 = Motiontask.hand_history st).
  { unfold st0. destruct (Motiontask.gesture data); reflexivity. }
  exists (px, py).
  set (h := Motiontask.hand_id data).
  set (new := Motiontask.deque_append (history_of st h) (px, py)).
  unfold Motiontask.detect_swipe. rewrite H0. fold h. fold (history_of st h). fold new.
  set (st1 := Motiontask.set_hand_labels _ _).
  set (swipe := if (length new <? 5)%nat then None else _).
  assert (H1 : Motiontask.hand_history st1
               = dict_set Z.eqb h new (Motiontask.hand_history st)) by reflexivity.
  assert (Sw : swipe <> None -> (5 <= length new)%nat).
  { unfold swipe. destruct (Nat.ltb_spec (length new) 5); [intros N; congruence | intros _; lia]. }
  clearbody st1 swipe.
  pose proof (track_block_history st1 data swipe (Motiontask.now clock)) as T.
  pose proof (fun h' => track_block_other st1 data swipe (Motiontask.now clock) h') as To.
  destruct (Motiontask.track_block st1 data swipe (Motiontask.now clock)) as [st2 out2].
  pose proof (left_block_history st2 (Motiontask.now clock)) as [L1 L2].
  destruct (Motiontask.left_block st2 (Motiontask.now clock)) as [st3 out3].
  pose proof (right_block_history st3 (Motiontask.now clock)) as [R1 R2].
  destruct (Motiontask.right_block st3 (Motiontask.now clock)) as [st4 out4].
  pose proof (both_block_history st4 (Motiontask.now clock)) as [B1 B2].
  destruct (Motiontask.both_block st4 (Motiontask.now clock)) as [st5 out5].
  cbn [fst snd] in *.
  assert (Hf : forall h', history_of
                 (Motiontask.expire
                    (Motiontask.expire
                       (Motiontask.expire
                          (Motiontask.expire st5 (Motiontask.KInt h) (Motiontask.KInt h)
                             (Motiontask.now_hand clock) (decimal 25 10))
                          (Motiontask.KStr "left") (Motiontask.KStr "left_gesture")
                          (Motiontask.now_left clock) (decimal 15 10))
                       (Motiontask.KStr "right") (Motiontask.KStr "right_gesture")
                       (Motiontask.now_right clock) (decimal 15 10))
                    (Motiontask.KStr "both") (Motiontask.KStr "both_holding")
                    (Motiontask.now_both clock) (decimal 2 1)) h'
               = match dict_get Z.eqb h' (Motiontask.hand_history st2) with
                 | Some l => l
                 | None => []
                 end).
  { intros h'. unfold history_of. rewrite !expire_history, B1, R1, L1. reflexivity. }
  assert (He : forall h', existsb (is_track_selection h') (out2 ++ out3 ++ out4 ++ out5)
                          = existsb (is_track_selection h') out2).
  { intros h'. rewrite !existsb_app, L2, R2, B2, !orb_false_r. reflexivity. }
  split; [|split].
  - intros h' N. rewrite Hf, He. split; [|apply To; exact N].
    unfold history_of.
    destruct T as [(_ & _ & ->) | (_ & ->)]; rewrite ?H1;
      rewrite !(dict_get_set_other Z.eqb Z_eqb_spec) by exact N; reflexivity.
  - rewrite Hf, He. intros F.
    destruct T as [(_ & Ns & ->) | (-> & _)]; [|discriminate F].
    rewrite (dict_get_set_same Z.eqb Z_eqb_spec). split; [reflexivity | exact (Sw Ns)].
  - rewrite Hf, He. intros F.
    destruct T as [(Tt & _) | (_ & ->)]; [unfold h in F; congruence|].
    rewrite H1, (dict_get_set_same Z.eqb Z_eqb_spec). reflexivity.
Qed.

Lemma process_all_quiet (calls : list (Motiontask.Clock * Motiontask.HandData))
    (st : Motiontask.State) (h : Z) :
  (length (history_of st h) + samples_of h calls < 5)%nat ->
  existsb (is_track_selection h) (snd (process_all calls st)) = false
  /\ length (history_of (fst (process_all calls st)) h)
     = (length (history_of st h) + samples_of h calls)%nat.
Proof.
  revert st. induction calls as [|[clock data] calls IH]; intros st L.
  { cbn. split; [reflexivity | lia]. }
  cbn [process_all]. unfold samples_of in *. cbn [filter snd] in L |- *.
  destruct (process_hand_data_history clock st data) as (p & Ho & Ht & Hf).
  cbv zeta in Ho, Ht, Hf.
  destruct (Motiontask.process_hand_data clock st data) as [st1 out1].
  cbn [fst snd] in *.
  destruct (Z.eqb_spec (Motiontask.hand_id data) h) as [E|N].
  - subst h. cbn [length] in L |- *.
    destruct (deque_append_length (history_of st (Motiontask.hand_id data)) p
                ltac:(lia)) as [_ Dl].
    specialize (Dl ltac:(lia)).
    destruct (existsb (is_track_selection (Motiontask.hand_id data)) out1) eqn:F.
    + destruct (Ht eq_refl) as [_ Big]. lia.
    + specialize (Hf eq_refl).
      destruct (IH st1 ltac:(rewrite Hf, Dl; lia)) as [Q1 Q2].
      destruct (process_all calls st1) as [st2 out2]. cbn [fst snd] in *.
      rewrite existsb_app, F, Q1, Q2, Hf, Dl. split; [reflexivity | lia].
  - destruct (Ho h ltac:(congruence)) as [Same Quiet].
    destruct (IH st1 ltac:(rewrite Same; lia)) as [Q1 Q2].
    destruct (process_all calls st1) as [st2 out2]. cbn [fst snd] in *.
    rewrite existsb_app, Quiet, Q1, Q2, Same. split; reflexivity.
Qed.

(** X18. A track selection takes five fresh positions: once
    [process_hand_data] has selected a track for a hand, the history of
    that hand is empty, and no further track is selected for it before
    five more calls have reported that hand, whatever the positions,
    the labels, the gestures and the clock of the calls that follow, and
    whatever other hands report in between. *)
Theorem X18_track_selection_needs_five_new_samples :
  forall (clock : Motiontask.Clock) (st : Motiontask.State)
         (data : Motiontask.HandData)
         (calls : list (Motiontask.Clock * Motiontask.HandData)),
    existsb (is_track_selection (Motiontask.hand_id data))
      (snd (Motiontask.process_hand_data clock st data)) = true ->
    (samples_of (Motiontask.hand_id data) calls < 5)%nat ->
    let st1 := fst (Motiontask.process_hand_data clock st data) in
    history_of st1 (Motiontask.hand_id data) = []
    /\ existsb (is_track_selection (Motiontask.hand_id data))
         (snd (process_all calls st1)) = false.
Proof.
  intros clock st data calls F L st1.
  destruct (process_hand_data_history clock st data) as (p & _ & Ht & _).
  cbv zeta in Ht. destruct (Ht F) as [E _]. fold st1 in E.
  split; [exact E|].
  apply process_all_quiet. rewrite E. cbn. exact L.
Qed.

Lemma X18_witness :
  let warm := [ (clock_at 100, sweep_sample 2); (clock_at 100, sweep_sample 3);
                (clock_at 100, sweep_sample 5); (clock_at 100, sweep_sample 7) ] in
  let st := fst (process_all warm Motiontask.initial) in
  let again := [ (clock_at 200, sweep_sample 2); (clock_at 200, sweep_sample 4);
                 (clock_at 200, sweep_sample 6); (clock_at 200, sweep_sample 8) ] in
  snd (Motiontask.process_hand_data (clock_at 100) st (sweep_sample 8))
  = [ Motiontask.Print (Motiontask.HandSelectRightTrack 0 "Left") ]
  /\ existsb (is_track_selection 0)
       (snd (process_all again
               (fst (Motiontask.process_hand_data (clock_at 100) st (sweep_sample 8)))))
     = false.
Proof.
  intros warm st again. split; [vm_compute; reflexivity|].
  exact (proj2 (X18_track_selection_needs_five_new_samples (clock_at 100) st
                  (sweep_sample 8) again
                  ltac:(vm_compute; reflexivity) ltac:(vm_compute; lia))).
Defined.

Lemma process_all_bounded (calls : list (Motiontask.Clock * Motiontask.HandData))
    (st : Motiontask.State) :
  (forall h, (length (history_of st h) <= 10)%nat) ->
  forall h, (length (history_of (fst (process_all calls st)) h) <= 10)%nat.
Proof.
  revert st. induction calls as [|[clock data] calls IH]; intros st B h; [apply B|].
  cbn [process_all].
  destruct (process_hand_data_history clock st data) as (p & Ho & Ht & Hf).
  cbv zeta in Ho, Ht, Hf.
  destruct (Motiontask.process_hand_data clock st data) as [st1 out1].
  cbn [fst snd] in *.
  assert (B1 : forall h', (length (history_of st1 h') <= 10)%nat).
  { intros h'. destruct (Z.eq_dec h' (Motiontask.hand_id data)) as [->|N].
    - destruct (existsb (is_track_selection (Motiontask.hand_id data)) out1).
      + rewrite (proj1 (Ht eq_refl)). cbn. lia.
      + rewrite (Hf eq_refl). apply deque_append_length. apply B.
    - rewrite (proj1 (Ho h' N)). apply B. }
  specialize (IH st1 B1 h).
  destruct (process_all calls st1) as [st2 out2]. exact IH.
Qed.

(** X19. The histories stay short and start cold: over any sequence of
    calls of [process_hand_data] from the state in which the module is
    loaded, no hand ever has more than 10 positions kept, and no track
    is selected for a hand that has reported fewer than five times. *)
Theorem X19_histories_are_bounded_and_start_cold :
  forall (calls : list (Motiontask.Clock * Motiontask.HandData)) (h : Z),
    (length (history_of (fst (process_all calls Motiontask.initial)) h) <= 10)%nat
    /\ ((samples_of h calls < 5)%nat ->
        existsb (is_track_selection h) (snd (process_all calls Motiontask.initial))
        = false).
Proof.
  intros calls h. split.
  - apply process_all_bounded. intros h'. cbn. lia.
  - intros L. apply process_all_quiet. cbn. exact L.
Qed.

(** ** The actions handed to the OSC callback *)

Lemma classify_swipe_label (hand_label : string) (start finish : py_float * py_float) :
  (Motiontask.classify_swipe hand_label start finish = Some "right_track" ->
   hand_label = "Left")
  /\ (Motiontask.classify_swipe hand_label start finish = Some "left_track" ->
      hand_label = "Right").
Proof.
  unfold Motiontask.classify_swipe. destruct start as [sx sy], finish as [ex ey].
  cbv zeta.
  destruct (py_gt (py_abs (py_sub ex sx)) _).
  - destruct (String.eqb hand_label "Left") eqn:L; cbn [andb].
    + apply String.eqb_eq in L. subst hand_label. cbn [String.eqb Ascii.eqb Bool.eqb andb].
      destruct (py_lt sx _ && py_gt ex _ && py_gt (py_sub ex sx) _);
        split; intros H; try reflexivity; discriminate H.
    + destruct (String.eqb hand_label "Right") eqn:R; cbn [andb].
      * apply String.eqb_eq in R.
        destruct (py_gt sx _ && py_lt ex _ && py_lt (py_sub ex sx) _);
          split; intros H; try assumption; discriminate H.
      * split; intros H; discriminate H.
  - destruct (py_gt (py_abs (py_sub ey sy)) _); [|split; intros H; discriminate H].
    destruct (py_lt (py_sub ey sy) _); [split; intros H; discriminate H|].
    destruct (py_gt (py_sub ey sy) _); split; intros H; discriminate H.
Qed.

Lemma detect_swipe_label (st : Motiontask.State) (hand_id : Z) (hand_label : string)
    (palm_x palm_y : py_float) :
  (snd (Motiontask.detect_swipe st hand_id hand_label palm_x palm_y) = Some "right_track"
   -> hand_label = "Left")
  /\ (snd (Motiontask.detect_swipe st hand_id hand_label palm_x palm_y)
      = Some "left_track" -> hand_label = "Right").
Proof.
  unfold Motiontask.detect_swipe. cbv zeta. cbn [snd].
  destruct (length _ <? 5)%nat; [split; intros H; discriminate H|].
  destruct (Motiontask.deque_append _ _) as [|start rest];
    [split; intros H; discriminate H|].
  apply classify_swipe_label.
Qed.

(** What each block of [process_hand_data] can print or call. *)
Lemma track_block_events (st : Motiontask.State) (data : Motiontask.HandData)
    (swipe : option string) (t : py_float) (ev : Motiontask.Event) :
  In ev (snd (Motiontask.track_block st data swipe t)) ->
  (swipe = Some "right_track"
   /\ (ev = Motiontask.Print (Motiontask.HandSelectRightTrack
                                 (Motiontask.hand_id data) (Motiontask.hand_label data))
       \/ ev = Motiontask.Callback "right_track" (Some (Motiontask.hand_id data))))
  \/ (swipe = Some "left_track"
      /\ (ev = Motiontask.Print (Motiontask.HandSelectLeftTrack
                                    (Motiontask.hand_id data) (Motiontask.hand_label data))
          \/ ev = Motiontask.Callback "left_track" (Some (Motiontask.hand_id data)))).
Proof.
  unfold Motiontask.track_block.
  destruct swipe as [s|]; [|intros []].
  destruct (String.eqb s "right_track") eqn:R; cbn [orb].
  - apply String.eqb_eq in R. subst s.
    destruct (Motiontask.may_act st _ t _); [|intros []].
    unfold Motiontask.call_back. cbn.
    destruct (Motiontask.osc_callback st); cbn; intros H; left; split; try reflexivity;
      intuition auto.
  - destruct (String.eqb s "left_track") eqn:L; [|intros []].
    apply String.eqb_eq in L. subst s.
    destruct (Motiontask.may_act st _ t _); [|intros []].
    unfold Motiontask.call_back. cbn.
    destruct (Motiontask.osc_callback st); cbn; intros H; right; split; try reflexivity;
      intuition auto.
Qed.

Lemma left_block_events (st : Motiontask.State) (t : py_float) :
  incl (snd (Motiontask.left_block st t))
    [ Motiontask.Print Motiontask.LeftThumbUpSelectUpScene;
      Motiontask.Callback "up_scene" None;
      Motiontask.Print Motiontask.LeftThumbDownSelectDownScene;
      Motiontask.Callback "down_scene" None ].
Proof.
  unfold Motiontask.left_block.
  destruct (Motiontask.check_left_hand_gesture st) as [g|]; [|intros ev []].
  destruct (Motiontask.may_act st _ t _); [|intros ev []].
  unfold Motiontask.call_back.
  destruct (String.eqb g "up_scene"); [|destruct (String.eqb g "down_scene")];
    cbn; destruct (Motiontask.osc_callback st); intros ev H; cbn in *; intuition auto.
Qed.

Lemma right_block_events (st : Motiontask.State) (t : py_float) :
  incl (snd (Motiontask.right_block st t))
    [ Motiontask.Print Motiontask.RightVictoryFireClip;
      Motiontask.Callback "fire_clip" None;
      Motiontask.Print Motiontask.RightPointingUpFireScene;
      Motiontask.Callback "fire_scene" None ].
Proof.
  unfold Motiontask.right_block.
  destruct (Motiontask.check_right_hand_gesture st) as [g|]; [|intros ev []].
  destruct (Motiontask.may_act st _ t _); [|intros ev []].
  unfold Motiontask.call_back.
  destruct (String.eqb g "fire_clip"); [|destruct (String.eqb g "fire_scene")];
    cbn; destruct (Motiontask.osc_callback st); intros ev H; cbn in *; intuition auto.
Qed.

Lemma both_block_events (st : Motiontask.State) (t : py_float) :
  incl (snd (Motiontask.both_block st t))
    [ Motiontask.Print Motiontask.BothHandsHoldingMasterTrack;
      Motiontask.Callback "master_track" None ].
Proof.
  unfold Motiontask.both_block.
  destruct (Motiontask.check_both_hands_holding st) as [g|]; [|intros ev []].
  destruct (Motiontask.may_act st _ t _); [|intros ev []].
  unfold Motiontask.call_back.
  cbn; destruct (Motiontask.osc_callback st); intros ev H; cbn in *; intuition auto.
Qed.

(** Every event of a call, sorted by the block it comes from. *)
Lemma process_hand_data_events (clock : Motiontask.Clock) (st : Motiontask.State)
    (data : Motiontask.HandData) (ev : Motiontask.Event) :
  In ev (snd (Motiontask.process_hand_data clock st data)) ->
  (Motiontask.hand_label data = "Left"
   /\ (ev = Motiontask.Print (Motiontask.HandSelectRightTrack
                                 (Motiontask.hand_id data) (Motiontask.hand_label data))
       \/ ev = Motiontask.Callback "right_track" (Some (Motiontask.hand_id data))))
  \/ (Motiontask.hand_label data = "Right"
      /\ (ev = Motiontask.Print (Motiontask.HandSelectLeftTrack
                                    (Motiontask.hand_id data) (Motiontask.hand_label data))
          \/ ev = Motiontask.Callback "left_track" (Some (Motiontask.hand_id data))))
  \/ In ev [ Motiontask.Print Motiontask.LeftThumbUpSelectUpScene;
             Motiontask.Callback "up_scene" None;
             Motiontask.Print Motiontask.LeftThumbDownSelectDownScene;
             Motiontask.Callback "down_scene" None;
             Motiontask.Print Motiontask.RightVictoryFireClip;
             Motiontask.Callback "fire_clip" None;
             Motiontask.Print Motiontask.RightPointingUpFireScene;
             Motiontask.Callback "fire_scene" None;
             Motiontask.Print Motiontask.BothHandsHoldingMasterTrack;
             Motiontask.Callback "master_track" None ].
Proof.
  unfold Motiontask.process_hand_data.
  set (px := match dict_get String.eqb "palm_x" _ with Some x => x | None => _ end).
  set (py := match dict_get String.eqb "palm_y" _ with Some y => y | None => _ end).
  set (st0 := match Motiontask.gesture data with Some g => _ | None => st end).
  pose proof (detect_swipe_label st0 (Motiontask.hand_id data)
                (Motiontask.hand_label data) px py) as [Lr Ll].
  destruct (Motiontask.detect_swipe st0 _ _ px py) as [st1 swipe]. cbn [snd] in Lr, Ll.
  pose proof (track_block_events st1 data swipe (Motiontask.now clock) ev) as T.
  destruct (Motiontask.track_block st1 data swipe (Motiontask.now clock)) as [st2 out2].
  pose proof (left_block_events st2 (Motiontask.now clock) ev) as L.
  destruct (Motiontask.left_block st2 (Motiontask.now clock)) as [st3 out3].
  pose proof (right_block_events st3 (Motiontask.now clock) ev) as R.
  destruct (Motiontask.right_block st3 (Motiontask.now clock)) as [st4 out4].
  pose proof (both_block_events st4 (Motiontask.now clock) ev) as B.
  destruct (Motiontask.both_block st4 (Motiontask.now clock)) as [st5 out5].
  cbn [fst snd] in *. intros H.
  apply in_app_or in H. destruct H as [H|H].
  { destruct (T H) as [[S E]|[S E]]; [left | right; left]; split; auto. }
  right. right.
  apply in_app_or in H. destruct H as [H|H].
  { specialize (L H). cbn in L |- *. intuition auto. }
  apply in_app_or in H. destruct H as [H|H].
  { specialize (R H). cbn in R |- *. intuition auto. }
  specialize (B H). cbn in B |- *. intuition auto.
Qed.

Lemma process_hand_data_handled (clock : Motiontask.Clock) (st : Motiontask.State)
    (data : Motiontask.HandData) :
  forallb handled_by_send_action (snd (Motiontask.process_hand_data clock st data))
  = true.
Proof.
  apply forallb_forall. intros ev H.
  destruct (process_hand_data_events clock st data ev H)
    as [[_ [-> | ->]] | [[_ [-> | ->]] | E]]; try reflexivity.
  cbn in E. repeat (destruct E as [<- | E]; [reflexivity|]). destruct E.
Qed.

(** X20. Everything [process_hand_data] hands to the OSC callback is an
    action that [send_action] of main.py knows: over any sequence of
    calls, each call of the callback makes [send_action] send exactly
    one OSC message, so no action is dropped silently; in particular the
    swipes "up" and "down" that [detect_swipe] can return never reach
    the callback.  A "right_track" is only ever sent for the hand of the
    call and when that hand is labelled "Left", a "left_track" only when
    it is labelled "Right". *)
Theorem X20_every_callback_is_an_action_of_send_action :
  forall (calls : list (Motiontask.Clock * Motiontask.HandData))
         (st : Motiontask.State),
    forallb handled_by_send_action (snd (process_all calls st)) = true
    /\ (forall action hand,
          In (Motiontask.Callback action hand) (snd (process_all calls st)) ->
          action <> "up" /\ action <> "down")
    /\ forall (clock : Motiontask.Clock) (data : Motiontask.HandData)
              (hand : option Z),
         let out := snd (Motiontask.process_hand_data clock st data) in
         (In (Motiontask.Callback "right_track" hand) out ->
          Motiontask.hand_label data = "Left"
          /\ hand = Some (Motiontask.hand_id data))
         /\ (In (Motiontask.Callback "left_track" hand) out ->
             Motiontask.hand_label data = "Right"
             /\ hand = Some (Motiontask.hand_id data)).
Proof.
  intros calls st.
  assert (A : forallb handled_by_send_action (snd (process_all calls st)) = true).
  { revert st. induction calls as [|[clock data] calls IH]; intros st; [reflexivity|].
    cbn [process_all].
    pose proof (process_hand_data_handled clock st data) as H1.
    destruct (Motiontask.process_hand_data clock st data) as [st1 out1].
    specialize (IH st1). destruct (process_all calls st1) as [st2 out2].
    cbn [snd] in *. rewrite forallb_app, H1, IH. reflexivity. }
  split; [exact A|]. split.
  - intros action hand H.
    rewrite forallb_forall in A. specialize (A _ H). cbn in A.
    split; intros ->; discriminate A.
  - intros clock data hand out. split; intros H;
      destruct (process_hand_data_events clock st data _ H)
        as [[L [E | E]] | [[L [E | E]] | E]];
      try discriminate E;
      try (injection E as ->; split; [exact L | reflexivity]);
      cbn in E; repeat (destruct E as [E | E]; [discriminate E|]); destruct E.
Qed.

(** ** The delay between two scene selections *)

Lemma check_left_range (keys : list Z) (st : Motiontask.State) (g : string) :
  Motiontask.check_left_hand_gesture_from keys st = Some g ->
  g = "up_scene" \/ g = "down_scene".
Proof.
  induction keys as [|k keys IH]; cbn; [discriminate|].
  destruct (dict_get Z.eqb k (Motiontask.hand_labels st)) as [l|]; [|exact IH].
  destruct (dict_get Z.eqb k (Motiontask.hand_gestures st)) as [n|]; [|exact IH].
  destruct (String.eqb l "Left"); [|exact IH].
  destruct (String.eqb n "Thumb_Up" || String.eqb n "Thumbs_Up").
  { intros H. injection H as <-. left. reflexivity. }
  destruct (String.eqb n "Thumb_Down" || String.eqb n "Thumbs_Down").
  { intros H. injection H as <-. right. reflexivity. }
  exact IH.
Qed.

Lemma left_block_scene (st : Motiontask.State) (t : py_float) :
  let r := Motiontask.left_block st t in
  (existsb is_scene_selection (snd r) = true ->
   Motiontask.may_act st (Motiontask.KStr "left_gesture") t (decimal 15 10) = true
   /\ left_gesture_time (fst r) = Some t)
  /\ (existsb is_scene_selection (snd r) = false ->
      left_gesture_time (fst r) = left_gesture_time st).
Proof.
  cbv zeta. unfold Motiontask.left_block, Motiontask.check_left_hand_gesture.
  pose proof (check_left_range (map fst (Motiontask.hand_history st)) st) as Rg.
  destruct (Motiontask.check_left_hand_gesture_from _ st) as [g|];
    [|split; [discriminate | reflexivity]].
  destruct (Motiontask.may_act st _ t _) eqn:M;
    [|split; [discriminate | reflexivity]].
  destruct (Rg g eq_refl) as [-> | ->]; cbn; split; try discriminate; intros _;
    (split; [reflexivity|]); unfold left_gesture_time; cbn;
    apply (dict_get_set_same Motiontask.key_eqb key_eqb_spec).
Qed.

Lemma track_block_scene (st : Motiontask.State) (data : Motiontask.HandData)
    (swipe : option string) (t : py_float) :
  existsb is_scene_selection (snd (Motiontask.track_block st data swipe t)) = false
  /\ left_gesture_time (fst (Motiontask.track_block st data swipe t))
     = left_gesture_time st.
Proof.
  unfold Motiontask.track_block.
  destruct swipe as [s|]; [|split; reflexivity].
  destruct (String.eqb s "right_track" || String.eqb s "left_track");
    [|split; reflexivity].
  destruct (Motiontask.may_act st _ t _); [|split; reflexivity].
  unfold Motiontask.call_back, left_gesture_time.
  destruct (String.eqb s "right_track"); cbn; destruct (Motiontask.osc_callback st);
    (split; [reflexivity|]);
    apply (dict_get_set_other Motiontask.key_eqb key_eqb_spec); discriminate.
Qed.

Lemma right_block_scene (st : Motiontask.State) (t : py_float) :
  existsb is_scene_selection (snd (Motiontask.right_block st t)) = false
  /\ left_gesture_time (fst (Motiontask.right_block st t)) = left_gesture_time st.
Proof.
  unfold Motiontask.right_block.
  destruct (Motiontask.check_right_hand_gesture st) as [g|]; [|split; reflexivity].
  destruct (Motiontask.may_act st _ t _); [|split; reflexivity].
  unfold Motiontask.call_back, left_gesture_time.
  destruct (String.eqb g "fire_clip"); [|destruct (String.eqb g "fire_scene")];
    cbn; destruct (Motiontask.osc_callback st);
    (split; [reflexivity|]);
    apply (dict_get_set_other Motiontask.key_eqb key_eqb_spec); discriminate.
Qed.

Lemma both_block_scene (st : Motiontask.State) (t : py_float) :
  existsb is_scene_selection (snd (Motiontask.both_block st t)) = false
  /\ left_gesture_time (fst (Motiontask.both_block st t)) = left_gesture_time st.
Proof.
  unfold Motiontask.both_block.
  destruct (Motiontask.check_both_hands_holding st) as [g|]; [|split; reflexivity].
  destruct (Motiontask.may_act st _ t _); [|split; reflexivity].
  unfold Motiontask.call_back, left_gesture_time.
  cbn; destruct (Motiontask.osc_callback st);
    (split; [reflexivity|]);
    apply (dict_get_set_other Motiontask.key_eqb key_eqb_spec); discriminate.
Qed.

Lemma expire_scene (st : Motiontask.State) (k1 k2 : Motiontask.Key)
    (reading delay : py_float) :
  left_gesture_time (Motiontask.expire st k1 k2 reading delay) = left_gesture_time st.
Proof.
  unfold Motiontask.expire.
  destruct (dict_mem Motiontask.key_eqb k1 _); [|reflexivity].
  destruct (py_gt _ delay); reflexivity.
Qed.

Lemma process_hand_data_scene (clock : Motiontask.Clock) (st : Motiontask.State)
    (data : Motiontask.HandData) :
  let r := Motiontask.process_hand_data clock st data in
  (existsb is_scene_selection (snd r) = true ->
   match left_gesture_time st with
   | None => True
   | Some last =>
       py_gt (py_sub (Motiontask.now clock) last) (decimal 15 10) = true
   end
   /\ left_gesture_time (fst r) = Some (Motiontask.now clock))
  /\ (existsb is_scene_selection (snd r) = false ->
      left_gesture_time (fst r) = left_gesture_time st).
Proof.
  cbv zeta. unfold Motiontask.process_hand_data.
  set (px := match dict_get String.eqb "palm_x" _ with Some x => x | None => _ end).
  set (py := match dict_get String.eqb "palm_y" _ with Some y => y | None => _ end).
  set (st0 := match Motiontask.gesture data with Some g => _ | None => st end).
  assert (H0 : left_gesture_time st0 = left_gesture_time st).
  { unfold st0. destruct (Motiontask.gesture data); reflexivity. }
  assert (H1 : left_gesture_time
                 (fst (Motiontask.detect_swipe st0 (Motiontask.hand_id data)
                         (Motiontask.hand_label data) px py))
               = left_gesture_time st) by exact H0.
  destruct (Motiontask.detect_swipe st0 _ _ px py) as [st1 swipe]. cbn [fst] in H1.
  pose proof (track_block_scene st1 data swipe (Motiontask.now clock)) as [T1 T2].
  destruct (Motiontask.track_block st1 data swipe (Motiontask.now clock)) as [st2 out2].
  pose proof (left_block_scene st2 (Motiontask.now clock)) as [L1 L2].
  destruct (Motiontask.left_block st2 (Motiontask.now clock)) as [st3 out3].
  pose proof (right_block_scene st3 (Motiontask.now clock)) as [R1 R2].
  destruct (Motiontask.right_block st3 (Motiontask.now clock)) as [st4 out4].
  pose proof (both_block_scene st4 (Motiontask.now clock)) as [B1 B2].
  destruct (Motiontask.both_block st4 (Motiontask.now clock)) as [st5 out5].
  cbn [fst snd] in *.
  rewrite !expire_scene, !existsb_app, T1, R1, B1, B2, R2, !orb_false_r.
  cbn [orb]. split.
  - intros F. destruct (L1 F) as [M E]. split; [|exact E].
    unfold Motiontask.may_act in M. fold (left_gesture_time st2) in M.
    rewrite T2, H1 in M. destruct (left_gesture_time st); [exact M | exact I].
  - intros F. rewrite (L2 F), T2, H1. reflexivity.
Qed.

Lemma process_all_scene_quiet (calls : list (Motiontask.Clock * Motiontask.HandData))
    (st : Motiontask.State) :
  existsb is_scene_selection (snd (process_all calls st)) = false ->
  left_gesture_time (fst (process_all calls st)) = left_gesture_time st.
Proof.
  revert st. induction calls as [|[clock data] calls IH]; intros st; [reflexivity|].
  cbn [process_all].
  pose proof (process_hand_data_scene clock st data) as [_ Q].
  destruct (Motiontask.process_hand_data clock st data) as [st1 out1].
  specialize (IH st1). destruct (process_all calls st1) as [st2 out2].
  cbn [fst snd] in *. rewrite existsb_app. intros F.
  apply orb_false_iff in F. destruct F as [F1 F2].
  rewrite (IH F2). apply Q. exact F1.
Qed.

(** X21. Scene selections are spaced on the clock: if a call of
    [process_hand_data] selects a scene (the left thumb up or down), and
    a later call is the next one to select a scene, then the clock
    reading of the later call exceeds that of the earlier one by more
    than 1.5 in binary64 arithmetic, however many calls, from whatever
    hands, come in between.  A gesture that is held therefore sends at
    most one scene action per second and a half. *)
Theorem X21_scene_selections_are_spaced_on_the_clock :
  forall (clock1 clock2 : Motiontask.Clock) (st : Motiontask.State)
         (data1 data2 : Motiontask.HandData)
         (calls : list (Motiontask.Clock * Motiontask.HandData)),
    let r1 := Motiontask.process_hand_data clock1 st data1 in
    let r2 := process_all calls (fst r1) in
    let r3 := Motiontask.process_hand_data clock2 (fst r2) data2 in
    existsb is_scene_selection (snd r1) = true ->
    existsb is_scene_selection (snd r2) = false ->
    existsb is_scene_selection (snd r3) = true ->
    py_gt (py_sub (Motiontask.now clock2) (Motiontask.now clock1)) (decimal 15 10)
    = true.
Proof.
  intros clock1 clock2 st data1 data2 calls r1 r2 r3 F1 F2 F3.
  destruct (process_hand_data_scene clock1 st data1) as [A _].
  destruct (A F1) as [_ E1]. fold r1 in E1.
  pose proof (process_all_scene_quiet calls (fst r1) F2) as E2. fold r2 in E2.
  destruct (process_hand_data_scene clock2 (fst r2) data2) as [B _].
  destruct (B F3) as [G _]. rewrite E2, E1 in G. exact G.
Qed.

Lemma X21_witness :
  let st := Motiontask.set_osc_callback Motiontask.initial true in
  snd (Motiontask.process_hand_data (clock_at 100) st (thumb_sample "Thumb_Up"))
  = [ Motiontask.Print Motiontask.LeftThumbUpSelectUpScene;
      Motiontask.Callback "up_scene" None ]
  /\ py_gt (py_sub (float_of_int 102) (float_of_int 100)) (decimal 15 10) = true.
Proof.
  intros st. split; [vm_compute; reflexivity|].
  exact (X21_scene_selections_are_spaced_on_the_clock (clock_at 100) (clock_at 102) st
           (thumb_sample "Thumb_Up") (thumb_sample "Thumb_Down")
           [ (clock_at 101, thumb_sample "Thumb_Up") ]
           ltac:(vm_compute; reflexivity) ltac:(vm_compute; reflexivity)
           ltac:(vm_compute; reflexivity)).
Defined.

(** ** The hands handed to the particle system *)

Lemma py_sub_self (t : py_float) :
  py_isfinite t = true -> py_lt (py_sub t t) (decimal 1 1) = true.
Proof.
  destruct t as [s| s | |s m e]; cbn [py_isfinite]; try discriminate; intros _.
  - destruct s; vm_compute; reflexivity.
  - unfold py_sub, SFsub. cbv zeta. rewrite Z.sub_diag. vm_compute. reflexivity.
Qed.

Lemma replace_or_append_ids (hi : Main.HandInfo) (l : list Main.HandInfo) :
  map Main.hand_id (Main.replace_or_append hi l)
  = if existsb (fun h => Main.hand_id h =? Main.hand_id hi) l
    then map Main.hand_id l
    else map Main.hand_id l ++ [ Main.hand_id hi ].
Proof.
  induction l as [|h l IH]; cbn; [reflexivity|].
  destruct (Z.eqb_spec (Main.hand_id h) (Main.hand_id hi)) as [E|N]; cbn.
  - rewrite E. reflexivity.
  - rewrite IH. destruct (existsb _ l); reflexivity.
Qed.

Lemma replace_or_append_in (hi : Main.HandInfo) (l : list Main.HandInfo) :
  In hi (Main.replace_or_append hi l).
Proof.
  induction l as [|h l IH]; cbn; [left; reflexivity|].
  destruct (Main.hand_id h =? Main.hand_id hi); [left; reflexivity | right; exact IH].
Qed.

Lemma replace_or_append_nodup (hi : Main.HandInfo) (l : list Main.HandInfo) :
  NoDup (map Main.hand_id l) ->
  NoDup (map Main.hand_id (Main.replace_or_append hi l)).
Proof.
  intros N. rewrite replace_or_append_ids.
  destruct (existsb _ l) eqn:E; [exact N|].
  apply NoDup_app; [exact N | repeat constructor; intros [] |].
  intros x Hx [<- | []].
  apply in_map_iff in Hx. destruct Hx as (h & Eh & Hh).
  assert (X : existsb (fun h => Main.hand_id h =? Main.hand_id hi) l = true).
  { apply existsb_exists. exists h. split; [exact Hh | apply Z.eqb_eq; exact Eh]. }
  congruence.
Qed.

Lemma fresh_hands_stay_distinct (keep : Main.HandInfo -> bool)
    (hands : list Main.HandInfo) :
  NoDup (map Main.hand_id hands) ->
  NoDup (map Main.hand_id (filter keep hands)).
Proof.
  induction hands as [|hi hands IH]; intros D; [exact D|].
  cbn [map] in D. apply NoDup_cons_iff in D. destruct D as [Fresh D].
  cbn [filter]. destruct (keep hi); [|exact (IH D)].
  cbn [map]. apply NoDup_cons; [|exact (IH D)].
  intros Again. apply Fresh.
  apply in_map_iff in Again. destruct Again as (other & Same & Kept).
  apply filter_In in Kept. destruct Kept as [Kept _].
  rewrite <- Same. apply in_map. exact Kept.
Qed.

Lemma message_shape (reading : py_float) (l : list ParticleEffects.HandDict) :
  ParticleEffects.hand_count (ParticleEffects.message reading l) = Z.of_nat (length l)
  /\ ParticleEffects.timestamp (ParticleEffects.message reading l) = reading
  /\ ParticleEffects.hands (ParticleEffects.message reading l)
     = match l with
       | [] => None
       | _ => Some (map ParticleEffects.hand_of l)
       end.
Proof.
  destruct l; repeat split; reflexivity.
Qed.

Lemma update_hand_data_shape (reading : py_float) (schedules : Z -> bool)
    (self : ParticleEffects.Handler) (l : list ParticleEffects.HandDict) :
  let r := ParticleEffects.update_hand_data reading schedules self l in
  ParticleEffects.latest_hand_data (fst r) = Some (ParticleEffects.message reading l)
  /\ incl (ParticleEffects.clients (fst r)) (ParticleEffects.clients self)
  /\ Forall (fun m => snd m = ParticleEffects.message reading l
                      /\ In (fst m) (ParticleEffects.clients self)
                      /\ schedules (fst m) = true) (snd r)
  /\ (ParticleEffects.loop_running self = true ->
      map fst (snd r) = filter schedules (ParticleEffects.clients self)
      /\ ParticleEffects.clients (fst r) = filter schedules (ParticleEffects.clients self)).
Proof.
  cbv zeta. unfold ParticleEffects.update_hand_data.
  destruct (ParticleEffects.clients self) as [|c cs] eqn:C.
  { cbn. rewrite ?C. repeat split; try constructor; try discriminate;
    try (intros x []); try (intros _; reflexivity). }
  destruct (ParticleEffects.loop_running self) eqn:R; cbn [fst snd].
  - cbn [ParticleEffects.latest_hand_data ParticleEffects.clients].
    split; [reflexivity|]. split.
    { intros x Hx. apply filter_In in Hx. apply Hx. }
    split.
    { apply Forall_forall. intros m Hm. apply in_map_iff in Hm.
      destruct Hm as (x & <- & Hx). apply filter_In in Hx. cbn. tauto. }
    intros _. split; [|reflexivity].
    rewrite map_map. cbn. apply map_id.
  - cbn [ParticleEffects.latest_hand_data ParticleEffects.clients].
    rewrite ?C. split; [reflexivity|]. split; [apply incl_refl|].
    split; [constructor | discriminate].
Qed.

Lemma collect_keeps_nodup (current_time reading : py_float) (schedules : Z -> bool)
    (st : Main.State) (data : Motiontask.HandData) :
  NoDup (map Main.hand_id (Main.particle_hand_data_list st)) ->
  NoDup (map Main.hand_id
           (Main.particle_hand_data_list
              (fst (Main.collect_hand_data_for_particles current_time reading
                      schedules st data)))).
Proof.
  intros N. unfold Main.collect_hand_data_for_particles. cbv zeta.
  destruct (ParticleEffects.update_hand_data _ _ _ _) as [handler sent].
  cbn [fst Main.particle_hand_data_list].
  apply fresh_hands_stay_distinct. apply replace_or_append_nodup. exact N.
Qed.

Lemma collect_all_nodup
    (calls : list (py_float * py_float * (Z -> bool) * Motiontask.HandData))
    (st : Main.State) :
  NoDup (map Main.hand_id (Main.particle_hand_data_list st)) ->
  NoDup (map Main.hand_id (Main.particle_hand_data_list (fst (collect_all calls st)))).
Proof.
  revert st. induction calls as [|[[[t r] s] d] calls IH]; intros st N; [exact N|].
  cbn [collect_all].
  pose proof (collect_keeps_nodup t r s st d N) as N1.
  destruct (Main.collect_hand_data_for_particles t r s st d) as [st1 out1].
  specialize (IH st1 N1). destruct (collect_all calls st1) as [st2 out2]. exact IH.
Qed.

(** X22. The particle system is told of each hand once: after any
    sequence of calls of [collect_hand_data_for_particles], a further
    call leaves a list in which no two entries share a [hand_id]; if its
    clock reading is a number, the hand of the call is in the list with
    the coordinates just reported (missing ones replaced by their
    defaults); the message built by [update_hand_data] counts exactly
    the entries of that list and names their hands in the same order;
    and that message, and no other, is scheduled for the clients whose
    scheduling goes through. *)
Theorem X22_particle_system_sees_each_hand_once :
  forall (calls : list (py_float * py_float * (Z -> bool) * Motiontask.HandData))
         (handler : ParticleEffects.Handler)
         (current_time reading : py_float) (schedules : Z -> bool)
         (data : Motiontask.HandData),
    let st := fst (collect_all calls (main_initial handler)) in
    let r := Main.collect_hand_data_for_particles current_time reading schedules
               st data in
    let l := Main.particle_hand_data_list (fst r) in
    NoDup (map Main.hand_id l)
    /\ (py_isfinite current_time = true ->
        In {| Main.hand_id := Motiontask.hand_id data;
              Main.openness := Main.coordinate data "openness" (decimal 5 10);
              Main.pinch := Main.coordinate data "pinch" (float_of_int 0);
              Main.palm_x := Main.coordinate data "palm_x" (decimal 5 10);
              Main.palm_y := Main.coordinate data "palm_y" (decimal 5 10);
              Main.palm_z := Main.coordinate data "palm_z" (float_of_int 0) |} l)
    /\ (exists msg : ParticleEffects.Message,
          ParticleEffects.latest_hand_data (Main.particle_handler (fst r)) = Some msg
          /\ ParticleEffects.hand_count msg = Z.of_nat (length l)
          /\ match ParticleEffects.hands msg with
             | Some hs => map ParticleEffects.id hs = map Main.hand_id l
             | None => l = []
             end
          /\ Forall (fun m => snd m = msg /\ schedules (fst m) = true) (snd r)).
Proof.
  intros calls handler current_time reading schedules data st r l.
  assert (N : NoDup (map Main.hand_id (Main.particle_hand_data_list st))).
  { apply collect_all_nodup. constructor. }
  split; [apply collect_keeps_nodup; exact N|].
  unfold l, r, Main.collect_hand_data_for_particles. cbv zeta.
  set (hi := {| Main.hand_id := Motiontask.hand_id data;
                Main.openness := _; Main.pinch := _; Main.palm_x := _;
                Main.palm_y := _; Main.palm_z := _ |}).
  set (ts := dict_set Z.eqb (Motiontask.hand_id data) current_time
               (Main.hand_data_timestamps st)).
  set (l2 := filter (Main.fresh ts current_time)
               (Main.replace_or_append hi (Main.particle_hand_data_list st))).
  pose proof (update_hand_data_shape reading schedules (Main.particle_handler st)
                (map Main.as_dict l2)) as (U1 & _ & U3 & _).
  cbv zeta in U1, U3.
  destruct (ParticleEffects.update_hand_data reading schedules
              (Main.particle_handler st) (map Main.as_dict l2)) as [h' sent].
  cbn [fst snd Main.particle_hand_data_list Main.particle_handler] in *.
  split.
  - intros F. apply filter_In. split; [apply replace_or_append_in|].
    unfold Main.fresh, ts. cbn [Main.hand_id hi].
    rewrite (dict_get_set_same Z.eqb Z_eqb_spec). apply py_sub_self. exact F.
  - exists (ParticleEffects.message reading (map Main.as_dict l2)).
    destruct (message_shape reading (map Main.as_dict l2)) as (M1 & _ & M3).
    split; [exact U1|]. split; [rewrite M1, length_map; reflexivity|]. split.
    + rewrite M3. destruct l2 as [|a l2']; [reflexivity|].
      change (map ParticleEffects.id (map ParticleEffects.hand_of
                                        (map Main.as_dict (a :: l2')))
              = map Main.hand_id (a :: l2')).
      rewrite !map_map. apply map_ext. intros x. reflexivity.
    + eapply Forall_impl; [|exact U3]. intros m (A & _ & B). split; assumption.
Qed.

(** ** The motion producer and its server *)

Lemma update_frame_still_serving (env : Env) (self : StreamingServer) (frame : Frame) :
  still_serving (result_self (Motion.update_frame env self frame)) = still_serving self.
Proof.
  unfold still_serving.
  rewrite (proj1 (update_frame_sockets env self frame)).
  f_equal.
  unfold Motion.update_frame. destruct (cv_imencode env frame) as [fd|]; [|reflexivity].
  pose proof (tcp_step_server env (Motion.publish_jpeg self fd) frame) as T.
  destruct (Motion.tcp_step env (Motion.publish_jpeg self fd) frame) as [s4 o4].
  cbn [fst result_self] in *. rewrite T.
  unfold Motion.publish_jpeg. destruct (server self) eqn:E; cbn; rewrite ?E; reflexivity.
Qed.

Lemma start_still_serving (senv : StartEnv) (self : StreamingServer) :
  http_bind_ok senv = true ->
  exists srv out,
    Motion.start senv self = Returned srv out /\ still_serving srv = true.
Proof.
  intros H. unfold Motion.start. rewrite H. cbn [negb].
  destruct (use_virtual_cam (set_server self _ _)); [destruct (vcam_answer senv)|];
    destruct (tcp_bind_ok senv); eexists; eexists; split; reflexivity.
Qed.

Lemma producer_loop_serving {S : Type}
    (data_callback : option (S -> Motiontask.HandData -> S))
    (turns : list CameraTurn) (srv : StreamingServer) (cb : S) :
  let r := MediaPipe.loop data_callback turns srv cb in
  still_serving (fst (fst (fst r))) = still_serving srv
  /\ (snd (fst r) = LoopExited -> In CameraEnds turns)
  /\ (snd (fst r) = LoopGoesOn -> ~ In CameraEnds turns).
Proof.
  revert srv cb. induction turns as [|t turns IH]; intros srv cb.
  { cbn. split; [reflexivity|]. split; [discriminate | intros _ []]. }
  destruct t as [frame hands env later| |hands e]; cbn [MediaPipe.loop].
  - pose proof (update_frame_still_serving env srv frame) as U.
    destruct (Motion.update_frame env srv frame) as [s1 o1|e s1 o1];
      cbn [result_self] in U.
    + destruct later as [e|].
      * cbn. split; [exact U|]. split; discriminate.
      * specialize (IH s1 (MediaPipe.call_back data_callback hands cb)).
        cbv zeta in IH.
        destruct (MediaPipe.loop data_callback turns s1 _) as [[[s2 c2] e2] o2].
        cbn [fst snd] in *. destruct IH as (A & B & C).
        split; [congruence|]. split.
        { intros E. right. apply B. exact E. }
        { intros E [X|X]; [discriminate X | exact (C E X)]. }
    + cbn. split; [exact U|]. split; discriminate.
  - cbn. split; [reflexivity|]. split; [intros _; left; reflexivity | discriminate].
  - cbn. split; [reflexivity|]. split; discriminate.
Qed.

(** X23. [main()] of GetMediaPipe.py stops its streaming server only
    when the camera stops delivering frames.  It returns only after a
    failed [camera.read()], and then the HTTP loop has been ended by
    [stop()]; if instead anything raises in the loop (OpenCV, MediaPipe,
    or the JPEG encoder inside [update_frame]), the exception leaves
    [main()] and [stop()] is never called: the HTTP server is still
    serving and the listening TCP socket is still open. *)
Theorem X23_producer_stops_its_server_only_when_the_camera_ends :
  forall (S : Type) (data_callback : option (S -> Motiontask.HandData -> S))
         (expanduser : string -> string) (senv : StartEnv) (stopenv : StopEnv)
         (turns : list CameraTurn) (cb : S),
    http_bind_ok senv = true ->
    let r := MediaPipe.main data_callback true expanduser senv stopenv turns cb in
    exists srv : StreamingServer,
      fst (fst (fst r)) = Some srv
      /\ match snd (fst r) with
         | RunReturned =>
             In CameraEnds turns
             /\ match server srv with
                | Some h => serving h = false
                | None => False
                end
         | RunRaised _ => still_serving srv = true
         | RunGoesOn => still_serving srv = true /\ ~ In CameraEnds turns
         end.
Proof.
  intros S data_callback expanduser senv stopenv turns cb H. cbv zeta.
  unfold MediaPipe.main. cbn [negb].
  destruct (start_still_serving senv
              (Motion.init expanduser 8080 Motion.default_tcp_port 640 480 None true) H)
    as (srv1 & out1 & -> & S1).
  pose proof (producer_loop_serving data_callback turns srv1 cb) as (A & B & C).
  cbv zeta in A, B, C.
  destruct (MediaPipe.loop data_callback turns srv1 cb) as [[[srv2 cb2] e2] out2].
  cbn [fst snd] in *.
  destruct e2 as [| |e]; cbn [fst snd].
  - exists srv2. split; [reflexivity|]. split; [congruence | apply C; reflexivity].
  - exists (result_self (Motion.stop stopenv srv2)). split; [reflexivity|].
    split; [apply B; reflexivity|].
    rewrite stop_server. rewrite S1 in A. unfold still_serving in A.
    destruct (server srv2) as [h|]; [reflexivity | discriminate A].
  - exists srv2. split; [reflexivity|]. congruence.
Qed.

Lemma X23_witness :
  let senv := {| http_bind_ok := true; vcam_answer := VcamImportError;
                 tcp_bind_ok := true |} in
  let r := MediaPipe.main (S := unit) None true (fun p => p) senv stop_ok
             [ CameraFrame (solid_frame 2 1) [] env_ok None;
               CameraFrame empty_frame [] env_ok None; CameraEnds ] tt in
  snd (fst r) = RunRaised (RaiseException cv2_error)
  /\ exists srv : StreamingServer,
       fst (fst (fst r)) = Some srv /\ still_serving srv = true.
Proof.
  intros senv r.
  assert (E : snd (fst r) = RunRaised (RaiseException cv2_error))
    by (vm_compute; reflexivity).
  split; [exact E|].
  destruct (X23_producer_stops_its_server_only_when_the_camera_ends unit None
              (fun p => p) senv stop_ok
              [ CameraFrame (solid_frame 2 1) [] env_ok None;
                CameraFrame empty_frame [] env_ok None; CameraEnds ] tt eq_refl)
    as (srv & Es & M).
  fold r in Es, M. rewrite E in M.
  exists srv. split; [exact Es | exact M].
Defined.

(** ** [run()] of the depth streamer when [stop()] may not come back *)

Lemma shutdown_returns_quiet (self : StreamingServer) :
  shutdown_returns false self = true.
Proof.
  unfold shutdown_returns. destruct (server self) as [h|]; [|reflexivity].
  rewrite andb_false_r. reflexivity.
Qed.

Lemma shutdown_blocks (self : StreamingServer) :
  still_serving self = true -> shutdown_returns true self = false.
Proof.
  unfold still_serving, shutdown_returns.
  destruct (server self) as [h|]; [|discriminate].
  destruct (serving h); [reflexivity | discriminate].
Qed.

(** Without a handler that streams, the call is the [run()] modelled
    first. *)
Lemma streamer_run_call_quiet (dev : DeviceAnswer) (senv : StartEnv)
    (stopenv : StopEnv) (turns : list DepthTurn) (self : OAKDepthStreamer) :
  streamer_run_call false dev senv stopenv turns self
  = (fst (fst (Streamer.run dev senv stopenv turns self)),
     RunEnds (snd (fst (Streamer.run dev senv stopenv turns self))),
     snd (Streamer.run dev senv stopenv turns self)).
Proof.
  unfold streamer_run_call, Streamer.run, run_finally, streamer_stop_call.
  destruct (Streamer.start dev senv self) as [[self1 [[|]|e]] out1]; try reflexivity.
  destruct (Streamer.loop turns self1) as [[self2 [| |[e| |]]] out2]; try reflexivity;
    rewrite shutdown_returns_quiet;
    destruct (Streamer.stop stopenv self2) as [[self3 e3] out3];
    cbn [fst snd]; rewrite <- ?app_assoc; reflexivity.
Qed.

Lemma streamer_loop_serving (turns : list DepthTurn) (self : OAKDepthStreamer) :
  still_serving (streaming_server (fst (fst (Streamer.loop turns self))))
  = still_serving (streaming_server self).
Proof.
  revert self. induction turns as [|t turns IH]; intros self;
    cbn [Streamer.loop]; destruct (running self); cbn [negb]; try reflexivity.
  assert (T : still_serving (streaming_server (fst (fst (Streamer.turn t self))))
              = still_serving (streaming_server self)).
  { destruct t as [picture closest env | e | ]; [|reflexivity|reflexivity].
    unfold Streamer.turn. cbv zeta.
    destruct (if negb (f_width picture =? 640) || negb (f_height picture =? 480)
              then cv_resize env picture 640 480 else Some picture) as [dst|];
      [|reflexivity].
    rewrite depth_update_frame.
    pose proof (update_frame_still_serving env (streaming_server self) dst) as U.
    destruct (Motion.update_frame env (streaming_server self) dst)
      as [srv out|e srv out]; exact U. }
  destruct (Streamer.turn t self) as [[self1 [e|]] out1]; cbn [fst snd] in *;
    [exact T|].
  specialize (IH self1).
  destruct (Streamer.loop turns self1) as [[self2 e2] out2]. cbn [fst snd] in *.
  congruence.
Qed.


